(** * elasticsearch-replay: the record/replay transports

    A shallow embedding of [elasticsearch_replay/transport.py]: the
    transcript format written by [RecordTransport], the lazy decoder and the
    match verification of [ReplayTransport].

    Python values are embedded as [pyval], text as [string], exceptions as
    the data type [exn] carried by the [result] monad, and the mutable
    objects (the transcript file, the generator, the module logger, the
    connection) as fields of explicit state records.  The serializer, the
    deserializer, the live call and the connection's error hook belong to
    the host client library; they are variables of the model. *)

From Stdlib Require Import String Ascii List ZArith Bool Arith Lia.
From Stdlib Require Import Permutation DecimalString DecimalZ DecimalPos.
Import ListNotations.

Local Open Scope list_scope.
Local Open Scope string_scope.

(** ** Python text operations *)

Module PyStr.

Definition NL : ascii := "010"%char.
Definition SP : ascii := " "%char.
Definition DQ : ascii := "034"%char.

(** Text written with ['] where the transcript has a double quote. *)
Fixpoint dq (s : string) : string :=
  match s with
  | EmptyString => EmptyString
  | String c s' => String (if Ascii.eqb c "'" then DQ else c) (dq s')
  end.

(** [s.split(sep)] for a one-character separator: always at least one
    piece. *)
Fixpoint split (sep : ascii) (s : string) : list string :=
  match s with
  | EmptyString => [EmptyString]
  | String c s' =>
      if Ascii.eqb c sep then EmptyString :: split sep s'
      else match split sep s' with
           | [] => [String c EmptyString]
           | p :: ps => String c p :: ps
           end
  end.

(** [sep.join(l)]. *)
Fixpoint join (sep : string) (l : list string) : string :=
  match l with
  | [] => EmptyString
  | [x] => x
  | x :: xs => x ++ sep ++ join sep xs
  end.

(** [s.startswith(p)]. *)
Definition startswith (p s : string) : bool := String.prefix p s.

(** [s.endswith(c)] for a one-character suffix. *)
Fixpoint endswith (c : ascii) (s : string) : bool :=
  match s with
  | EmptyString => false
  | String a EmptyString => Ascii.eqb a c
  | String _ s' => endswith c s'
  end.

(** The slice [s[n:]]. *)
Fixpoint drop (n : nat) (s : string) : string :=
  match n, s with
  | O, _ => s
  | S n', String _ s' => drop n' s'
  | S _, EmptyString => EmptyString
  end.

(** [s.rstrip('\n')]. *)
Fixpoint rstrip (s : string) : string :=
  match s with
  | EmptyString => EmptyString
  | String c s' =>
      match rstrip s' with
      | EmptyString => if Ascii.eqb c NL then EmptyString
                       else String c EmptyString
      | r => String c r
      end
  end.

(** The lines a file object yields when iterated: each keeps its
    newline, the last one may lack it. *)
Fixpoint lines (s : string) : list string :=
  match s with
  | EmptyString => []
  | String c s' =>
      if Ascii.eqb c NL then String c EmptyString :: lines s'
      else match lines s' with
           | [] => [String c EmptyString]
           | l :: ls => String c l :: ls
           end
  end.

(** Membership of a character. *)
Fixpoint contains (c : ascii) (s : string) : bool :=
  match s with
  | EmptyString => false
  | String a s' => Ascii.eqb a c || contains c s'
  end.

Definition is_space (c : ascii) : bool :=
  let n := nat_of_ascii c in
  (n =? 32)%nat || ((9 <=? n)%nat && (n <=? 13)%nat).

Fixpoint lstrip_ws (s : string) : string :=
  match s with
  | String c s' => if is_space c then lstrip_ws s' else s
  | EmptyString => s
  end.

Fixpoint rstrip_ws (s : string) : string :=
  match s with
  | EmptyString => EmptyString
  | String c s' =>
      match rstrip_ws s' with
      | EmptyString => if is_space c then EmptyString
                       else String c EmptyString
      | r => String c r
      end
  end.

Definition is_digit (c : ascii) : bool :=
  let n := nat_of_ascii c in ((48 <=? n) && (n <=? 57))%nat.

Fixpoint all_digits (s : string) : bool :=
  match s with
  | EmptyString => true
  | String c s' => is_digit c && all_digits s'
  end.

(** [str(n)] and ["%s" % n] for an integer. *)
Definition str_int (n : Z) : string := NilZero.string_of_int (Z.to_int n).

(** [int(s)] in base ten: white space around the literal, an optional
    sign, then digits; [None] stands for [ValueError]. *)
Definition int (s : string) : option Z :=
  match rstrip_ws (lstrip_ws s) with
  | String "+" d => option_map (fun u => Z.of_int (Decimal.Pos u))
                               (NilZero.uint_of_string d)
  | String "-" d => option_map (fun u => Z.of_int (Decimal.Neg u))
                               (NilZero.uint_of_string d)
  | d => option_map (fun u => Z.of_int (Decimal.Pos u))
                    (NilZero.uint_of_string d)
  end.

End PyStr.

(** ** Python values *)

(** The values a request or response body can take; [PDict] lists the
    items of a dictionary, keys unique. *)
#[warnings="-register-all"]
Inductive pyval : Type :=
| PNone
| PBool (b : bool)
| PInt (n : Z)
| PStr (s : string)
| PList (l : list pyval)
| PDict (items : list (string * pyval)).

Fixpoint dict_get {A : Type} (k : string) (d : list (string * A)) : option A :=
  match d with
  | [] => None
  | (k', v) :: d' => if String.eqb k k' then Some v else dict_get k d'
  end.

(** [d[k] = v]: replaces the value of an existing key in place, appends a
    new one. *)
Fixpoint dict_set {A : Type} (k : string) (v : A) (d : list (string * A))
  : list (string * A) :=
  match d with
  | [] => [(k, v)]
  | (k', v') :: d' =>
      if String.eqb k k' then (k, v) :: d' else (k', v') :: dict_set k v d'
  end.

(** The truth value of [v] in [if v]. *)
Definition truthy (v : pyval) : bool :=
  match v with
  | PNone => false
  | PBool b => b
  | PInt n => negb (n =? 0)%Z
  | PStr s => negb (s =? EmptyString)
  | PList l => match l with [] => false | _ => true end
  | PDict d => match d with [] => false | _ => true end
  end.

(** [a == b]: numbers and booleans compare by value, lists item by item,
    dictionaries key by key whatever the order of their items. *)
Fixpoint py_eqb (a b : pyval) {struct a} : bool :=
  match a, b with
  | PNone, PNone => true
  | PBool x, PBool y => Bool.eqb x y
  | PBool x, PInt n => (Z.b2z x =? n)%Z
  | PInt n, PBool y => (n =? Z.b2z y)%Z
  | PInt x, PInt y => (x =? y)%Z
  | PStr x, PStr y => (x =? y)
  | PList xs, PList ys =>
      (fix go (xs ys : list pyval) {struct xs} : bool :=
         match xs, ys with
         | [], [] => true
         | x :: xs', y :: ys' => py_eqb x y && go xs' ys'
         | _, _ => false
         end) xs ys
  | PDict xs, PDict ys =>
      (length xs =? length ys)%nat &&
      (fix go (xs : list (string * pyval)) {struct xs} : bool :=
         match xs with
         | [] => true
         | (k, v) :: xs' =>
             match dict_get k ys with
             | Some w => py_eqb v w
             | None => false
             end && go xs'
         end) xs
  | _, _ => false
  end.

(** An HTTP status as the transports see it: the integer code, or the
    text the client library puts in its place when no response came. *)
Inductive status_val : Type :=
| StatusCode (n : Z)
| StatusText (s : string).

(** ["%s" % status]. *)
Definition str_status (st : status_val) : string :=
  match st with
  | StatusCode n => PyStr.str_int n
  | StatusText s => s
  end.

(** ** Exceptions *)

(** Modelled from the spec: [elasticsearch_replay/exceptions.py] is not
    among the sources; its three classes [RequestMatchError],
    [ReplayLogExceededError] and [ReplayFileParseError] are the distinct
    conditions "request mismatch", "replay log exceeded" and "parse error
    wrapping the underlying cause".  The other constructors are the
    built-in and client-library exceptions the transports meet. *)
Inductive exn : Type :=
| TransportError (status : status_val) (info : pyval)
| SerializationError
| ValueError
| IndexError
| AttributeError
| IOError
| RequestMatchError
| ReplayLogExceededError
| ReplayFileParseError (cause : exn).

Inductive result (A : Type) : Type :=
| Return (a : A)
| Raise (e : exn).
Arguments Return {A} a.
Arguments Raise {A} e.

Definition bind {A B : Type} (r : result A) (k : A -> result B) : result B :=
  match r with
  | Return a => k a
  | Raise e => Raise e
  end.

Notation "x <- r ;; k" := (bind r (fun x => k))
  (at level 61, r at next level, right associativity).

Definition is_SerializationError (e : exn) : bool :=
  match e with SerializationError => true | _ => false end.

(** Computations on a mutable object of type [S] that may raise. *)
Definition M (S A : Type) : Type := S -> result A * S.

Definition ret {S A : Type} (a : A) : M S A := fun s => (Return a, s).

Definition throw {S A : Type} (e : exn) : M S A := fun s => (Raise e, s).

Definition lift {S A : Type} (r : result A) : M S A := fun s => (r, s).

Definition mbind {S A B : Type} (m : M S A) (k : A -> M S B) : M S B :=
  fun s =>
    match m s with
    | (Return a, s') => k a s'
    | (Raise e, s') => (Raise e, s')
    end.

Notation "x <~ m ;; k" := (mbind m (fun x => k))
  (at level 61, m at next level, right associativity).

(** ** [urllib.urlencode] *)

Module PyUrl.

Definition hex_digit (n : nat) : ascii :=
  match n with
  | 0 => "0" | 1 => "1" | 2 => "2" | 3 => "3" | 4 => "4" | 5 => "5"
  | 6 => "6" | 7 => "7" | 8 => "8" | 9 => "9" | 10 => "A" | 11 => "B"
  | 12 => "C" | 13 => "D" | 14 => "E" | _ => "F"
  end%char.

(** The characters [quote] never escapes: letters, digits and [_.-]. *)
Definition always_safe (c : ascii) : bool :=
  let n := nat_of_ascii c in
  (((65 <=? n) && (n <=? 90)) || ((97 <=? n) && (n <=? 122))
   || ((48 <=? n) && (n <=? 57))
   || (n =? 95) || (n =? 46) || (n =? 45))%nat.

(** One character of [quote_plus(s)]: a space becomes [+], an unsafe
    character [%XX]. *)
Definition quote_plus_char (c : ascii) : string :=
  if always_safe c then String c EmptyString
  else if Ascii.eqb c PyStr.SP then "+"
  else let n := nat_of_ascii c in
       String "%" (String (hex_digit (n / 16))
                          (String (hex_digit (n mod 16)) EmptyString)).

Fixpoint quote_plus (s : string) : string :=
  match s with
  | EmptyString => EmptyString
  | String c s' => quote_plus_char c ++ quote_plus s'
  end.

(** [urlencode(query)] over the items of the mapping, keys and values
    already converted by [str]. *)
Definition urlencode (query : list (string * string)) : string :=
  PyStr.join "&"
    (map (fun kv => quote_plus (fst kv) ++ "=" ++ quote_plus (snd kv)) query).

End PyUrl.

(** ** A JSON serializer and deserializer

    An instance of the client library's serializer contract, used to run
    the transports on concrete transcripts: [dumps] leaves text alone and
    writes any other value the way [json.dumps] does; [loads] reads JSON
    text and raises [SerializationError] otherwise.  Numbers are integers
    and text is ASCII in this instance. *)

Module Json.

Definition is_ws (c : ascii) : bool :=
  let n := nat_of_ascii c in
  (n =? 32)%nat || (n =? 9)%nat || (n =? 10)%nat || (n =? 13)%nat.

Fixpoint skip_ws (s : string) : string :=
  match s with
  | String c s' => if is_ws c then skip_ws s' else s
  | EmptyString => s
  end.

(** The longest prefix of digits and what follows it. *)
Fixpoint span_digits (s : string) : string * string :=
  match s with
  | String c s' =>
      if PyStr.is_digit c then let (d, r) := span_digits s' in (String c d, r)
      else (EmptyString, s)
  | EmptyString => (EmptyString, EmptyString)
  end.

Definition hex_val (c : ascii) : option nat :=
  let n := nat_of_ascii c in
  if ((48 <=? n) && (n <=? 57))%nat then Some (n - 48)
  else if ((65 <=? n) && (n <=? 70))%nat then Some (n - 55)
  else if ((97 <=? n) && (n <=? 102))%nat then Some (n - 87)
  else None.

(** The characters of a string literal after its opening quote, up to the
    closing one. *)
Fixpoint parse_chars (fuel : nat) (s : string) : option (string * string) :=
  match fuel with
  | O => None
  | S fuel' =>
      let continue (c : ascii) (r : string) :=
        match parse_chars fuel' r with
        | Some (t, r') => Some (String c t, r')
        | None => None
        end in
      match s with
      | EmptyString => None
      | String c r =>
          if Ascii.eqb c PyStr.DQ then Some (EmptyString, r)
          else if Ascii.eqb c "\" then
            match r with
            | String "\" r' => continue "\"%char r'
            | String "/" r' => continue "/"%char r'
            | String "n" r' => continue "010"%char r'
            | String "t" r' => continue "009"%char r'
            | String "r" r' => continue "013"%char r'
            | String "b" r' => continue "008"%char r'
            | String "f" r' => continue "012"%char r'
            | String "u" (String "0" (String "0" (String h (String l r')))) =>
                match hex_val h, hex_val l with
                | Some a, Some b =>
                    if (a <? 8)%nat then continue (ascii_of_nat (16 * a + b)) r'
                    else None
                | _, _ => None
                end
            | String e r' =>
                if Ascii.eqb e PyStr.DQ then continue PyStr.DQ r' else None
            | EmptyString => None
            end
          else if (nat_of_ascii c <? 32)%nat then None
          else continue c r
      end
  end.

Definition parse_string (s : string) : option (string * string) :=
  parse_chars (S (String.length s)) s.

(** An integer literal; a fraction or an exponent is outside this
    instance. *)
Definition parse_number (s : string) : option (Z * string) :=
  let '(neg, s1) := match s with
                    | String "-" r => (true, r)
                    | _ => (false, s)
                    end in
  let (d, r) := span_digits s1 in
  match d with
  | EmptyString => None
  | String "0" (String _ _) => None
  | _ =>
      match r with
      | String "." _ | String "e" _ | String "E" _ => None
      | _ =>
          match NilZero.uint_of_string d with
          | Some u => Some (if neg then Z.of_int (Decimal.Neg u)
                            else Z.of_int (Decimal.Pos u), r)
          | None => None
          end
      end
  end.

Fixpoint parse_value (fuel : nat) (s : string) : option (pyval * string) :=
  match fuel with
  | O => None
  | S fuel' =>
      match skip_ws s with
      | String "{" r =>
          match skip_ws r with
          | String "}" r' => Some (PDict [], r')
          | r1 => parse_members fuel' [] r1
          end
      | String "[" r =>
          match skip_ws r with
          | String "]" r' => Some (PList [], r')
          | r1 => parse_elements fuel' [] r1
          end
      | String c r as s1 =>
          if Ascii.eqb c PyStr.DQ then
            match parse_string r with
            | Some (t, r') => Some (PStr t, r')
            | None => None
            end
          else if PyStr.startswith "true" s1
               then Some (PBool true, PyStr.drop 4 s1)
          else if PyStr.startswith "false" s1
               then Some (PBool false, PyStr.drop 5 s1)
          else if PyStr.startswith "null" s1 then Some (PNone, PyStr.drop 4 s1)
          else match parse_number s1 with
               | Some (n, r') => Some (PInt n, r')
               | None => None
               end
      | EmptyString => None
      end
  end
with parse_elements (fuel : nat) (acc : list pyval) (s : string)
  : option (pyval * string) :=
  match fuel with
  | O => None
  | S fuel' =>
      match parse_value fuel' s with
      | Some (v, r) =>
          match skip_ws r with
          | String "," r' => parse_elements fuel' (acc ++ [v])%list r'
          | String "]" r' => Some (PList (acc ++ [v])%list, r')
          | _ => None
          end
      | None => None
      end
  end
with parse_members (fuel : nat) (acc : list (string * pyval)) (s : string)
  : option (pyval * string) :=
  match fuel with
  | O => None
  | S fuel' =>
      match skip_ws s with
      | String c r =>
          if Ascii.eqb c PyStr.DQ then
            match parse_string r with
            | Some (k, r1) =>
                match skip_ws r1 with
                | String ":" r2 =>
                    match parse_value fuel' r2 with
                    | Some (v, r3) =>
                        match skip_ws r3 with
                        | String "," r4 =>
                            parse_members fuel' (dict_set k v acc) r4
                        | String "}" r4 =>
                            Some (PDict (dict_set k v acc), r4)
                        | _ => None
                        end
                    | None => None
                    end
                | _ => None
                end
            | None => None
            end
          else None
      | EmptyString => None
      end
  end.

Definition loads (s : string) : result pyval :=
  match parse_value (S (String.length s)) s with
  | Some (v, r) =>
      match skip_ws r with
      | EmptyString => Return v
      | _ => Raise SerializationError
      end
  | None => Raise SerializationError
  end.

(** The digit of [n] in lower-case hexadecimal, as [%04x] writes it. *)
Definition hex_lower (n : nat) : ascii :=
  match n with
  | 0 => "0" | 1 => "1" | 2 => "2" | 3 => "3" | 4 => "4" | 5 => "5"
  | 6 => "6" | 7 => "7" | 8 => "8" | 9 => "9" | 10 => "a" | 11 => "b"
  | 12 => "c" | 13 => "d" | 14 => "e" | _ => "f"
  end%char.

(** One character inside a JSON string literal. *)
Definition escape_char (c : ascii) : string :=
  let n := nat_of_ascii c in
  if Ascii.eqb c PyStr.DQ then String "\" (String PyStr.DQ EmptyString)
  else if Ascii.eqb c "\" then "\\"
  else if (n =? 10)%nat then "\n"
  else if (n =? 13)%nat then "\r"
  else if (n =? 9)%nat then "\t"
  else if (n =? 8)%nat then "\b"
  else if (n =? 12)%nat then "\f"
  else if ((n <? 32)%nat || (n =? 127)%nat)
       then "\u00" ++ String (hex_lower (n / 16))
                             (String (hex_lower (n mod 16)) EmptyString)
  else String c EmptyString.

Fixpoint escape (s : string) : string :=
  match s with
  | EmptyString => EmptyString
  | String c s' => escape_char c ++ escape s'
  end.

Definition quote (s : string) : string :=
  String PyStr.DQ (escape s ++ String PyStr.DQ EmptyString).

Fixpoint is_ascii (s : string) : bool :=
  match s with
  | EmptyString => true
  | String c s' => (nat_of_ascii c <? 128)%nat && is_ascii s'
  end.

Fixpoint all_ascii (v : pyval) : bool :=
  match v with
  | PStr s => is_ascii s
  | PList l => forallb all_ascii l
  | PDict d =>
      (fix go (d : list (string * pyval)) : bool :=
         match d with
         | [] => true
         | (k, w) :: d' => is_ascii k && all_ascii w && go d'
         end) d
  | _ => true
  end.

(** [json.dumps(v)] with the default separators. *)
Fixpoint encode (v : pyval) : string :=
  match v with
  | PNone => "null"
  | PBool true => "true"
  | PBool false => "false"
  | PInt n => PyStr.str_int n
  | PStr s => quote s
  | PList l => "[" ++ PyStr.join ", " (map encode l) ++ "]"
  | PDict d =>
      "{" ++ PyStr.join ", "
               ((fix go (d : list (string * pyval)) : list string :=
                   match d with
                   | [] => []
                   | (k, w) :: d' => (quote k ++ ": " ++ encode w) :: go d'
                   end) d) ++ "}"
  end.

Definition dumps (v : pyval) : result string :=
  match v with
  | PStr s => Return s
  | _ => if all_ascii v then Return (encode v) else Raise SerializationError
  end.

End Json.

(** ** The transcript markers and the objects both transports share *)

Definition nl : string := String PyStr.NL EmptyString.

Definition IN : string := "#> ".
Definition OUT : string := "#< ".
Definition END : string := "##" ++ nl.

(** The [params] argument of a call: [None] or a mapping, given by its
    items in iteration order. *)
Definition params_t : Type := option (list (string * string)).

(** [urlencode(params) if params else '-']. *)
Definition params_token (params : params_t) : string :=
  match params with
  | Some (kv :: q) => PyUrl.urlencode (kv :: q)
  | _ => "-"
  end.

(** One call of [perform_request]. *)
Record Request : Type := {
  req_method : string;
  req_url : string;
  req_params : params_t;
  req_body : pyval
}.

(** What the module logger [elasticsearch.replay] received. *)
Inductive LogEntry : Type :=
| LogError (value recorded : pyval)
| LogException (msg : string) (e : exn).

(** The [recfile] option of the constructor: absent from [kwargs] is
    [None] of [option]; given, it is [None], a path or an open handle. *)
Inductive recfile_arg (H : Type) : Type :=
| ArgNone
| ArgPath (path : string)
| ArgHandle (h : H).
Arguments ArgNone {H}.
Arguments ArgPath {H} path.
Arguments ArgHandle {H} h.

(** [kwargs.pop('recfile', None)]. *)
Definition pop_recfile {H : Type} (kwargs : option (recfile_arg H))
  : recfile_arg H :=
  match kwargs with
  | Some a => a
  | None => ArgNone
  end.

(** ** RecordTransport *)

Module RecordTransport.

(** The operations the transport needs of its [recfile] handle. *)
Class FileLike (F : Type) : Type := {
  write : string -> M F unit;
  flush : M F unit
}.

Section WithCollaborators.

(** [self.serializer.dumps]. *)
Variable dumps : pyval -> result string.

(** The live service behind [Transport.perform_request], acting on the
    state [World] of the connection. *)
Variable World : Type.
Variable live_perform_request :
  string -> string -> params_t -> pyval -> M World (status_val * pyval).

(** The [params] object once that call is over: the host class works on
    the caller's mapping and may take entries out of it. *)
Variable live_params :
  string -> string -> params_t -> pyval -> World -> params_t.

Context {F : Type} {file_like : FileLike F}.

Record t : Type := {
  recfile : option F;
  log : list LogEntry;
  world : World
}.

(** [('\n%s' % mark).join(body.split('\n')) if body else '-']. *)
Definition out_body (mark body : string) : string :=
  if negb (body =? EmptyString)
  then PyStr.join (nl ++ mark) (PyStr.split PyStr.NL body)
  else "-".

(** [self.serializer.dumps(body) if body else None]. *)
Definition dumps_body (body : pyval) : result (option string) :=
  if truthy body then s <- dumps body ;; Return (Some s) else Return None.

Definition format_request (method url : string) (params : params_t)
    (body : pyval) : result string :=
  body' <- dumps_body body ;;
  let out_body := match body' with
                  | Some s => out_body IN s
                  | None => "-"
                  end in
  let out_params := params_token params in
  Return (IN ++ method ++ " " ++ url ++ " " ++ out_params ++ nl
          ++ IN ++ out_body ++ nl).

Definition format_response (status : status_val) (body : pyval)
  : result string :=
  body' <- dumps body ;;
  Return (OUT ++ str_status status ++ nl ++ OUT ++ out_body OUT body' ++ nl).

(** The body of the [try] that stores one exchange. *)
Definition store (method url : string) (params : params_t) (body : pyval)
    (status : status_val) (data : pyval) : M F unit :=
  req <~ lift (format_request method url params body) ;;
  _ <~ write req ;;
  resp <~ lift (format_response status data) ;;
  _ <~ write resp ;;
  let end_mark := (if PyStr.endswith PyStr.NL resp then EmptyString else nl)
                  ++ END in
  _ <~ write end_mark ;;
  flush.

(** [if self.recfile: try: ... except Exception: logger.exception(...)]. *)
Definition record (method url : string) (params : params_t) (body : pyval)
    (status : status_val) (data : pyval) (self : t) : t :=
  match recfile self with
  | None => self
  | Some f =>
      match store method url params body status data f with
      | (Return _, f') =>
          {| recfile := Some f'; log := log self; world := world self |}
      | (Raise e, f') =>
          {| recfile := Some f';
             log := (log self
                     ++ [LogException "Unable to record request" e])%list;
             world := world self |}
      end
  end.

(** The [try] around the live call: a [TransportError] is kept for later
    and its first two arguments stand in for the status and the data. *)
Definition capture (r : result (status_val * pyval))
  : result (status_val * pyval * option exn) :=
  match r with
  | Return (status, data) => Return (status, data, None)
  | Raise (TransportError status data as e) => Return (status, data, Some e)
  | Raise e => Raise e
  end.

Definition perform_request (method url : string) (params : params_t)
    (body : pyval) : M t (status_val * pyval) :=
  fun self =>
    let params' := live_params method url params body (world self) in
    let (r, w) := live_perform_request method url params body (world self) in
    let self := {| recfile := recfile self; log := log self; world := w |} in
    match capture r with
    | Raise e => (Raise e, self)
    | Return (status, data, exception) =>
        let self := record method url params' body status data self in
        match exception with
        | Some e => (Raise e, self)
        | None => (Return (status, data), self)
        end
    end.

(** [open(path, 'w')]. *)
Variable open_w : string -> result F.

Definition prepare_output_file (path : recfile_arg F) : result (option F) :=
  match path with
  | ArgPath p =>
      if negb (p =? EmptyString) then f <- open_w p ;; Return (Some f)
      else Return None
  | ArgHandle h => Return (Some h)
  | ArgNone => Return None
  end.

Definition init (kwargs : option (recfile_arg F)) (w : World) : result t :=
  f <- prepare_output_file (pop_recfile kwargs) ;;
  Return {| recfile := f; log := []; world := w |}.

(** A transport without a file: calls go through and nothing is
    stored. *)
Definition pass_through (w : World) : t :=
  {| recfile := None; log := []; world := w |}.

End WithCollaborators.

Arguments recfile {World F} _.
Arguments log {World F} _.
Arguments world {World F} _.
Arguments t : clear implicits.
Arguments store dumps {F file_like}.
Arguments record dumps {World F file_like}.
Arguments perform_request dumps {World} live_perform_request live_params
  {F file_like}.
Arguments init {World F} open_w kwargs w.
Arguments pass_through {World F} w.

End RecordTransport.

(** ** ReplayTransport *)

(** A readable file object: its text and the lines not yet iterated. *)
Record FileObj : Type := {
  content : string;
  unread : list string
}.

(** [StringIO.StringIO(text)], or a file just opened for reading. *)
Definition StringIO (text : string) : FileObj :=
  {| content := text; unread := PyStr.lines text |}.

(** [f.seek(0)]. *)
Definition seek0 (f : FileObj) : FileObj :=
  {| content := content f; unread := PyStr.lines (content f) |}.

(** [f.tell()]: the text before the lines not yet iterated. *)
Definition position (f : FileObj) : nat :=
  String.length (content f)
  - String.length (String.concat EmptyString (unread f)).

(** The handle is at the end of its text. *)
Definition at_end (f : FileObj) : Prop := unread f = [].

(** [f.write(s)] on a file kept in memory: [s] goes in at the position,
    over what was there, and the position moves past it. *)
Definition write_at (s : string) (f : FileObj) : FileObj :=
  let p := position f in
  let after := PyStr.drop (p + String.length s) (content f) in
  {| content := String.substring 0 p (content f) ++ s ++ after;
     unread := PyStr.lines after |}.

(** The dictionary [get_whole_request_info] returns. *)
Module Exchange.

Record t : Type := {
  method : string;
  url : string;
  params : string;
  body : pyval;
  status : Z;
  response : string
}.

End Exchange.

(** The keys of the comparison record [current]. *)
Inductive Key : Type := Kmethod | Kurl | Kparams | Kbody.

(** [replay[key]]. *)
Definition item (replay : Exchange.t) (key : Key) : pyval :=
  match key with
  | Kmethod => PStr (Exchange.method replay)
  | Kurl => PStr (Exchange.url replay)
  | Kparams => PStr (Exchange.params replay)
  | Kbody => Exchange.body replay
  end.

(** What [next()] on the generator gives. *)
Inductive GenOutcome : Type :=
| Yield (data : Exchange.t)
| GenRaise (e : exn)
| StopIteration.

(** A generator that returned or raised is finished for good. *)
Inductive GenState : Type := GenActive | GenFinished.

Module ReplayTransport.

Section WithCollaborators.

(** [self.serializer.dumps] and [self.deserializer.loads]. *)
Variable dumps : pyval -> result string.
Variable loads : string -> result pyval.

(** The order in which [current.items()] lists the four keys. *)
Variable key_order : list Key.

(** [open(path, 'r')]. *)
Variable open_r : string -> result FileObj.

(** The state of the connection pool, which replay reaches only to raise
    the error of a stored status outside 2xx. *)
Variable World : Type.

(** [self.get_connection()], which may change the pool, and
    [connection._raise_error(status, data)] of the connection it gave. *)
Variable Connection : Type.
Variable get_connection : M World Connection.
Variable raise_error : Connection -> Z -> pyval -> result unit.

Record t : Type := {
  recfile : FileObj;
  replay_iterator : GenState;
  log : list LogEntry;
  connection : World
}.

(** [try: v = loads(s); except SerializationError: v = s]. *)
Definition loads_or_keep (s : string) : result pyval :=
  match loads s with
  | Return v => Return v
  | Raise e => if is_SerializationError e then Return (PStr s) else Raise e
  end.

(** [value.rstrip('\n') if isinstance(value, basestring) else value]. *)
Definition rstrip_value (v : pyval) : pyval :=
  match v with
  | PStr s => PStr (PyStr.rstrip s)
  | _ => v
  end.

Definition get_whole_request_info (req resp : list string)
  : result Exchange.t :=
  header <- match req with
            | h :: _ => Return h
            | [] => Raise IndexError
            end ;;
  match PyStr.split PyStr.SP header with
  | [method; url; params] =>
      let body := PyStr.join nl (tl req) in
      status <- match resp with
                | s :: _ => Return s
                | [] => Raise IndexError
                end ;;
      let response := PyStr.join nl (tl resp) in
      deserialized <- (if negb (body =? "-" ++ nl) then loads_or_keep body
                       else Return (PStr body)) ;;
      status' <- match PyStr.int (PyStr.rstrip status) with
                 | Some n => Return n
                 | None => Raise ValueError
                 end ;;
      Return {| Exchange.method := PyStr.rstrip method;
                Exchange.url := PyStr.rstrip url;
                Exchange.params := PyStr.rstrip params;
                Exchange.body := rstrip_value deserialized;
                Exchange.status := status';
                Exchange.response := PyStr.rstrip response |}
  | _ => Raise ValueError
  end.

(** The body of the generator [create_replay_iterator], run from the top
    of its loop until it yields, raises or returns; the lines left over
    stay in the file. *)
Fixpoint replay_loop (req resp : list string) (ls : list string)
  : GenOutcome * list string :=
  match ls with
  | [] => (StopIteration, [])
  | line :: rest =>
      if line =? END then
        match get_whole_request_info req resp with
        | Return data => (Yield data, rest)
        | Raise e => (GenRaise e, rest)
        end
      else if PyStr.startswith IN line
      then replay_loop (req ++ [PyStr.drop 3 line])%list resp rest
      else if PyStr.startswith OUT line
      then replay_loop req (resp ++ [PyStr.drop 3 line])%list rest
      else replay_loop req resp rest
  end.

(** [self.replay_iterator.next()]. *)
Definition next (self : t) : GenOutcome * t :=
  match replay_iterator self with
  | GenFinished => (StopIteration, self)
  | GenActive =>
      let (o, rest) := replay_loop [] [] (unread (recfile self)) in
      let f := {| content := content (recfile self); unread := rest |} in
      (o, {| recfile := f;
             replay_iterator := match o with
                                | Yield _ => GenActive
                                | _ => GenFinished
                                end;
             log := log self;
             connection := connection self |})
  end.

(** [check_match] over the items of [current], with what it logs. *)
Fixpoint check_match (replay : Exchange.t) (current : list (Key * pyval))
  : bool * list LogEntry :=
  match current with
  | [] => (true, [])
  | (key, value) :: rest =>
      if negb (py_eqb value (item replay key))
      then (false, [LogError value (item replay key)])
      else check_match replay rest
  end.

(** The comparison record of [get_next_replay]. *)
Definition current_value (method url : string) (params : params_t)
    (body : pyval) (key : Key) : pyval :=
  match key with
  | Kmethod => PStr method
  | Kurl => PStr url
  | Kparams => PStr (params_token params)
  | Kbody => if truthy body then body else PStr "-"
  end.

Definition current_items (method url : string) (params : params_t)
    (body : pyval) : list (Key * pyval) :=
  map (fun key => (key, current_value method url params body key)) key_order.

Definition get_next_replay (method url : string) (params : params_t)
    (body : pyval) : M t (Z * pyval) :=
  fun self =>
    match next self with
    | (StopIteration, self) => (Raise ReplayLogExceededError, self)
    | (GenRaise e, self) => (Raise (ReplayFileParseError e), self)
    | (Yield data, self) =>
        let (ok, entries) :=
          check_match data (current_items method url params body) in
        let self := {| recfile := recfile self;
                       replay_iterator := replay_iterator self;
                       log := (log self ++ entries)%list;
                       connection := connection self |} in
        if negb ok then (Raise RequestMatchError, self)
        else (data' <- loads (Exchange.response data) ;;
              Return (Exchange.status data, data'), self)
    end.

(** The normalisation of the incoming body: serialized, then
    deserialized when that works. *)
Definition normalize (body : pyval) : result pyval :=
  s <- dumps body ;;
  if negb (s =? EmptyString) then loads_or_keep s else Return (PStr s).

(** The transport [self] with the pool in the state [w]. *)
Definition with_connection (w : World) (self : t) : t :=
  {| recfile := recfile self;
     replay_iterator := replay_iterator self;
     log := log self;
     connection := w |}.

(** A step of the pool, run on the attribute [connection] of [self]. *)
Definition on_connection {A : Type} (m : M World A) : M t A :=
  fun self =>
    let (r, w) := m (connection self) in (r, with_connection w self).

Definition perform_request (method url : string) (params : params_t)
    (body : pyval) : M t (Z * pyval) :=
  body' <~ lift (normalize body) ;;
  r <~ get_next_replay method url params body' ;;
  let (status, data) := r in
  if negb ((200 <=? status)%Z && (status <? 300)%Z)
  then (connection <~ on_connection get_connection ;;
        _ <~ lift (raise_error connection status data) ;;
        ret (status, data))
  else ret (status, data).

(** A sequence of calls, with the outcome of each. *)
Fixpoint perform_requests (calls : list Request) (self : t)
  : list (result (Z * pyval)) * t :=
  match calls with
  | [] => ([], self)
  | c :: calls' =>
      let (r, self1) :=
        perform_request (req_method c) (req_url c) (req_params c)
                        (req_body c) self in
      let (rs, self2) := perform_requests calls' self1 in
      (r :: rs, self2)
  end.

Definition prepare_output_file (path : recfile_arg FileObj)
  : result (option FileObj) :=
  match path with
  | ArgPath p =>
      if negb (p =? EmptyString) then f <- open_r p ;; Return (Some f)
      else Return None
  | ArgHandle h => Return (Some h)
  | ArgNone => Return None
  end.

(** [reset_replay_log] on the attribute [self.recfile], which is [None]
    when no file was given: [None.seek] raises [AttributeError]. *)
Definition reset_handle (f : option FileObj) : result (FileObj * GenState) :=
  match f with
  | None => Raise AttributeError
  | Some f => Return (seek0 f, GenActive)
  end.

Definition reset_replay_log (self : t) : t :=
  {| recfile := seek0 (recfile self);
     replay_iterator := GenActive;
     log := log self;
     connection := connection self |}.

Definition init (kwargs : option (recfile_arg FileObj)) (w : World)
  : result t :=
  f <- prepare_output_file (pop_recfile kwargs) ;;
  fr <- reset_handle f ;;
  Return {| recfile := fst fr; replay_iterator := snd fr;
            log := []; connection := w |}.

End WithCollaborators.

Arguments recfile {World} _.
Arguments replay_iterator {World} _.
Arguments log {World} _.
Arguments connection {World} _.
Arguments next loads {World} self.
Arguments get_next_replay loads key_order {World}.
Arguments with_connection {World} w self.
Arguments on_connection {World A} m.
Arguments perform_request dumps loads key_order {World Connection}
  get_connection raise_error.
Arguments perform_requests dumps loads key_order {World Connection}
  get_connection raise_error.
Arguments reset_replay_log {World} self.
Arguments init open_r {World} kwargs w.

End ReplayTransport.

(** ** Transcripts as sequences of records *)

Module Transcript.

(** A record as its lines before the sentinel: none of them is the
    sentinel itself. *)
Definition no_sentinel (chunk : list string) : bool :=
  forallb (fun line => negb (line =? END)) chunk.

(** What the decoding loop appends to [req] and to [resp] over the lines
    of a record. *)
Definition request_lines (chunk : list string) : list string :=
  map (PyStr.drop 3) (filter (PyStr.startswith IN) chunk).

Definition response_lines (chunk : list string) : list string :=
  map (PyStr.drop 3)
      (filter (fun line => negb (PyStr.startswith IN line)
                           && PyStr.startswith OUT line) chunk).

(** The lines of a transcript made of the records [chunks], each closed
    by the sentinel, and of trailing lines [tail]. *)
Definition transcript (chunks : list (list string)) (tail : list string)
  : list string :=
  (concat (map (fun chunk => chunk ++ [END]) chunks) ++ tail)%list.

(** The record [chunk] is well formed and records the exchange [data]. *)
Definition well_formed (loads : string -> result pyval)
    (chunk : list string) (data : Exchange.t) : Prop :=
  no_sentinel chunk = true /\
  ReplayTransport.get_whole_request_info loads
    (request_lines chunk) (response_lines chunk) = Return data.

(** What the generator does with the outcome of decoding a record. *)
Definition outcome_of (r : result Exchange.t) : GenOutcome :=
  match r with
  | Return data => Yield data
  | Raise e => GenRaise e
  end.

(** The cursor is live and positioned before the lines [ls]. *)
Definition cursor_at {World : Type} (ls : list string)
    (self : ReplayTransport.t World) : Prop :=
  ReplayTransport.replay_iterator self = GenActive /\
  unread (ReplayTransport.recfile self) = ls.

(** Two transports whose files and generators are in the same state. *)
Definition same_cursor {World : Type} (a b : ReplayTransport.t World)
  : Prop :=
  ReplayTransport.recfile a = ReplayTransport.recfile b
  /\ ReplayTransport.replay_iterator a = ReplayTransport.replay_iterator b.

(** The incoming call agrees with the recorded exchange on [key]. *)
Definition agrees (data : Exchange.t) (method url : string)
    (params : params_t) (body : pyval) (key : Key) : bool :=
  py_eqb (ReplayTransport.current_value method url params body key)
         (item data key).

(** [n] successive calls of [next()] on the cursor. *)
Fixpoint pulls {World : Type} (loads : string -> result pyval) (n : nat)
    (self : ReplayTransport.t World)
  : list GenOutcome * ReplayTransport.t World :=
  match n with
  | O => ([], self)
  | S n' =>
      let (o, self1) := ReplayTransport.next loads self in
      let (os, self2) := pulls loads n' self1 in
      (o :: os, self2)
  end.

(** The placeholder [-] for an empty text. *)
Definition placeholder (s : string) : string :=
  if negb (s =? EmptyString) then s else "-".

(** Best-effort deserialization of a stored one-line body [line]: the
    placeholder stays as it is, any other text is deserialized when the
    deserializer accepts it and kept otherwise; trailing newlines are
    stripped from a text result. *)
Definition best_effort (loads : string -> result pyval) (line : string)
  : result pyval :=
  if line =? "-" then Return (PStr "-")
  else v <- ReplayTransport.loads_or_keep loads (line ++ nl) ;;
       Return (ReplayTransport.rstrip_value v).

(** The text [RecordTransport] writes for one exchange, when both
    formatters succeed. *)
Definition encode (dumps : pyval -> result string) (method url : string)
    (params : params_t) (body : pyval) (status : status_val) (data : pyval)
  : result string :=
  req <- RecordTransport.format_request dumps method url params body ;;
  resp <- RecordTransport.format_response dumps status data ;;
  Return (req ++ resp
          ++ (if PyStr.endswith PyStr.NL resp then EmptyString else nl)
          ++ END).

End Transcript.

(** ** Concrete collaborators

    The fixtures of [tests/test_transport.py]: the transcript
    [IN_CONTENTS], the [DummyConnection] that records its calls and
    answers 200 with one JSON object, and in-memory files. *)

Module Fixtures.

Definition IN_CONTENTS : string := PyStr.dq
"#> GET /myindex -
#> -
#< 200
#< {'key': 'value'}
##
#> GET /myindex2 -
#> {'req': 'body'}
#< 200
#< {'key': 'value2'}
##

".

(** The positional arguments of one call received by the connection. *)
Definition Call : Type := (string * string * params_t * pyval)%type.

(** What the host [Transport.perform_request] does before it reaches a
    connection: a body other than [None] is serialized, then the options
    [request_timeout] and [ignore] are popped from the caller's
    [params]. *)
Definition host_body (body : pyval) : result pyval :=
  match body with
  | PNone => Return PNone
  | _ => s <- Json.dumps body ;; Return (PStr s)
  end.

Definition host_option (key : string) : bool :=
  (key =? "request_timeout") || (key =? "ignore").

Definition host_params (params : params_t) : params_t :=
  option_map (filter (fun kv => negb (host_option (fst kv)))) params.

(** [Transport.perform_request] over a [DummyConnection]: a body that
    does not serialize raises before the connection is called. *)
Definition dummy_live (method url : string) (params : params_t)
    (body : pyval) : M (list Call) (status_val * pyval) :=
  fun calls =>
    match host_body body with
    | Raise e => (Raise e, calls)
    | Return body' =>
        (Return (StatusCode 200, PDict [("key", PStr "value")]),
         (calls ++ [(method, url, host_params params, body')])%list)
    end.

(** The caller's [params] after a call of the host transport. *)
Definition dummy_params (method url : string) (params : params_t)
    (body : pyval) (calls : list Call) : params_t :=
  match host_body body with
  | Raise _ => params
  | Return _ => host_params params
  end.

(** A file kept in memory. *)
#[export] Instance memory_file : RecordTransport.FileLike FileObj := {
  write := fun s f => (Return tt, write_at s f);
  flush := fun f => (Return tt, f)
}.

(** A handle on which every write fails. *)
Inductive BrokenFile : Type := Broken.

#[export] Instance broken_file : RecordTransport.FileLike BrokenFile := {
  write := fun _ f => (Raise IOError, f);
  flush := fun f => (Raise IOError, f)
}.

(** The pool of the tests hands out its one connection and stays as it
    is. *)
Definition dummy_pool : M (list Call) unit := ret tt.

(** The error the client library raises for a status and a body. *)
Definition http_error (connection : unit) (status : Z) (data : pyval)
  : result unit :=
  Raise (TransportError (StatusCode status) data).

(** The keys of [current] in the order they were written. *)
Definition source_order : list Key := [Kmethod; Kurl; Kparams; Kbody].

(** No path can be opened. *)
Definition no_files {A : Type} (path : string) : result A := Raise IOError.

(** A replay transport over the text [text], as the tests build it. *)
Definition replay_of (text : string) : result (ReplayTransport.t (list Call)) :=
  ReplayTransport.init no_files (Some (ArgHandle (StringIO text))) [].

Definition replay_request :=
  ReplayTransport.perform_request Json.dumps Json.loads source_order
    dummy_pool http_error.

Definition record_request :=
  RecordTransport.perform_request Json.dumps dummy_live dummy_params
    (F := FileObj).

(** The transport the tests build over the text [text]. *)
Definition fresh_replay (text : string) : ReplayTransport.t (list Call) :=
  {| ReplayTransport.recfile := StringIO text;
     ReplayTransport.replay_iterator := GenActive;
     ReplayTransport.log := [];
     ReplayTransport.connection := [] |}.

(** The two exchanges of [IN_CONTENTS]. *)
Definition first_exchange : Exchange.t :=
  {| Exchange.method := "GET";
     Exchange.url := "/myindex";
     Exchange.params := "-";
     Exchange.body := PStr "-";
     Exchange.status := 200;
     Exchange.response := PyStr.dq "{'key': 'value'}" |}.

Definition second_exchange : Exchange.t :=
  {| Exchange.method := "GET";
     Exchange.url := "/myindex2";
     Exchange.params := "-";
     Exchange.body := PDict [("req", PStr "body")];
     Exchange.status := 200;
     Exchange.response := PyStr.dq "{'key': 'value2'}" |}.

(** A recorded 404. *)
Definition NOT_FOUND_CONTENTS : string := PyStr.dq
"#> GET /myindex/document/1 -
#> -
#< 404
#< {'found': false}
##
".

Definition not_found_exchange : Exchange.t :=
  {| Exchange.method := "GET";
     Exchange.url := "/myindex/document/1";
     Exchange.params := "-";
     Exchange.body := PStr "-";
     Exchange.status := 404;
     Exchange.response := PyStr.dq "{'found': false}" |}.

(** The text of [test_invlid_file_format]. *)
Definition WRONG_CONTENTS : string :=
"#> some ##< odd but similar 
##
 format".

(** A well-formed record with a line that carries no marker. *)
Definition STRAY_CONTENTS : string := PyStr.dq
"#> GET /myindex -
#> -
this line carries no marker
#< 200
#< {'key': 'value'}
##
".

(** What is written for a url with a space in it. *)
Definition SPACE_CONTENTS : string :=
"#> GET /my index -
#> -
#< 200
#< {}
##
".

(** A response of two lines of plain text, and what is written for it. *)
Definition two_lines : string :=
"a
b".

Definition TEXT_CONTENTS : string :=
"#> GET /_cat/indices -
#> -
#< 200
#< a
#< b
##
".

Definition text_exchange : Exchange.t :=
  {| Exchange.method := "GET";
     Exchange.url := "/_cat/indices";
     Exchange.params := "-";
     Exchange.body := PStr "-";
     Exchange.status := 200;
     Exchange.response := "a

b" |}.

(** What is written for the request body [{}] given as text. *)
Definition EMPTY_OBJECT_CONTENTS : string := PyStr.dq
"#> GET /myindex -
#> {}
#< 200
#< {'key': 'value'}
##
".

(** A memory file nothing was written to yet. *)
Definition empty_record : RecordTransport.t (list Call) FileObj :=
  {| RecordTransport.recfile := Some (StringIO EmptyString);
     RecordTransport.log := [];
     RecordTransport.world := [] |}.

End Fixtures.

(** ** The layout of the written text *)

Module Layout.

(** The pieces a serialized text is written as, one on each line: the
    text cut at its newlines, the placeholder for an empty text. *)
Definition pieces (s : string) : list string :=
  if negb (s =? EmptyString) then PyStr.split PyStr.NL s else ["-"].

(** The pieces of the request body, [None] standing for a body that was
    not serialized. *)
Definition body_pieces (body_text : option string) : list string :=
  match body_text with
  | Some s => pieces s
  | None => ["-"]
  end.

(** The pieces as lines of the file under the marker [mark]. *)
Definition marked (mark : string) (ps : list string) : list string :=
  map (fun p => mark ++ p ++ nl) ps.

(** The pieces as the decoding loop collects them: marker cut off,
    newline kept. *)
Definition collected (ps : list string) : list string :=
  map (fun p => p ++ nl) ps.

(** The header of a request, without marker. *)
Definition header (method url : string) (params : params_t) : string :=
  method ++ " " ++ url ++ " " ++ params_token params.

(** The deserializer raises nothing but [SerializationError]. *)
Definition raises_only_SerializationError (loads : string -> result pyval)
  : Prop :=
  forall s e, loads s = Raise e -> e = SerializationError.

End Layout.

(** ** Transports at the start of a scenario *)

Module Scenario.

(** A recording transport over the memory file [f], nothing logged. *)
Definition recording_to {World : Type} (f : FileObj) (w : World)
  : RecordTransport.t World FileObj :=
  {| RecordTransport.recfile := Some f;
     RecordTransport.log := [];
     RecordTransport.world := w |}.

(** A replay transport just built over the text [text]. *)
Definition replay_over {World : Type} (text : string) (w : World)
  : ReplayTransport.t World :=
  {| ReplayTransport.recfile := StringIO text;
     ReplayTransport.replay_iterator := GenActive;
     ReplayTransport.log := [];
     ReplayTransport.connection := w |}.

(** The status is one of 200..299. *)
Definition is_2xx (status : Z) : bool :=
  ((200 <=? status) && (status <? 300))%Z.

(** The outcome of a pull is no exchange with a status outside
    200..299. *)
Definition no_error_status (o : GenOutcome) : bool :=
  match o with
  | Yield data => is_2xx (Exchange.status data)
  | _ => true
  end.

(** A sequence of calls on a recording transport, with the outcome of
    each. *)
Fixpoint record_requests {World F : Type}
    {file_like : RecordTransport.FileLike F}
    (dumps : pyval -> result string)
    (live : string -> string -> params_t -> pyval
            -> M World (status_val * pyval))
    (live_params : string -> string -> params_t -> pyval -> World
                   -> params_t)
    (calls : list Request) (self : RecordTransport.t World F)
  : list (result (status_val * pyval)) * RecordTransport.t World F :=
  match calls with
  | [] => ([], self)
  | c :: calls' =>
      let (r, self1) :=
        RecordTransport.perform_request dumps live live_params
          (req_method c) (req_url c) (req_params c) (req_body c) self in
      let (rs, self2) := record_requests dumps live live_params calls' self1 in
      (r :: rs, self2)
  end.

(** The live call leaves the [params] of the call [c] as they were. *)
Definition keeps_params {World : Type}
    (live_params : string -> string -> params_t -> pyval -> World
                   -> params_t) (c : Request) : Prop :=
  forall w : World,
    live_params (req_method c) (req_url c) (req_params c) (req_body c) w
    = req_params c.

(** The call [c], answered by the status [status] and the data [data],
    is one the transcript format carries: no space or newline in its
    method and url, a request body and a response that serialize to
    texts of one line, a status in 200..299, and a request body that
    normalizes on replay to what its stored line decodes to. *)
Definition replayable (dumps : pyval -> result string)
    (loads : string -> result pyval) (c : Request) (status : Z)
    (data : pyval) : Prop :=
  PyStr.contains PyStr.SP (req_method c) = false
  /\ PyStr.contains PyStr.NL (req_method c) = false
  /\ PyStr.contains PyStr.SP (req_url c) = false
  /\ PyStr.contains PyStr.NL (req_url c) = false
  /\ is_2xx status = true
  /\ exists (bt : option string) (tr : string) (b b' : pyval),
       RecordTransport.dumps_body dumps (req_body c) = Return bt
       /\ dumps data = Return tr
       /\ PyStr.contains PyStr.NL
            (match bt with Some s => s | None => EmptyString end) = false
       /\ PyStr.contains PyStr.NL tr = false
       /\ Transcript.best_effort loads
            (Transcript.placeholder
               (match bt with Some s => s | None => EmptyString end))
          = Return b
       /\ ReplayTransport.normalize dumps loads (req_body c) = Return b'
       /\ py_eqb (if truthy b' then b' else PStr "-") b = true.

(** What the replay of an answered call returns: the status with the
    deserialization of the serialized data. *)
Definition replayed (dumps : pyval -> result string)
    (loads : string -> result pyval) (answer : Z * pyval)
  : result (Z * pyval) :=
  tr <- dumps (snd answer) ;;
  resp <- loads (Transcript.placeholder tr) ;;
  Return (fst answer, resp).

(** The answer as the live call returns it. *)
Definition answered (answer : Z * pyval) : result (status_val * pyval) :=
  Return (StatusCode (fst answer), snd answer).

End Scenario.

(** ** More transcripts and collaborators *)

Module Cases.

Import Fixtures.

(** The host transport over a connection that gives the same outcome to
    every call it receives. *)
Definition answering (r : result (status_val * pyval)) (method url : string)
    (params : params_t) (body : pyval) : M (list Call) (status_val * pyval) :=
  fun calls =>
    match host_body body with
    | Raise e => (Raise e, calls)
    | Return body' =>
        (r, (calls ++ [(method, url, host_params params, body')])%list)
    end.

(** A request body given as text of two lines, and what
    [format_request] returns for it. *)
Definition two_line_body : string := PyStr.dq
"{'key':
'value'}".

Definition TWO_LINE_REQUEST : string := PyStr.dq
"#> GET /my/url x=1
#> {'key':
#> 'value'}
".

(** What [format_response] returns in [test_format_response]. *)
Definition PLAIN_RESPONSE : string := PyStr.dq
"#< 200
#< {'key': 'value'}
".

(** A text body one line of which reads as the sentinel, and the text
    written for it. *)
Definition sentinel_body : string :=
"a
##
b".

Definition SENTINEL_BODY_CONTENTS : string :=
"#> POST /notes -
#> a
#> ##
#> b
#< 201
#< {}
##
".

(** A transcript that is a sentinel and nothing else. *)
Definition EMPTY_RECORD_CONTENTS : string :=
"##
".

(** What is written when the live call fails without a response: the
    client library puts the text [N/A] in place of the status. *)
Definition connection_error : exn :=
  TransportError (StatusText "N/A") (PStr "Connection refused").

Definition NA_CONTENTS : string :=
"#> GET /myindex -
#> -
#< N/A
#< Connection refused
##
".

(** A record with a header of two tokens, then the first record of
    [IN_CONTENTS]. *)
Definition BAD_THEN_GOOD_CONTENTS : string := PyStr.dq
"#> GET /myindex
#> -
#< 200
#< {}
##
#> GET /myindex -
#> -
#< 200
#< {'key': 'value'}
##
".

(** A mapping the JSON instance cannot serialize. *)
Definition unserializable : pyval :=
  PDict [("name", PStr (String (ascii_of_nat 233) EmptyString))].

(** A recorded 404 whose message is plain text. *)
Definition not_found : exn :=
  TransportError (StatusCode 404) (PStr "Not Found").

Definition NOT_FOUND_TEXT_CONTENTS : string :=
"#> GET /missing -
#> -
#< 404
#< Not Found
##
".

Definition not_found_text_exchange : Exchange.t :=
  {| Exchange.method := "GET";
     Exchange.url := "/missing";
     Exchange.params := "-";
     Exchange.body := PStr "-";
     Exchange.status := 404;
     Exchange.response := "Not Found" |}.

(** What is written for a call the service answers without a body. *)
Definition EMPTY_RESPONSE_CONTENTS : string :=
"#> HEAD /myindex -
#> -
#< 200
#< -
##
".

Definition empty_response_exchange : Exchange.t :=
  {| Exchange.method := "HEAD";
     Exchange.url := "/myindex";
     Exchange.params := "-";
     Exchange.body := PStr "-";
     Exchange.status := 200;
     Exchange.response := "-" |}.

(** A response of plain text under a status outside 200..299. *)
Definition UNAVAILABLE_CONTENTS : string :=
"#> GET /myindex -
#> -
#< 503
#< Service Unavailable
##
".

Definition unavailable_exchange : Exchange.t :=
  {| Exchange.method := "GET";
     Exchange.url := "/myindex";
     Exchange.params := "-";
     Exchange.body := PStr "-";
     Exchange.status := 503;
     Exchange.response := "Service Unavailable" |}.

(** The request lines written for [GET /myindex] without body. *)
Definition HALF_RECORD : string :=
"#> GET /myindex -
#> -
".

(** The two calls of [test_more_requests] and what [DummyConnection]
    answers. *)
Definition two_calls : list Request :=
  [ {| req_method := "GET"; req_url := "/myindex";
       req_params := None; req_body := PNone |};
    {| req_method := "GET"; req_url := "/myindex2";
       req_params := None;
       req_body := PStr (PyStr.dq "{'req': 'body'}") |} ].

Definition two_answers : list (Z * pyval) :=
  [ (200%Z, PDict [("key", PStr "value")]);
    (200%Z, PDict [("key", PStr "value")]) ].

End Cases.

(** * Properties *)

(** ** Text *)

Section TextFacts.

Import PyStr.

Lemma append_assoc (a b c : string) : (a ++ b) ++ c = a ++ (b ++ c).
Proof. induction a; simpl; congruence. Qed.

Lemma append_nil_r (a : string) : a ++ EmptyString = a.
Proof. induction a; simpl; congruence. Qed.

Lemma contains_app (c : ascii) (a b : string) :
  contains c (a ++ b) = contains c a || contains c b.
Proof.
  induction a as [|x a IH]; simpl; [reflexivity|].
  rewrite IH. now rewrite orb_assoc.
Qed.

Lemma split_without (sep : ascii) (s : string) :
  contains sep s = false -> split sep s = [s].
Proof.
  induction s as [|c s IH]; simpl; [reflexivity|].
  intros H. apply orb_false_iff in H as [Hc Hs].
  rewrite Hc, (IH Hs). reflexivity.
Qed.

Lemma split_app (sep : ascii) (a b : string) :
  contains sep a = false ->
  split sep (a ++ String sep b) = a :: split sep b.
Proof.
  induction a as [|c a IH]; simpl.
  - intros _. now rewrite Ascii.eqb_refl.
  - intros H. apply orb_false_iff in H as [Hc Ha].
    rewrite Hc, (IH Ha). reflexivity.
Qed.

Lemma lines_app (a rest : string) :
  contains NL a = false ->
  lines (a ++ String NL rest) = (a ++ nl) :: lines rest.
Proof.
  induction a as [|c a IH]; simpl.
  - reflexivity.
  - intros H. apply orb_false_iff in H as [Hc Ha].
    rewrite Hc. rewrite (IH Ha). reflexivity.
Qed.

Lemma rstrip_app_nl (s : string) : rstrip (s ++ nl) = rstrip s.
Proof.
  induction s as [|c s IH]; simpl; [reflexivity|].
  now rewrite IH.
Qed.

Lemma rstrip_without (s : string) : contains NL s = false -> rstrip s = s.
Proof.
  induction s as [|c s IH]; simpl; [reflexivity|].
  intros H. apply orb_false_iff in H as [Hc Hs].
  rewrite (IH Hs). destruct s; [now rewrite Hc | reflexivity].
Qed.

Lemma startswith_app (p s : string) : startswith p (p ++ s) = true.
Proof.
  unfold startswith. induction p as [|c p IH]; simpl.
  - now destruct s.
  - destruct (ascii_dec c c); [exact IH | congruence].
Qed.

Lemma drop_app (p s : string) : drop (String.length p) (p ++ s) = s.
Proof. induction p; simpl; auto. Qed.

(** Decimal literals. *)

Lemma string_of_uint_digits (d : Decimal.uint) :
  all_digits (NilEmpty.string_of_uint d) = true.
Proof. induction d; simpl; auto. Qed.

Lemma digit_not_space (c : ascii) :
  is_digit c = true -> is_space c = false.
Proof.
  destruct c as [[] [] [] [] [] [] [] []]; vm_compute; congruence.
Qed.

Lemma digits_not_space (s : string) :
  all_digits s = true -> rstrip_ws s = s.
Proof.
  induction s as [|c s IH]; simpl; [reflexivity|].
  intros H. apply andb_true_iff in H as [Hc Hs].
  rewrite (IH Hs). destruct s; [|reflexivity].
  now rewrite (digit_not_space _ Hc).
Qed.

Lemma digits_without (c : ascii) (s : string) :
  is_digit c = false -> all_digits s = true -> contains c s = false.
Proof.
  intros Hc. induction s as [|x s IH]; simpl; [reflexivity|].
  intros H. apply andb_true_iff in H as [Hx Hs].
  rewrite (IH Hs), orb_false_r.
  destruct (Ascii.eqb_spec x c); [congruence | reflexivity].
Qed.

Lemma uint_literal (u : Decimal.uint) :
  u <> Decimal.Nil ->
  exists c s, NilZero.string_of_uint u = String c s
              /\ is_digit c = true /\ all_digits s = true.
Proof.
  intros Hu. pose proof (string_of_uint_digits u) as Hd.
  destruct u; try congruence; simpl in *; eauto.
Qed.

Lemma int_of_literal (u : Decimal.uint) :
  u <> Decimal.Nil ->
  int (NilZero.string_of_uint u) = Some (Z.of_int (Decimal.Pos u))
  /\ int (String "-" (NilZero.string_of_uint u))
     = Some (Z.of_int (Decimal.Neg u)).
Proof.
  intros Hu. pose proof (NilZero.usu _ Hu) as Husu.
  destruct (uint_literal u Hu) as (c & s & E & Hc & Hs).
  rewrite E in *.
  assert (Hd : all_digits (String c s) = true)
    by (simpl; now rewrite Hc, Hs).
  assert (Hl : lstrip_ws (String c s) = String c s)
    by (simpl; now rewrite (digit_not_space _ Hc)).
  unfold int. split.
  - rewrite Hl, (digits_not_space _ Hd).
    clear Hd Hl E. revert Hc Husu.
    destruct c as [[] [] [] [] [] [] [] []]; intros Hc Husu;
      try (vm_compute in Hc; discriminate Hc);
      cbv beta iota; now rewrite Husu.
  - change (lstrip_ws (String "-" (String c s))) with (String "-" (String c s)).
    change (rstrip_ws (String "-" (String c s)))
      with (match rstrip_ws (String c s) with
            | EmptyString => String "-" EmptyString
            | r => String "-" r
            end).
    rewrite (digits_not_space _ Hd). now rewrite Husu.
Qed.

Lemma int_str_int (n : Z) : int (str_int n) = Some n.
Proof.
  unfold str_int. destruct n as [|p|p]; [reflexivity| |].
  - pose proof (DecimalZ.of_to (Zpos p)) as Hz.
    destruct (int_of_literal _ (DecimalPos.Unsigned.to_uint_nonnil p))
      as [H _].
    cbn [Z.to_int NilZero.string_of_int] in *. now rewrite H, Hz.
  - pose proof (DecimalZ.of_to (Zneg p)) as Hz.
    destruct (int_of_literal _ (DecimalPos.Unsigned.to_uint_nonnil p))
      as [_ H].
    cbn [Z.to_int NilZero.string_of_int] in *. now rewrite H, Hz.
Qed.

Lemma str_int_without (c : ascii) (n : Z) :
  is_digit c = false -> c <> "-"%char ->
  contains c (str_int n) = false.
Proof.
  intros Hc Hm. unfold str_int.
  assert (Hu : forall u, contains c (NilZero.string_of_uint u) = false).
  { intros u. apply digits_without; [exact Hc|].
    destruct u; simpl; try apply string_of_uint_digits; reflexivity. }
  destruct (Z.to_int n); cbn [NilZero.string_of_int]; [apply Hu|].
  cbn [contains]. rewrite Hu, orb_false_r.
  destruct (Ascii.eqb_spec "-" c); [congruence | reflexivity].
Qed.

End TextFacts.

(** ** The cursor *)

Section CursorFacts.

Import Transcript.

Variable loads : string -> result pyval.
Variable World : Type.

Local Abbreviation t := (ReplayTransport.t World).
Local Abbreviation next := (ReplayTransport.next loads (World := World)).
Local Abbreviation replay_loop := (ReplayTransport.replay_loop loads).
Local Abbreviation get_whole_request_info :=
  (ReplayTransport.get_whole_request_info loads).

Lemma replay_loop_record (chunk : list string) :
  forall req resp rest,
    no_sentinel chunk = true ->
    replay_loop req resp (chunk ++ END :: rest)%list =
    (outcome_of (get_whole_request_info (req ++ request_lines chunk)%list
                                        (resp ++ response_lines chunk)%list),
     rest).
Proof.
  unfold request_lines, response_lines.
  induction chunk as [|line chunk IH]; intros req resp rest Hns.
  - cbn [app filter map ReplayTransport.replay_loop].
    rewrite String.eqb_refl, !app_nil_r.
    now destruct (get_whole_request_info req resp).
  - cbn [no_sentinel forallb] in Hns.
    apply andb_true_iff in Hns as [Hline Hns].
    apply negb_true_iff in Hline.
    cbn [app filter map ReplayTransport.replay_loop]. rewrite Hline.
    destruct (PyStr.startswith IN line) eqn:Ein; cbn [negb andb map].
    + rewrite (IH _ _ _ Hns), <- app_assoc. reflexivity.
    + destruct (PyStr.startswith OUT line) eqn:Eout; cbn [map].
      * rewrite (IH _ _ _ Hns), <- app_assoc. reflexivity.
      * apply (IH _ _ _ Hns).
Qed.

Lemma replay_loop_tail (tail : list string) :
  forall req resp,
    no_sentinel tail = true ->
    replay_loop req resp tail = (StopIteration, []).
Proof.
  induction tail as [|line tail IH]; intros req resp Hns; [reflexivity|].
  cbn [no_sentinel forallb] in Hns.
  apply andb_true_iff in Hns as [Hline Hns].
  apply negb_true_iff in Hline.
  cbn [ReplayTransport.replay_loop]. rewrite Hline.
  destruct (PyStr.startswith IN line); [apply (IH _ _ Hns)|].
  destruct (PyStr.startswith OUT line); apply (IH _ _ Hns).
Qed.

(** A line that carries neither marker and is not the sentinel is
    skipped. *)
Lemma replay_loop_skip (line : string) (req resp rest : list string) :
  (line =? END) = false ->
  PyStr.startswith IN line = false ->
  PyStr.startswith OUT line = false ->
  replay_loop req resp (line :: rest) = replay_loop req resp rest.
Proof.
  intros H1 H2 H3. cbn [ReplayTransport.replay_loop].
  now rewrite H1, H2, H3.
Qed.

Lemma next_record (chunk rest : list string) (self : t) :
  no_sentinel chunk = true ->
  cursor_at (chunk ++ END :: rest)%list self ->
  forall data,
    get_whole_request_info (request_lines chunk) (response_lines chunk)
    = Return data ->
    exists self',
      next self = (Yield data, self') /\ cursor_at rest self'
      /\ ReplayTransport.log self' = ReplayTransport.log self
      /\ ReplayTransport.connection self' = ReplayTransport.connection self
      /\ content (ReplayTransport.recfile self')
         = content (ReplayTransport.recfile self).
Proof.
  intros Hns [Hact Hun] data Hd.
  unfold ReplayTransport.next. rewrite Hact, Hun.
  rewrite (replay_loop_record chunk [] [] rest Hns). cbn [app].
  rewrite Hd. cbn [outcome_of].
  eexists. split; [reflexivity|]. repeat split.
Qed.

Lemma next_bad_record (chunk rest : list string) (self : t) (e : exn) :
  no_sentinel chunk = true ->
  cursor_at (chunk ++ END :: rest)%list self ->
  get_whole_request_info (request_lines chunk) (response_lines chunk)
  = Raise e ->
  exists self',
    next self = (GenRaise e, self')
    /\ ReplayTransport.replay_iterator self' = GenFinished.
Proof.
  intros Hns [Hact Hun] Hd.
  unfold ReplayTransport.next. rewrite Hact, Hun.
  rewrite (replay_loop_record chunk [] [] rest Hns). cbn [app].
  rewrite Hd. cbn [outcome_of].
  eexists. split; reflexivity.
Qed.

Lemma next_exhausted (tail : list string) (self : t) :
  no_sentinel tail = true ->
  cursor_at tail self ->
  exists self',
    next self = (StopIteration, self')
    /\ ReplayTransport.replay_iterator self' = GenFinished.
Proof.
  intros Hns [Hact Hun].
  unfold ReplayTransport.next. rewrite Hact, Hun.
  rewrite (replay_loop_tail tail [] [] Hns).
  eexists. split; reflexivity.
Qed.

Lemma next_finished (self : t) :
  ReplayTransport.replay_iterator self = GenFinished ->
  next self = (StopIteration, self).
Proof. intros H. unfold ReplayTransport.next. now rewrite H. Qed.

End CursorFacts.

Section ReplayFacts.

Import Transcript.

Variable dumps : pyval -> result string.
Variable loads : string -> result pyval.
Variable key_order : list Key.
Variable open_r : string -> result FileObj.
Variable World : Type.
Variable Connection : Type.
Variable get_connection : M World Connection.
Variable raise_error : Connection -> Z -> pyval -> result unit.

Local Abbreviation t := (ReplayTransport.t World).
Local Abbreviation next := (ReplayTransport.next loads (World := World)).
Local Abbreviation get_next_replay :=
  (ReplayTransport.get_next_replay loads key_order (World := World)).
Local Abbreviation perform_request :=
  (ReplayTransport.perform_request dumps loads key_order get_connection
     raise_error).
Local Abbreviation perform_requests :=
  (ReplayTransport.perform_requests dumps loads key_order get_connection
     raise_error).
Local Abbreviation init := (ReplayTransport.init open_r (World := World)).
Local Abbreviation reset_replay_log :=
  (ReplayTransport.reset_replay_log (World := World)).

Lemma pulls_transcript (tail : list string) :
  forall chunks exs,
    Forall2 (well_formed loads) chunks exs ->
    forall self : t,
      cursor_at (transcript chunks tail) self ->
      exists self',
        pulls loads (length chunks) self = (map Yield exs, self')
        /\ cursor_at tail self'.
Proof.
  induction 1 as [|chunk data chunks exs [Hns Hd] _ IH]; intros self Hc.
  - exists self. split; [reflexivity | exact Hc].
  - unfold transcript in Hc. cbn [map concat] in Hc.
    rewrite <- !app_assoc in Hc. cbn [app] in Hc.
    destruct (next_record loads World chunk _ self Hns Hc data Hd)
      as (self1 & Hnext & Hc1 & _).
    destruct (IH self1 Hc1) as (self2 & Hp & Hc2).
    exists self2. split; [|exact Hc2].
    cbn [pulls length map]. rewrite Hnext, Hp. reflexivity.
Qed.

Lemma get_next_replay_exhausted (tail : list string) (self : t) :
  no_sentinel tail = true ->
  cursor_at tail self ->
  forall method url params body,
    fst (get_next_replay method url params body self)
    = Raise ReplayLogExceededError.
Proof.
  intros Hns Hc method url params body.
  destruct (next_exhausted loads World tail self Hns Hc) as (self' & Hn & _).
  unfold ReplayTransport.get_next_replay. now rewrite Hn.
Qed.

Lemma reset_cursor (self : t) :
  cursor_at (PyStr.lines (content (ReplayTransport.recfile self)))
            (reset_replay_log self).
Proof. split; reflexivity. Qed.

(** C3.  Over a transcript made of N well-formed records (and of trailing
    lines without a sentinel), a cursor created by [reset_replay_log]
    yields the N recorded exchanges, in the order of the records, in N
    calls of [next()]; the pull after them, made through
    [get_next_replay] with any request, raises [ReplayLogExceededError]. *)
Theorem cursor_yields_all_then_exceeded
    (chunks : list (list string)) (exs : list Exchange.t)
    (tail : list string) (self : t) :
  Forall2 (well_formed loads) chunks exs ->
  no_sentinel tail = true ->
  PyStr.lines (content (ReplayTransport.recfile self))
  = transcript chunks tail ->
  fst (pulls loads (length chunks) (reset_replay_log self)) = map Yield exs
  /\ length exs = length chunks
  /\ forall method url params body,
       fst (get_next_replay method url params body
              (snd (pulls loads (length chunks) (reset_replay_log self))))
       = Raise ReplayLogExceededError.
Proof.
  intros Hwf Hns Hlines.
  pose proof (reset_cursor self) as Hc. rewrite Hlines in Hc.
  destruct (pulls_transcript tail chunks exs Hwf _ Hc) as (self' & Hp & Hc').
  rewrite Hp. cbn [fst snd]. split; [reflexivity|]. split.
  - symmetry. eapply Forall2_length; eauto.
  - now apply (get_next_replay_exhausted tail).
Qed.

Lemma next_same_cursor (a b : t) :
  same_cursor a b ->
  fst (next a) = fst (next b) /\ same_cursor (snd (next a)) (snd (next b)).
Proof.
  intros [Hf Hi]. unfold ReplayTransport.next. rewrite Hf, Hi.
  destruct (ReplayTransport.replay_iterator b) eqn:Eb.
  - destruct (ReplayTransport.replay_loop loads [] []
                (unread (ReplayTransport.recfile b))) as [o rest].
    split; [reflexivity | split; reflexivity].
  - split; [reflexivity | split; cbn [snd]; congruence].
Qed.

Lemma get_next_replay_same_cursor (a b : t) method url params body :
  same_cursor a b ->
  fst (get_next_replay method url params body a)
  = fst (get_next_replay method url params body b)
  /\ same_cursor (snd (get_next_replay method url params body a))
                 (snd (get_next_replay method url params body b)).
Proof.
  intros H. destruct (next_same_cursor a b H) as [Ho Hs].
  unfold ReplayTransport.get_next_replay.
  destruct (next a) as [oa a'], (next b) as [ob b']. cbn [fst snd] in *.
  subst ob. destruct oa as [data|e|]; cbn [fst snd]; auto.
  destruct (ReplayTransport.check_match data _) as [ok entries].
  destruct ok; cbn [negb fst snd]; split; auto; destruct Hs; split; auto.
Qed.

Lemma pulls_same_cursor (n : nat) :
  forall a b : t,
    same_cursor a b -> fst (pulls loads n a) = fst (pulls loads n b).
Proof.
  induction n as [|n IH]; intros a b H; [reflexivity|].
  cbn [pulls]. destruct (next_same_cursor a b H) as [Ho Hs].
  destruct (next a) as [oa a'], (next b) as [ob b'].
  cbn [fst snd] in *. subst ob. specialize (IH a' b' Hs).
  destruct (pulls loads n a'), (pulls loads n b'). cbn [fst] in *.
  now subst.
Qed.

(** Replaying never changes the text of the file. *)
Lemma next_content (self : t) :
  content (ReplayTransport.recfile (snd (next self)))
  = content (ReplayTransport.recfile self).
Proof.
  unfold ReplayTransport.next.
  destruct (ReplayTransport.replay_iterator self); [|reflexivity].
  now destruct (ReplayTransport.replay_loop loads [] [] _).
Qed.

Lemma get_next_replay_content (self : t) method url params body :
  content (ReplayTransport.recfile
             (snd (get_next_replay method url params body self)))
  = content (ReplayTransport.recfile self).
Proof.
  pose proof (next_content self) as H.
  unfold ReplayTransport.get_next_replay.
  destruct (next self) as [o self']. cbn [snd] in H.
  destruct o as [data|e|]; cbn [snd]; auto.
  destruct (ReplayTransport.check_match data _) as [ok entries].
  now destruct ok.
Qed.

Lemma perform_request_content (self : t) method url params body :
  content (ReplayTransport.recfile
             (snd (perform_request method url params body self)))
  = content (ReplayTransport.recfile self).
Proof.
  unfold ReplayTransport.perform_request, mbind, lift, ret.
  destruct (ReplayTransport.normalize dumps loads body) as [body'|e];
    [|reflexivity].
  pose proof (get_next_replay_content self method url params body') as H.
  destruct (get_next_replay method url params body' self) as [r self'].
  cbn [snd] in H.
  destruct r as [[status data]|e]; [|exact H].
  destruct (negb _); [|exact H].
  unfold ReplayTransport.on_connection.
  destruct (get_connection (ReplayTransport.connection self')) as [c w].
  destruct c as [conn|e]; [|exact H].
  now destruct (raise_error conn status data).
Qed.

Lemma perform_requests_content (calls : list Request) :
  forall self : t,
    content (ReplayTransport.recfile (snd (perform_requests calls self)))
    = content (ReplayTransport.recfile self).
Proof.
  induction calls as [|c calls IH]; intros self; [reflexivity|].
  cbn [ReplayTransport.perform_requests].
  pose proof (perform_request_content self (req_method c) (req_url c)
                (req_params c) (req_body c)) as H.
  destruct (perform_request _ _ _ _ self) as [r self1]. cbn [snd] in H.
  specialize (IH self1).
  destruct (perform_requests calls self1) as [rs self2]. cbn [snd] in *.
  congruence.
Qed.

(** What the constructor builds stands at the start of its file. *)
Lemma init_at_start (kwargs : option (recfile_arg FileObj)) (w : World)
    (first : t) :
  init kwargs w = Return first ->
  ReplayTransport.recfile first
  = seek0 (ReplayTransport.recfile first)
  /\ ReplayTransport.replay_iterator first = GenActive.
Proof.
  unfold ReplayTransport.init.
  destruct (ReplayTransport.prepare_output_file open_r (pop_recfile kwargs))
    as [[f|]|e]; cbn [bind ReplayTransport.reset_handle]; try discriminate.
  intros H. injection H as <-. split; reflexivity.
Qed.

(** C9.  [reset_replay_log] is idempotent: two resets in a row leave the
    transport in the state one reset leaves it in.  Let [first] be the
    transport as its constructor built it, at the start of the first pass
    over the transcript, and [mid] what it has become after any sequence
    of calls [calls], whatever their outcomes.  A reset of [mid] puts the
    cursor before the first line of the transcript, the file and the
    generator being in the state they have in [first], and from there
    [n] calls of [next()] give what they give on the first pass: the
    same exchanges in the same order. *)
Theorem reset_idempotent_and_replay_repeats
    (kwargs : option (recfile_arg FileObj)) (w : World) (first : t)
    (calls : list Request) (n : nat) :
  init kwargs w = Return first ->
  let mid := snd (perform_requests calls first) in
  reset_replay_log (reset_replay_log mid) = reset_replay_log mid
  /\ cursor_at (PyStr.lines (content (ReplayTransport.recfile first)))
       (reset_replay_log mid)
  /\ same_cursor (reset_replay_log mid) first
  /\ fst (pulls loads n (reset_replay_log mid)) = fst (pulls loads n first).
Proof.
  intros Hinit mid.
  destruct (init_at_start kwargs w first Hinit) as [Hf Hi].
  assert (Hc : content (ReplayTransport.recfile mid)
               = content (ReplayTransport.recfile first))
    by (subst mid; apply perform_requests_content).
  assert (Hs : same_cursor (reset_replay_log mid) first).
  { split; [|now rewrite Hi].
    rewrite Hf. unfold ReplayTransport.reset_replay_log, seek0.
    cbn [ReplayTransport.recfile content]. now rewrite Hc. }
  split; [reflexivity|].
  split; [rewrite <- Hc; apply reset_cursor|].
  split; [exact Hs|].
  now apply pulls_same_cursor.
Qed.

End ReplayFacts.

(** ** Matching *)

Section MatchFacts.

Import Transcript.

Variable dumps : pyval -> result string.
Variable loads : string -> result pyval.
Variable key_order : list Key.
Variable open_r : string -> result FileObj.
Variable World : Type.
Variable Connection : Type.
Variable get_connection : M World Connection.
Variable raise_error : Connection -> Z -> pyval -> result unit.

Local Abbreviation t := (ReplayTransport.t World).
Local Abbreviation next := (ReplayTransport.next loads (World := World)).
Local Abbreviation get_next_replay :=
  (ReplayTransport.get_next_replay loads key_order (World := World)).
Local Abbreviation perform_request :=
  (ReplayTransport.perform_request dumps loads key_order get_connection
     raise_error).
Local Abbreviation current_value := ReplayTransport.current_value.
Local Abbreviation current_items := (ReplayTransport.current_items key_order).
Local Abbreviation check_match := ReplayTransport.check_match.

Lemma check_match_items (data : Exchange.t) (f : Key -> pyval) :
  forall keys,
    (fst (check_match data (map (fun key => (key, f key)) keys)) = true
     <-> forall key, In key keys -> py_eqb (f key) (item data key) = true)
    /\ (fst (check_match data (map (fun key => (key, f key)) keys)) = true ->
        snd (check_match data (map (fun key => (key, f key)) keys)) = [])
    /\ (fst (check_match data (map (fun key => (key, f key)) keys)) = false ->
        exists pre key post,
          keys = (pre ++ key :: post)%list
          /\ (forall k, In k pre -> py_eqb (f k) (item data k) = true)
          /\ py_eqb (f key) (item data key) = false
          /\ snd (check_match data (map (fun key => (key, f key)) keys))
             = [LogError (f key) (item data key)]).
Proof.
  induction keys as [|k keys (IH1 & IH2 & IH3)];
    cbn [map ReplayTransport.check_match].
  - repeat split; cbn [fst snd]; try easy.
  - destruct (py_eqb (f k) (item data k)) eqn:E; cbn [negb fst snd].
    + split; [|split].
      * rewrite IH1. split.
        -- intros H key [<-|Hin]; auto.
        -- intros H key Hin. apply H. now right.
      * exact IH2.
      * intros H. destruct (IH3 H) as (pre & key & post & -> & Hpre & Hk & Hl).
        exists (k :: pre), key, post.
        split; [reflexivity|]. split; [|split; assumption].
        intros k' [<-|Hin]; auto.
    + split; [|split].
      * split; [discriminate|]. intros H.
        rewrite (H k (or_introl eq_refl)) in E. discriminate.
      * discriminate.
      * intros _. exists [], k, keys.
        split; [reflexivity|]. split; [intros k' []|]. split; auto.
Qed.

Lemma get_next_replay_yield (self self' : t) (data : Exchange.t)
    method url params body :
  next self = (Yield data, self') ->
  get_next_replay method url params body self =
  (if fst (check_match data (current_items method url params body))
   then (data' <- loads (Exchange.response data) ;; Return (Exchange.status data, data'))
   else Raise RequestMatchError,
   {| ReplayTransport.recfile := ReplayTransport.recfile self';
      ReplayTransport.replay_iterator := ReplayTransport.replay_iterator self';
      ReplayTransport.log :=
        (ReplayTransport.log self'
         ++ snd (check_match data (current_items method url params body)))%list;
      ReplayTransport.connection := ReplayTransport.connection self' |}).
Proof.
  intros Hn. unfold ReplayTransport.get_next_replay. rewrite Hn.
  destruct (check_match data _) as [ok entries]. now destruct ok.
Qed.

Lemma next_keeps (self : t) :
  ReplayTransport.log (snd (next self)) = ReplayTransport.log self
  /\ ReplayTransport.connection (snd (next self))
     = ReplayTransport.connection self.
Proof.
  unfold ReplayTransport.next.
  destruct (ReplayTransport.replay_iterator self); [|split; reflexivity].
  destruct (ReplayTransport.replay_loop loads [] [] _). split; reflexivity.
Qed.

(** C4.  When the cursor yields the exchange [data], [check_match]
    accepts the comparison record exactly when each of its four fields
    (method, url, params, body) equals the recorded one.  If some field
    differs, [get_next_replay] raises [RequestMatchError] and the log
    gains one entry, holding the two values of the first differing field
    in the iteration order of the record, every field before it being
    equal.  In particular a url different from the recorded one raises
    [RequestMatchError]. *)
Theorem check_match_exact (self self' : t) (data : Exchange.t)
    (method url : string) (params : params_t) (body : pyval) :
  (forall key, In key key_order) ->
  next self = (Yield data, self') ->
  (fst (check_match data (current_items method url params body)) = true
   <-> forall key, agrees data method url params body key = true)
  /\ ((exists key, agrees data method url params body key = false) ->
      fst (get_next_replay method url params body self)
      = Raise RequestMatchError
      /\ exists pre key post,
           key_order = (pre ++ key :: post)%list
           /\ (forall k, In k pre ->
                         agrees data method url params body k = true)
           /\ agrees data method url params body key = false
           /\ ReplayTransport.log
                (snd (get_next_replay method url params body self))
              = (ReplayTransport.log self
                 ++ [LogError (current_value method url params body key)
                              (item data key)])%list)
  /\ (url <> Exchange.url data ->
      fst (get_next_replay method url params body self)
      = Raise RequestMatchError).
Proof.
  intros Hall Hn.
  destruct (check_match_items data (current_value method url params body)
              key_order) as (H1 & H2 & H3).
  fold (current_items method url params body) in H1, H2, H3.
  assert (Hiff : fst (check_match data (current_items method url params body))
                 = true
                 <-> forall key, agrees data method url params body key = true).
  { rewrite H1. unfold agrees. split; auto. }
  assert (Hmis : (exists key, agrees data method url params body key = false)
                 -> fst (check_match data
                           (current_items method url params body)) = false).
  { intros [key Hk].
    destruct (fst (check_match data _)) eqn:E; [|reflexivity].
    rewrite (proj1 Hiff eq_refl key) in Hk. discriminate. }
  split; [exact Hiff|]. split.
  - intros Hex. specialize (Hmis Hex).
    rewrite (get_next_replay_yield self self' data _ _ _ _ Hn).
    cbn [fst snd ReplayTransport.log]. rewrite Hmis. split; [reflexivity|].
    destruct (H3 Hmis) as (pre & key & post & Hko & Hpre & Hk & Hlog).
    exists pre, key, post. repeat split; auto.
    rewrite Hlog. f_equal.
    pose proof (next_keeps self) as [Hl _]. now rewrite Hn in Hl.
  - intros Hurl.
    rewrite (get_next_replay_yield self self' data _ _ _ _ Hn). cbn [fst].
    rewrite Hmis; [reflexivity|].
    exists Kurl. unfold agrees. cbn.
    now apply String.eqb_neq.
Qed.

Lemma check_match_agreeing (data : Exchange.t) method url params body :
  (forall key, agrees data method url params body key = true) ->
  check_match data (current_items method url params body) = (true, []).
Proof.
  intros H.
  destruct (check_match_items data (current_value method url params body)
              key_order) as (H1 & H2 & _).
  fold (current_items method url params body) in H1, H2.
  assert (E : fst (check_match data (current_items method url params body))
              = true) by (apply H1; intros; apply H).
  specialize (H2 E).
  destruct (check_match data _); cbn [fst snd] in *. congruence.
Qed.

Lemma agrees_fields (data : Exchange.t) method url params body :
  Exchange.method data = method ->
  Exchange.url data = url ->
  Exchange.params data = params_token params ->
  py_eqb (if truthy body then body else PStr "-") (Exchange.body data) = true ->
  forall key, agrees data method url params body key = true.
Proof.
  intros <- <- Hp Hb key. unfold agrees.
  destruct key; cbn [ReplayTransport.current_value item py_eqb];
    rewrite ?Hp; auto using String.eqb_refl.
Qed.

Lemma get_next_replay_agreeing (self self' : t) (data : Exchange.t)
    method url params body :
  next self = (Yield data, self') ->
  (forall key, agrees data method url params body key = true) ->
  get_next_replay method url params body self
  = (resp <- loads (Exchange.response data) ;;
     Return (Exchange.status data, resp), self').
Proof.
  intros Hn Hag.
  rewrite (get_next_replay_yield self self' data _ _ _ _ Hn).
  rewrite (check_match_agreeing data _ _ _ _ Hag). cbn [fst snd].
  rewrite app_nil_r. now destruct self'.
Qed.

(** A matched exchange whose stored response deserializes. *)
Lemma perform_request_matched (self self' : t) (data : Exchange.t)
    (method url : string) (params : params_t) (body body' : pyval)
    (resp : pyval) :
  ReplayTransport.normalize dumps loads body = Return body' ->
  next self = (Yield data, self') ->
  (forall key, agrees data method url params body' key = true) ->
  loads (Exchange.response data) = Return resp ->
  perform_request method url params body self =
  if Scenario.is_2xx (Exchange.status data)
  then (Return (Exchange.status data, resp), self')
  else match get_connection (ReplayTransport.connection self') with
       | (Return conn, w) =>
           (_ <- raise_error conn (Exchange.status data) resp ;;
            Return (Exchange.status data, resp), ReplayTransport.with_connection w self')
       | (Raise e, w) => (Raise e, ReplayTransport.with_connection w self')
       end.
Proof.
  intros Hb Hn Hag Hr.
  unfold ReplayTransport.perform_request, mbind, lift, ret. rewrite Hb.
  rewrite (get_next_replay_agreeing self self' data _ _ _ _ Hn Hag).
  rewrite Hr. cbn [bind]. unfold Scenario.is_2xx.
  destruct ((200 <=? Exchange.status data)%Z
            && (Exchange.status data <? 300)%Z); cbn [negb]; [reflexivity|].
  unfold ReplayTransport.on_connection.
  destruct (get_connection (ReplayTransport.connection self')) as [[conn|e] w];
    [|reflexivity].
  now destruct (raise_error conn (Exchange.status data) resp) as [[]|e].
Qed.

(** A matched exchange whose stored response the deserializer rejects. *)
Lemma perform_request_rejected (self self' : t) (data : Exchange.t)
    (method url : string) (params : params_t) (body body' : pyval)
    (e : exn) :
  ReplayTransport.normalize dumps loads body = Return body' ->
  next self = (Yield data, self') ->
  (forall key, agrees data method url params body' key = true) ->
  loads (Exchange.response data) = Raise e ->
  perform_request method url params body self = (Raise e, self').
Proof.
  intros Hb Hn Hag Hr.
  unfold ReplayTransport.perform_request, mbind, lift, ret. rewrite Hb.
  rewrite (get_next_replay_agreeing self self' data _ _ _ _ Hn Hag).
  now rewrite Hr.
Qed.

(** When the next exchange of the transcript has a status from 200 to
    299, its method, url, params token and body equal those of the
    incoming call (the body after normalisation, [-] standing for an
    empty one) and its stored response deserializes to [resp],
    [perform_request] returns the recorded status with [resp], consumes
    that exchange and leaves the connection pool as it was. *)
Theorem matched_2xx_exchange_is_returned (self self' : t)
    (data : Exchange.t) (method url : string) (params : params_t)
    (body body' : pyval) (resp : pyval) :
  ReplayTransport.normalize dumps loads body = Return body' ->
  next self = (Yield data, self') ->
  Exchange.method data = method ->
  Exchange.url data = url ->
  Exchange.params data = params_token params ->
  py_eqb (if truthy body' then body' else PStr "-") (Exchange.body data)
  = true ->
  (200 <= Exchange.status data < 300)%Z ->
  loads (Exchange.response data) = Return resp ->
  perform_request method url params body self
  = (Return (Exchange.status data, resp), self')
  /\ ReplayTransport.connection self' = ReplayTransport.connection self.
Proof.
  intros Hb Hn Hm Hu Hp Hbody Hst Hr. split.
  - rewrite (perform_request_matched self self' data method url params
               body body' resp Hb Hn
               (agrees_fields data _ _ _ _ Hm Hu Hp Hbody) Hr).
    unfold Scenario.is_2xx.
    replace ((200 <=? Exchange.status data)%Z
             && (Exchange.status data <? 300)%Z) with true; [reflexivity|].
    symmetry. apply andb_true_iff. split; [apply Z.leb_le | apply Z.ltb_lt];
      lia.
  - pose proof (next_keeps self) as [_ Hc]. now rewrite Hn in Hc.
Qed.

(** For an exchange the cursor yields, that agrees with the incoming
    call on every field, whose stored status is outside 200..299 and
    whose stored response deserializes to [resp]: [perform_request] takes
    a connection from the pool and raises the error [e] that its hook
    [_raise_error] raises for the stored status and [resp]; the exchange
    is consumed and the pool is as [get_connection] left it. *)
Theorem matched_error_exchange_raises_hook_error (self self' : t)
    (data : Exchange.t) (method url : string) (params : params_t)
    (body body' : pyval) (resp : pyval) (conn : Connection) (w : World)
    (e : exn) :
  ReplayTransport.normalize dumps loads body = Return body' ->
  next self = (Yield data, self') ->
  (forall key, agrees data method url params body' key = true) ->
  Scenario.is_2xx (Exchange.status data) = false ->
  loads (Exchange.response data) = Return resp ->
  get_connection (ReplayTransport.connection self') = (Return conn, w) ->
  raise_error conn (Exchange.status data) resp = Raise e ->
  perform_request method url params body self
  = (Raise e, ReplayTransport.with_connection w self').
Proof.
  intros Hb Hn Hag Hst Hr Hc He.
  rewrite (perform_request_matched self self' data method url params
             body body' resp Hb Hn Hag Hr).
  now rewrite Hst, Hc, He.
Qed.

(** For an exchange the cursor yields, that agrees with the incoming
    call on every field and whose stored response the deserializer
    rejects with [e]: whatever the stored status, [perform_request]
    raises [e]; the exchange is consumed, the pool is not asked for a
    connection and no hook is called. *)
Theorem rejected_response_raises_whatever_the_status (self self' : t)
    (data : Exchange.t) (method url : string) (params : params_t)
    (body body' : pyval) (e : exn) :
  ReplayTransport.normalize dumps loads body = Return body' ->
  next self = (Yield data, self') ->
  (forall key, agrees data method url params body' key = true) ->
  loads (Exchange.response data) = Raise e ->
  perform_request method url params body self = (Raise e, self')
  /\ ReplayTransport.connection self' = ReplayTransport.connection self.
Proof.
  intros Hb Hn Hag Hr. split.
  - exact (perform_request_rejected self self' data method url params
             body body' e Hb Hn Hag Hr).
  - pose proof (next_keeps self) as [_ Hc]. now rewrite Hn in Hc.
Qed.

(** C6, amended.  In a transcript whose first records are well formed
    and whose next record has a request header that does not split into
    three tokens, the constructor raises nothing and reads nothing, the
    well-formed records are yielded, and the pull of the malformed record
    through [get_next_replay] raises [ReplayFileParseError] wrapping
    [ValueError].  A line that carries neither marker and is not the
    sentinel is skipped by the decoding loop. *)
Theorem malformed_header_raises_when_pulled
    (text : string) (w : World)
    (chunks : list (list string)) (exs : list Exchange.t)
    (chunk rest : list string) (header : string) (more : list string) :
  Forall2 (well_formed loads) chunks exs ->
  no_sentinel chunk = true ->
  PyStr.lines text = transcript chunks (chunk ++ END :: rest) ->
  request_lines chunk = header :: more ->
  length (PyStr.split PyStr.SP header) <> 3 ->
  exists self : t,
    ReplayTransport.init open_r (Some (ArgHandle (StringIO text))) w
    = Return self
    /\ unread (ReplayTransport.recfile self) = PyStr.lines text
    /\ fst (pulls loads (length chunks) self) = map Yield exs
    /\ (forall method url params body,
          fst (get_next_replay method url params body
                 (snd (pulls loads (length chunks) self)))
          = Raise (ReplayFileParseError ValueError))
    /\ (forall line req resp ls,
          (line =? END) = false ->
          PyStr.startswith IN line = false ->
          PyStr.startswith OUT line = false ->
          ReplayTransport.replay_loop loads req resp (line :: ls)
          = ReplayTransport.replay_loop loads req resp ls).
Proof.
  intros Hwf Hns Hlines Hreq Hcount.
  eexists. split; [reflexivity|]. split; [reflexivity|].
  match goal with |- context [pulls loads _ ?s] => set (self := s) end.
  assert (Hc : cursor_at (transcript chunks (chunk ++ END :: rest)) self)
    by (split; [reflexivity | exact Hlines]).
  destruct (pulls_transcript loads World _ chunks exs Hwf self Hc)
    as (self' & Hp & Hc').
  rewrite Hp. cbn [fst snd]. split; [reflexivity|]. split.
  - intros method url params body.
    assert (Hbad : ReplayTransport.get_whole_request_info loads
                     (request_lines chunk) (response_lines chunk)
                   = Raise ValueError).
    { rewrite Hreq. unfold ReplayTransport.get_whole_request_info.
      cbn [bind].
      destruct (PyStr.split PyStr.SP header) as [|a [|b [|c [|d l]]]];
        try reflexivity.
      now contradiction Hcount. }
    destruct (next_bad_record loads World chunk rest self' ValueError
                Hns Hc' Hbad) as (self2 & Hn & _).
    unfold ReplayTransport.get_next_replay. now rewrite Hn.
  - intros line req resp ls. apply replay_loop_skip.
Qed.

End MatchFacts.

(** ** Recording *)

Section UrlFacts.

Import PyStr PyUrl.

Lemma quote_plus_char_clean (c : ascii) :
  contains SP (quote_plus_char c) = false
  /\ contains NL (quote_plus_char c) = false.
Proof.
  destruct c as [[] [] [] [] [] [] [] []]; vm_compute; split; reflexivity.
Qed.

Lemma quote_plus_clean (s : string) :
  contains SP (quote_plus s) = false /\ contains NL (quote_plus s) = false.
Proof.
  induction s as [|c s [IH1 IH2]]; cbn [quote_plus]; [split; reflexivity|].
  destruct (quote_plus_char_clean c) as [H1 H2].
  rewrite !contains_app, H1, H2, IH1, IH2. split; reflexivity.
Qed.

Lemma urlencode_clean (query : list (string * string)) :
  contains SP (urlencode query) = false
  /\ contains NL (urlencode query) = false.
Proof.
  unfold urlencode.
  induction query as [|[k v] query [IH1 IH2]]; [split; reflexivity|].
  cbn [map fst snd].
  destruct (quote_plus_clean k) as [K1 K2], (quote_plus_clean v) as [V1 V2].
  destruct query as [|kv query].
  - cbn [map join]. rewrite !contains_app, K1, K2, V1, V2.
    split; reflexivity.
  - cbn [map join] in *. rewrite !contains_app, K1, K2, V1, V2, IH1, IH2.
    split; reflexivity.
Qed.

Lemma params_token_clean (params : params_t) :
  contains SP (params_token params) = false
  /\ contains NL (params_token params) = false.
Proof.
  destruct params as [[|kv q]|]; try (split; reflexivity).
  apply urlencode_clean.
Qed.

End UrlFacts.

Section FileFacts.

Lemma substring_all (s : string) :
  String.substring 0 (String.length s) s = s.
Proof.
  induction s as [|c s IH]; [reflexivity|].
  cbn [String.length String.substring]. now rewrite IH.
Qed.

Lemma drop_past (s : string) (n : nat) :
  PyStr.drop (String.length s + n) s = EmptyString.
Proof.
  induction s as [|c s IH]; [now destruct n|].
  cbn [String.length Nat.add PyStr.drop]. exact IH.
Qed.

(** At the end of a file in memory, writing appends. *)
Lemma write_at_end (s : string) (f : FileObj) :
  at_end f ->
  write_at s f = {| content := content f ++ s; unread := [] |}.
Proof.
  unfold at_end, write_at, position. intros ->.
  cbn [String.concat String.length]. rewrite Nat.sub_0_r.
  rewrite substring_all, drop_past. cbn [PyStr.lines].
  now rewrite append_nil_r.
Qed.

End FileFacts.

Section RecordFacts.

Variable dumps : pyval -> result string.
Variable World : Type.
Variable live_perform_request :
  string -> string -> params_t -> pyval -> M World (status_val * pyval).
Variable live_params :
  string -> string -> params_t -> pyval -> World -> params_t.
Context {F : Type} {file_like : RecordTransport.FileLike F}.
Variable open_w : string -> result F.

Local Abbreviation perform_request :=
  (RecordTransport.perform_request dumps live_perform_request live_params).
Local Abbreviation record := (RecordTransport.record dumps (World := World)).

Lemma record_world method url params body status data
    (self : RecordTransport.t World F) :
  RecordTransport.world (record method url params body status data self)
  = RecordTransport.world self.
Proof.
  unfold RecordTransport.record.
  destruct (RecordTransport.recfile self) as [f|]; [|reflexivity].
  destruct (RecordTransport.store dumps _ _ _ _ _ _ f) as [[u|e] f'];
    reflexivity.
Qed.

(** A failure of the logging step leaves one entry in the log. *)
Lemma record_logs_failure method url params body status data
    (self : RecordTransport.t World F) (f f' : F) (e : exn) :
  RecordTransport.recfile self = Some f ->
  RecordTransport.store dumps method url params body status data f
  = (Raise e, f') ->
  RecordTransport.log (record method url params body status data self)
  = (RecordTransport.log self
     ++ [LogException "Unable to record request" e])%list.
Proof.
  intros Hf Hs. unfold RecordTransport.record. now rewrite Hf, Hs.
Qed.

(** Over a file in memory that stands at its end, what [store] appends
    is the encoding of the exchange. *)
Lemma store_appends_encoding method url params body status data
    (f : FileObj) (text : string) :
  at_end f ->
  Transcript.encode dumps method url params body status data = Return text ->
  RecordTransport.store dumps (file_like := Fixtures.memory_file)
    method url params body status data f
  = (Return tt, {| content := content f ++ text; unread := [] |}).
Proof.
  intros Hend.
  unfold Transcript.encode, RecordTransport.store, mbind, lift.
  destruct (RecordTransport.format_request dumps method url params body)
    as [req|e]; cbn [bind]; [|discriminate].
  destruct (RecordTransport.format_response dumps status data)
    as [resp|e]; cbn [bind]; [|discriminate].
  intros [= <-].
  cbn [RecordTransport.write RecordTransport.flush Fixtures.memory_file].
  rewrite (write_at_end req f Hend).
  rewrite (write_at_end resp) by reflexivity.
  rewrite write_at_end by reflexivity.
  cbn [content]. now rewrite !append_assoc.
Qed.

(** C7.  Whatever the serializer and the file do while the exchange is
    stored, the caller of [RecordTransport.perform_request] observes the
    outcome of the live call: the tuple it returned, or the exception it
    raised; the state of the live service is the one the call left. *)
Theorem record_preserves_outcome (method url : string) (params : params_t)
    (body : pyval) (self : RecordTransport.t World F) :
  fst (perform_request method url params body self)
  = fst (live_perform_request method url params body
           (RecordTransport.world self))
  /\ RecordTransport.world (snd (perform_request method url params body self))
     = snd (live_perform_request method url params body
              (RecordTransport.world self)).
Proof.
  unfold RecordTransport.perform_request.
  destruct (live_perform_request method url params body
              (RecordTransport.world self)) as [r w].
  destruct r as [[status data]|e]; cbn [RecordTransport.capture fst snd].
  - rewrite record_world. split; reflexivity.
  - destruct e; cbn [fst snd]; try (split; reflexivity).
    rewrite record_world. split; reflexivity.
Qed.

End RecordFacts.

Section InitFacts.

Variable open_r : string -> result FileObj.
Variable World : Type.
Context {F : Type}.
Variable open_w : string -> result F.

Local Abbreviation pass_through :=
  (RecordTransport.pass_through (World := World) (F := F)).

(** C10.  The constructor of [ReplayTransport] raises [AttributeError]
    when the [recfile] option is absent, [None] or the empty text, so no
    transport exists to make a call on; with the same options the
    constructor of [RecordTransport] returns a transport without a
    file. *)
Theorem replay_requires_recfile (w : World) :
  ReplayTransport.init open_r None w = Raise AttributeError
  /\ ReplayTransport.init open_r (Some ArgNone) w = Raise AttributeError
  /\ ReplayTransport.init open_r (Some (ArgPath EmptyString)) w
     = Raise AttributeError
  /\ RecordTransport.init open_w None w = Return (pass_through w)
  /\ RecordTransport.init open_w (Some ArgNone) w = Return (pass_through w)
  /\ RecordTransport.init open_w (Some (ArgPath EmptyString)) w
     = Return (pass_through w).
Proof. repeat split. Qed.

End InitFacts.

(** ** The codec *)

Section CodecFacts.

Import PyStr Transcript.

Variable dumps : pyval -> result string.
Variable loads : string -> result pyval.

Lemma out_body_one_line (mark s : string) :
  contains NL s = false -> RecordTransport.out_body mark s = placeholder s.
Proof.
  intros H. unfold RecordTransport.out_body, placeholder.
  now rewrite (split_without _ _ H).
Qed.

Lemma placeholder_one_line (s : string) :
  contains NL s = false -> contains NL (placeholder s) = false.
Proof. unfold placeholder. now destruct (negb _). Qed.

Lemma request_line_not_sentinel (x : string) : (IN ++ x =? END) = false.
Proof. reflexivity. Qed.

Lemma response_line_not_sentinel (x : string) : (OUT ++ x =? END) = false.
Proof. reflexivity. Qed.

Lemma request_line_marked (x : string) :
  startswith IN (IN ++ x) = true /\ drop 3 (IN ++ x) = x.
Proof. split; [apply startswith_app | reflexivity]. Qed.

Lemma response_line_marked (x : string) :
  startswith IN (OUT ++ x) = false
  /\ startswith OUT (OUT ++ x) = true /\ drop 3 (OUT ++ x) = x.
Proof. split; [reflexivity | split; [apply startswith_app | reflexivity]]. Qed.

Lemma endswith_app_nl (s : string) : endswith NL (s ++ nl) = true.
Proof.
  induction s as [|c s IH]; [reflexivity|].
  cbn [append endswith]. destruct (s ++ nl) eqn:E; [|exact IH].
  destruct s; discriminate.
Qed.

Lemma endswith_app (c : ascii) (a b : string) :
  endswith c b = true -> endswith c (a ++ b) = true.
Proof.
  intros H. induction a as [|x a IH]; [exact H|].
  cbn [append endswith]. destruct (a ++ b) eqn:E; [|exact IH].
  destruct a; simpl in E; [rewrite E in H|]; discriminate.
Qed.

Lemma lines_of_record (l1 l2 l3 l4 text : string) :
  text = l1 ++ String NL (l2 ++ String NL (l3 ++ String NL
                                            (l4 ++ String NL END)))
  -> contains NL l1 = false -> contains NL l2 = false ->
  contains NL l3 = false -> contains NL l4 = false ->
  lines text = [l1 ++ nl; l2 ++ nl; l3 ++ nl; l4 ++ nl; END].
Proof.
  intros -> H1 H2 H3 H4.
  rewrite (lines_app _ _ H1), (lines_app _ _ H2), (lines_app _ _ H3).
  rewrite (lines_app _ _ H4). reflexivity.
Qed.

(** The four lines of a one-line exchange decode to its fields. *)
Lemma decode_one_line_record (method url token body_line : string)
    (status : Z) (response_line : string) (b : pyval) :
  contains SP method = false -> contains NL method = false ->
  contains SP url = false -> contains NL url = false ->
  contains SP token = false -> contains NL token = false ->
  contains NL body_line = false ->
  contains NL response_line = false ->
  best_effort loads body_line = Return b ->
  ReplayTransport.get_whole_request_info loads
    [method ++ " " ++ url ++ " " ++ token ++ nl; body_line ++ nl]
    [str_int status ++ nl; response_line ++ nl]
  = Return {| Exchange.method := method;
              Exchange.url := url;
              Exchange.params := token;
              Exchange.body := b;
              Exchange.status := status;
              Exchange.response := response_line |}.
Proof.
  intros Hm Hm' Hu Hu' Ht Ht' Hb Hr Hbe.
  unfold ReplayTransport.get_whole_request_info. cbn [bind tl join].
  change (method ++ " " ++ url ++ " " ++ token ++ nl)
    with (method ++ String SP (url ++ String SP (token ++ nl))).
  rewrite (split_app SP method _ Hm), (split_app SP url _ Hu).
  rewrite (split_without SP (token ++ nl))
    by (rewrite contains_app, Ht; reflexivity).
  rewrite !rstrip_app_nl.
  rewrite (rstrip_without _ Hm'), (rstrip_without _ Hu'),
          (rstrip_without _ Ht'), (rstrip_without _ Hr).
  rewrite (rstrip_without (str_int status))
    by (apply str_int_without; [reflexivity | discriminate]).
  rewrite int_str_int.
  unfold best_effort in Hbe.
  assert (Heq : (body_line ++ nl =? "-" ++ nl) = (body_line =? "-")).
  { destruct (String.eqb_spec body_line "-") as [->|Hne];
      [reflexivity|].
    apply String.eqb_neq. intros H. apply Hne.
    change ("-" ++ nl) with ("-" ++ nl) in H.
    clear - H. revert H. generalize "-". induction body_line as [|c s IH];
      intros d H; destruct d as [|c' d]; simpl in H; try congruence.
    - destruct d; discriminate.
    - destruct s; discriminate.
    - injection H as -> H. f_equal. now apply IH. }
  rewrite Heq. destruct (body_line =? "-") eqn:E.
  - apply String.eqb_eq in E. subst body_line.
    injection Hbe as <-. cbn [negb bind ReplayTransport.rstrip_value].
    reflexivity.
  - cbn [negb].
    destruct (ReplayTransport.loads_or_keep loads (body_line ++ nl))
      as [v|e]; cbn [bind] in *; [|discriminate].
    now injection Hbe as <-.
Qed.

(** C2, amended.  For a method and a url without space or newline, and a
    request body and a response whose serialized texts hold no newline,
    the text written by [format_request], [format_response] and the
    sentinel decodes to one exchange with the same method, url, params
    token and status, with the request body as best-effort
    deserialization gives it and with the serialized response text, [-]
    standing for an absent or empty text. *)
Theorem encode_decode_roundtrip (method url : string) (params : params_t)
    (body : pyval) (status : Z) (data : pyval)
    (body_text : option string) (response_text : string) (b : pyval) :
  contains SP method = false -> contains NL method = false ->
  contains SP url = false -> contains NL url = false ->
  RecordTransport.dumps_body dumps body = Return body_text ->
  dumps data = Return response_text ->
  contains NL (match body_text with Some s => s | None => EmptyString end)
  = false ->
  contains NL response_text = false ->
  best_effort loads
    (placeholder (match body_text with Some s => s | None => EmptyString end))
  = Return b ->
  exists text,
    encode dumps method url params body (StatusCode status) data
    = Return text
    /\ ReplayTransport.replay_loop loads [] [] (lines text)
       = (Yield {| Exchange.method := method;
                   Exchange.url := url;
                   Exchange.params := params_token params;
                   Exchange.body := b;
                   Exchange.status := status;
                   Exchange.response := placeholder response_text |},
          []).
Proof.
  intros Hm Hm' Hu Hu' Hdb Hdr Hb Hr Hbe.
  destruct (params_token_clean params) as [Ht Ht'].
  set (body_line :=
         placeholder (match body_text with Some s => s | None => EmptyString end))
    in *.
  assert (Hout : match body_text with
                 | Some s => RecordTransport.out_body IN s
                 | None => "-"
                 end = body_line).
  { unfold body_line. destruct body_text as [s|]; [|reflexivity].
    now apply out_body_one_line. }
  assert (Hbl : contains NL body_line = false)
    by now apply placeholder_one_line.
  assert (Hrl : contains NL (placeholder response_text) = false)
    by now apply placeholder_one_line.
  unfold encode, RecordTransport.format_request,
    RecordTransport.format_response.
  rewrite Hdb, Hdr. cbn [bind]. rewrite Hout, (out_body_one_line _ _ Hr).
  eexists. split; [reflexivity|].
  set (header := method ++ " " ++ url ++ " " ++ params_token params).
  assert (Hh : contains NL header = false).
  { unfold header. rewrite !contains_app, Hm', Hu', Ht'. reflexivity. }
  assert (Hs : contains NL (str_status (StatusCode status)) = false)
    by (apply str_int_without; [reflexivity | discriminate]).
  replace (endswith NL
             (OUT ++ str_status (StatusCode status) ++ nl ++ OUT
              ++ placeholder response_text ++ nl)) with true
    by (symmetry; do 5 apply endswith_app; reflexivity).
  rewrite (lines_of_record (IN ++ header) (IN ++ body_line)
             (OUT ++ str_status (StatusCode status))
             (OUT ++ placeholder response_text)).
  - pose proof (replay_loop_record loads
                  [(IN ++ header) ++ nl; (IN ++ body_line) ++ nl;
                   (OUT ++ str_status (StatusCode status)) ++ nl;
                   (OUT ++ placeholder response_text) ++ nl]
                  [] [] [] eq_refl) as Hloop.
    cbn [app] in Hloop. rewrite Hloop. clear Hloop.
    rewrite !append_assoc.
    cbn [app request_lines response_lines filter map].
    rewrite !(proj1 (request_line_marked _)).
    rewrite !(proj1 (response_line_marked _)).
    rewrite !(proj1 (proj2 (response_line_marked _))).
    cbn [negb andb map].
    rewrite !(proj2 (request_line_marked _)).
    rewrite !(proj2 (proj2 (response_line_marked _))).
    unfold header. cbn [str_status].
    rewrite !append_assoc.
    rewrite (decode_one_line_record method url (params_token params)
               body_line status (placeholder response_text) b);
      auto.
  - unfold header. rewrite !append_assoc. reflexivity.
  - cbn [contains IN]. exact Hh.
  - exact Hbl.
  - exact Hs.
  - exact Hrl.
Qed.

End CodecFacts.

(** ** The tests, and the theorems at concrete transcripts *)

Import Fixtures.

Lemma replay_of_fresh (text : string) :
  replay_of text = Return (fresh_replay text).
Proof. reflexivity. Qed.

Example test_simple_fetch :
  replay_request "GET" "/myindex" None PNone (fresh_replay IN_CONTENTS)
  = (Return (200%Z, PDict [("key", PStr "value")]),
     snd (ReplayTransport.next Json.loads (fresh_replay IN_CONTENTS))).
Proof. vm_compute. reflexivity. Qed.

(** C1.  The call [HEAD /myindex], answered 200 without a body, is
    recorded as [EMPTY_RESPONSE_CONTENTS].  On that transcript the cursor
    yields an exchange with the status 200 that the same call agrees
    with on every field, yet [perform_request] does not return the
    recorded status with a body: it raises [SerializationError], which
    the deserializer raises for the placeholder [-]. *)
Theorem empty_response_is_not_replayed :
  RecordTransport.perform_request Json.dumps
    (Cases.answering (Return (StatusCode 200, PStr EmptyString)))
    dummy_params "HEAD" "/myindex" None PNone empty_record
  = (Return (StatusCode 200, PStr EmptyString),
     {| RecordTransport.recfile :=
          Some {| content := Cases.EMPTY_RESPONSE_CONTENTS; unread := [] |};
        RecordTransport.log := [];
        RecordTransport.world := [("HEAD", "/myindex", None, PNone)] |})
  /\ fst (ReplayTransport.next Json.loads
            (fresh_replay Cases.EMPTY_RESPONSE_CONTENTS))
     = Yield Cases.empty_response_exchange
  /\ (forall key,
        Transcript.agrees Cases.empty_response_exchange
          "HEAD" "/myindex" None PNone key = true)
  /\ replay_request "HEAD" "/myindex" None PNone
       (fresh_replay Cases.EMPTY_RESPONSE_CONTENTS)
     = (Raise SerializationError,
        snd (ReplayTransport.next Json.loads
               (fresh_replay Cases.EMPTY_RESPONSE_CONTENTS))).
Proof.
  split; [vm_compute; reflexivity|].
  split; [vm_compute; reflexivity|].
  split; [intros []; vm_compute; reflexivity|].
  vm_compute. reflexivity.
Qed.

(** C2 at the second exchange of [IN_CONTENTS]. *)
Lemma encode_decode_roundtrip_witness :
  exists text,
    Transcript.encode Json.dumps "GET" "/myindex2" None
      (PStr (PyStr.dq "{'req': 'body'}")) (StatusCode 200)
      (PDict [("key", PStr "value2")]) = Return text
    /\ ReplayTransport.replay_loop Json.loads [] [] (PyStr.lines text)
       = (Yield second_exchange, []).
Proof.
  apply (encode_decode_roundtrip Json.dumps Json.loads "GET" "/myindex2" None
           (PStr (PyStr.dq "{'req': 'body'}")) 200
           (PDict [("key", PStr "value2")])
           (Some (PyStr.dq "{'req': 'body'}"))
           (PyStr.dq "{'key': 'value2'}")
           (PDict [("req", PStr "body")]));
    vm_compute; reflexivity.
Defined.

(** C2 fails as stated: the exchange written for a url with a space in
    it decodes to [ValueError], and a response of two lines of text comes
    back with an empty line between them. *)
Lemma roundtrip_fails_on_spaces_and_newlines :
  (Transcript.encode Json.dumps "GET" "/my index" None PNone
     (StatusCode 200) (PDict []) = Return SPACE_CONTENTS
   /\ ReplayTransport.replay_loop Json.loads [] [] (PyStr.lines SPACE_CONTENTS)
      = (GenRaise ValueError, []))
  /\ (Transcript.encode Json.dumps "GET" "/_cat/indices" None PNone
        (StatusCode 200) (PStr two_lines) = Return TEXT_CONTENTS
      /\ ReplayTransport.replay_loop Json.loads [] []
           (PyStr.lines TEXT_CONTENTS)
         = (Yield text_exchange, [])
      /\ Exchange.response text_exchange <> PyStr.rstrip two_lines).
Proof.
  split; [split | split; [|split]]; try (vm_compute; reflexivity).
  discriminate.
Qed.

(** C3 at [IN_CONTENTS]: two records and a trailing empty line. *)
Lemma cursor_yields_all_then_exceeded_witness :
  fst (Transcript.pulls Json.loads 2
         (ReplayTransport.reset_replay_log (fresh_replay IN_CONTENTS)))
  = [Yield first_exchange; Yield second_exchange]
  /\ length [first_exchange; second_exchange] = 2
  /\ forall method url params body,
       fst (ReplayTransport.get_next_replay Json.loads source_order
              method url params body
              (snd (Transcript.pulls Json.loads 2
                      (ReplayTransport.reset_replay_log
                         (fresh_replay IN_CONTENTS)))))
       = Raise ReplayLogExceededError.
Proof.
  apply (cursor_yields_all_then_exceeded Json.loads source_order (list Call)
           [firstn 4 (PyStr.lines IN_CONTENTS);
            firstn 4 (skipn 5 (PyStr.lines IN_CONTENTS))]
           [first_exchange; second_exchange]
           [nl] (fresh_replay IN_CONTENTS)).
  - repeat constructor; vm_compute; reflexivity.
  - reflexivity.
  - vm_compute. reflexivity.
Defined.

(** C4 at [IN_CONTENTS] and the url [/badreq]
    ([test_different_request]). *)
Lemma check_match_exact_witness :
  fst (ReplayTransport.get_next_replay Json.loads source_order
         "GET" "/badreq" None PNone (fresh_replay IN_CONTENTS))
  = Raise RequestMatchError.
Proof.
  refine (proj2 (proj2
    (check_match_exact Json.loads source_order (list Call)
       (fresh_replay IN_CONTENTS)
       (snd (ReplayTransport.next Json.loads (fresh_replay IN_CONTENTS)))
       first_exchange "GET" "/badreq" None PNone _ _)) _).
  - intros []; vm_compute; tauto.
  - vm_compute. reflexivity.
  - discriminate.
Defined.

(** C6 at the text of [test_invlid_file_format]. *)
Lemma malformed_header_raises_when_pulled_witness :
  exists self : ReplayTransport.t (list Call),
    replay_of WRONG_CONTENTS = Return self
    /\ unread (ReplayTransport.recfile self) = PyStr.lines WRONG_CONTENTS
    /\ forall method url params body,
         fst (ReplayTransport.get_next_replay Json.loads source_order
                method url params body self)
         = Raise (ReplayFileParseError ValueError).
Proof.
  destruct (malformed_header_raises_when_pulled Json.loads source_order
              no_files (list Call) WRONG_CONTENTS [] [] []
              (firstn 1 (PyStr.lines WRONG_CONTENTS)) [" format"]
              ("some ##< odd but similar " ++ nl) [])
    as (self & Hinit & Hunread & _ & Hpull & _).
  - constructor.
  - reflexivity.
  - reflexivity.
  - reflexivity.
  - vm_compute. discriminate.
  - exists self. repeat split; assumption.
Defined.

(** C6 fails as stated: a line without marker inside a record raises
    nothing, the record is replayed. *)
Lemma stray_line_is_skipped :
  fst (ReplayTransport.get_next_replay Json.loads source_order
         "GET" "/myindex" None PNone (fresh_replay STRAY_CONTENTS))
  = Return (200%Z, PDict [("key", PStr "value")])
  /\ ~ (exists cause,
          fst (ReplayTransport.get_next_replay Json.loads source_order
                 "GET" "/myindex" None PNone (fresh_replay STRAY_CONTENTS))
          = Raise (ReplayFileParseError cause)).
Proof.
  assert (H : fst (ReplayTransport.get_next_replay Json.loads source_order
                     "GET" "/myindex" None PNone (fresh_replay STRAY_CONTENTS))
              = Return (200%Z, PDict [("key", PStr "value")]))
    by (vm_compute; reflexivity).
  split; [exact H|]. intros [cause Hc]. rewrite H in Hc. discriminate.
Qed.

(** C8.  The call [GET /missing], which the live service fails with a
    404 and the message [Not Found], is recorded as
    [NOT_FOUND_TEXT_CONTENTS].  On that transcript the cursor yields an
    exchange with the status 404 that the same call agrees with on every
    field, yet [perform_request] raises [SerializationError], from the
    deserializer given the stored message, and not the error the hook
    [_raise_error] raises for a 404; the pool is not asked for a
    connection. *)
Theorem text_error_message_is_not_replayed :
  RecordTransport.perform_request Json.dumps
    (Cases.answering (Raise Cases.not_found))
    dummy_params "GET" "/missing" None PNone empty_record
  = (Raise Cases.not_found,
     {| RecordTransport.recfile :=
          Some {| content := Cases.NOT_FOUND_TEXT_CONTENTS; unread := [] |};
        RecordTransport.log := [];
        RecordTransport.world := [("GET", "/missing", None, PNone)] |})
  /\ fst (ReplayTransport.next Json.loads
            (fresh_replay Cases.NOT_FOUND_TEXT_CONTENTS))
     = Yield Cases.not_found_text_exchange
  /\ (forall key,
        Transcript.agrees Cases.not_found_text_exchange
          "GET" "/missing" None PNone key = true)
  /\ replay_request "GET" "/missing" None PNone
       (fresh_replay Cases.NOT_FOUND_TEXT_CONTENTS)
     = (Raise SerializationError,
        snd (ReplayTransport.next Json.loads
               (fresh_replay Cases.NOT_FOUND_TEXT_CONTENTS)))
  /\ (forall data,
        http_error tt 404 data
        <> Raise SerializationError).
Proof.
  split; [vm_compute; reflexivity|].
  split; [vm_compute; reflexivity|].
  split; [intros []; vm_compute; reflexivity|].
  split; [vm_compute; reflexivity|].
  intros data. discriminate.
Qed.

(** C9 at [IN_CONTENTS]: a reset after the first of the two exchanges
    was replayed. *)
Lemma reset_idempotent_and_replay_repeats_witness :
  let mid :=
    snd (ReplayTransport.perform_requests Json.dumps Json.loads source_order
           dummy_pool http_error
           [ {| req_method := "GET"; req_url := "/myindex";
                req_params := None; req_body := PNone |} ]
           (fresh_replay IN_CONTENTS)) in
  ReplayTransport.reset_replay_log (ReplayTransport.reset_replay_log mid)
  = ReplayTransport.reset_replay_log mid
  /\ Transcript.cursor_at
       (PyStr.lines
          (content (ReplayTransport.recfile (fresh_replay IN_CONTENTS))))
       (ReplayTransport.reset_replay_log mid)
  /\ Transcript.same_cursor (ReplayTransport.reset_replay_log mid)
       (fresh_replay IN_CONTENTS)
  /\ fst (Transcript.pulls Json.loads 3 (ReplayTransport.reset_replay_log mid))
     = fst (Transcript.pulls Json.loads 3 (fresh_replay IN_CONTENTS)).
Proof.
  apply (reset_idempotent_and_replay_repeats Json.dumps Json.loads
           source_order no_files (list Call) unit dummy_pool http_error
           (Some (ArgHandle (StringIO IN_CONTENTS))) []
           (fresh_replay IN_CONTENTS)
           [ {| req_method := "GET"; req_url := "/myindex";
                req_params := None; req_body := PNone |} ] 3).
  vm_compute. reflexivity.
Defined.

(** The same at its values: the first call leaves the cursor after the
    first record, and the cursor a reset builds yields both exchanges
    again. *)
Example reset_mid_sequence :
  unread (ReplayTransport.recfile
            (snd (replay_request "GET" "/myindex" None PNone
                    (fresh_replay IN_CONTENTS))))
  = skipn 5 (PyStr.lines IN_CONTENTS)
  /\ fst (Transcript.pulls Json.loads 3
            (ReplayTransport.reset_replay_log
               (snd (replay_request "GET" "/myindex" None PNone
                       (fresh_replay IN_CONTENTS)))))
     = [Yield first_exchange; Yield second_exchange; StopIteration]
  /\ fst (Transcript.pulls Json.loads 3
            (snd (replay_request "GET" "/myindex" None PNone
                    (fresh_replay IN_CONTENTS))))
     = [Yield second_exchange; StopIteration; StopIteration].
Proof.
  split; [vm_compute; reflexivity|].
  split; vm_compute; reflexivity.
Qed.

(** C5.  The call [GET /myindex] with the text [{}] as body is recorded
    as [EMPTY_OBJECT_CONTENTS]; replayed with the same text, or with the
    empty mapping, it does not match: [perform_request] raises
    [RequestMatchError]. *)
Theorem empty_object_text_body_does_not_match :
  record_request "GET" "/myindex" None (PStr "{}") empty_record
  = (Return (StatusCode 200, PDict [("key", PStr "value")]),
     {| RecordTransport.recfile :=
          Some {| content := EMPTY_OBJECT_CONTENTS; unread := [] |};
        RecordTransport.log := [];
        RecordTransport.world := [("GET", "/myindex", None, PStr "{}")] |})
  /\ fst (replay_request "GET" "/myindex" None (PStr "{}")
            (fresh_replay EMPTY_OBJECT_CONTENTS))
     = Raise RequestMatchError
  /\ fst (replay_request "GET" "/myindex" None (PDict [])
            (fresh_replay EMPTY_OBJECT_CONTENTS))
     = Raise RequestMatchError.
Proof. repeat split; vm_compute; reflexivity. Qed.

Example test_more_requests :
  fst (ReplayTransport.perform_requests Json.dumps Json.loads source_order
         dummy_pool http_error
         [ {| req_method := "GET"; req_url := "/myindex";
              req_params := None; req_body := PNone |};
           {| req_method := "GET"; req_url := "/myindex2";
              req_params := None;
              req_body := PStr (PyStr.dq "{'req': 'body'}") |};
           {| req_method := "GET"; req_url := "/myindex";
              req_params := None; req_body := PNone |} ]
         (fresh_replay IN_CONTENTS))
  = [ Return (200%Z, PDict [("key", PStr "value")]);
      Return (200%Z, PDict [("key", PStr "value2")]);
      Raise ReplayLogExceededError ].
Proof. vm_compute. reflexivity. Qed.

Example test_diffrent_body_same_after_deserialization :
  fst (replay_request "GET" "/myindex2" None
         (PStr (PyStr.dq "{'req': 
 'body'}"))
         (snd (replay_request "GET" "/myindex" None PNone
                 (fresh_replay IN_CONTENTS))))
  = Return (200%Z, PDict [("key", PStr "value2")]).
Proof. vm_compute. reflexivity. Qed.

Example test_body_as_dict :
  fst (replay_request "GET" "/myindex2" None (PDict [("req", PStr "body")])
         (snd (replay_request "GET" "/myindex" None PNone
                 (fresh_replay IN_CONTENTS))))
  = Return (200%Z, PDict [("key", PStr "value2")]).
Proof. vm_compute. reflexivity. Qed.

(** ** The layout of the written text *)

Section LayoutFacts.

Import PyStr Transcript Layout.

Variable dumps : pyval -> result string.
Variable loads : string -> result pyval.

(** Both sides of an equation between concatenations, nested to the
    right. *)
Ltac nest_right :=
  repeat (progress (cbn [append IN OUT nl]; rewrite ?append_assoc)).

Lemma split_pieces_clean (s : string) :
  Forall (fun p => contains NL p = false) (split NL s).
Proof.
  induction s as [|c s IH]; cbn [split]; [repeat constructor|].
  destruct (Ascii.eqb c NL) eqn:E; [constructor; [reflexivity | exact IH]|].
  destruct (split NL s) as [|p ps]; [repeat constructor; cbn; now rewrite E|].
  inversion IH as [|? ? Hp Hps]; subst.
  constructor; [cbn; now rewrite E, Hp | exact Hps].
Qed.

Lemma split_nonempty (s : string) : split NL s <> [].
Proof.
  destruct s as [|c s]; cbn [split]; [discriminate|].
  destruct (Ascii.eqb c NL); [discriminate|].
  destruct (split NL s); discriminate.
Qed.

Lemma pieces_clean (s : string) :
  Forall (fun p => contains NL p = false) (pieces s) /\ pieces s <> [].
Proof.
  unfold pieces. destruct (negb (s =? EmptyString)).
  - split; [apply split_pieces_clean | apply split_nonempty].
  - split; [repeat constructor | discriminate].
Qed.

Lemma body_pieces_clean (bt : option string) :
  Forall (fun p => contains NL p = false) (body_pieces bt)
  /\ body_pieces bt <> [].
Proof.
  destruct bt as [s|]; [apply pieces_clean|].
  split; [repeat constructor | discriminate].
Qed.

Lemma out_body_pieces (mark s : string) :
  RecordTransport.out_body mark s = join (nl ++ mark) (pieces s).
Proof.
  unfold RecordTransport.out_body, pieces.
  now destruct (negb (s =? EmptyString)).
Qed.

(** The lines of pieces joined under a marker. *)
Lemma lines_joined (mark : string) :
  contains NL mark = false ->
  forall ps rest,
    ps <> [] ->
    Forall (fun p => contains NL p = false) ps ->
    lines (mark ++ join (nl ++ mark) ps ++ String NL rest)
    = (marked mark ps ++ lines rest)%list.
Proof.
  intros Hmark. induction ps as [|p ps IH]; intros rest Hne Hclean;
    [congruence|].
  inversion Hclean as [|? ? Hp Hps]; subst.
  destruct ps as [|q ps].
  - cbn [join marked map app].
    rewrite <- append_assoc.
    rewrite lines_app by (rewrite contains_app, Hmark, Hp; reflexivity).
    now rewrite append_assoc.
  - change (join (nl ++ mark) (p :: q :: ps))
      with (p ++ (nl ++ mark) ++ join (nl ++ mark) (q :: ps)).
    replace (mark ++ (p ++ (nl ++ mark) ++ join (nl ++ mark) (q :: ps))
             ++ String NL rest)
      with ((mark ++ p)
            ++ String NL (mark ++ join (nl ++ mark) (q :: ps)
                          ++ String NL rest)).
    + rewrite lines_app by (rewrite contains_app, Hmark, Hp; reflexivity).
      rewrite IH by (auto; discriminate).
      cbn [marked map app]. now rewrite append_assoc.
    + rewrite !append_assoc. reflexivity.
Qed.

(** The lines of a block: the line [first] and the pieces [ps], all
    under the marker [mark]. *)
Lemma lines_block (mark first : string) (ps : list string) (rest : string) :
  contains NL mark = false ->
  contains NL first = false ->
  ps <> [] ->
  Forall (fun p => contains NL p = false) ps ->
  lines (mark ++ first ++ nl ++ mark ++ join (nl ++ mark) ps ++ nl ++ rest)
  = (marked mark (first :: ps) ++ lines rest)%list.
Proof.
  intros Hmark Hfirst Hne Hclean.
  replace (mark ++ first ++ nl ++ mark ++ join (nl ++ mark) ps ++ nl ++ rest)
    with ((mark ++ first)
          ++ String NL (mark ++ join (nl ++ mark) ps ++ String NL rest))
    by (rewrite !append_assoc; reflexivity).
  rewrite lines_app by (rewrite contains_app, Hmark, Hfirst; reflexivity).
  rewrite (lines_joined mark Hmark ps rest Hne Hclean).
  cbn [marked map app]. now rewrite append_assoc.
Qed.

Lemma header_clean (method url : string) (params : params_t) :
  contains NL method = false -> contains NL url = false ->
  contains NL (header method url params) = false.
Proof.
  intros Hm Hu. unfold header.
  destruct (params_token_clean params) as [_ Ht].
  rewrite !contains_app, Hm, Hu, Ht. reflexivity.
Qed.

Lemma marked_request_lines (ps : list string) :
  Forall (fun l => startswith IN l = true) (marked IN ps)
  /\ no_sentinel (marked IN ps) = true
  /\ request_lines (marked IN ps) = collected ps
  /\ response_lines (marked IN ps) = [].
Proof.
  induction ps as [|p ps (IH1 & IH2 & IH3 & IH4)];
    [repeat split; constructor|].
  unfold request_lines, response_lines in *.
  cbn [marked map no_sentinel forallb filter collected] in *.
  rewrite (proj1 (request_line_marked (p ++ nl))).
  cbn [negb andb map]. fold (marked IN ps). fold (collected ps).
  rewrite IH3, IH4. repeat split.
  - constructor; [apply startswith_app | exact IH1].
  - exact IH2.
Qed.

Lemma marked_response_lines (ps : list string) :
  Forall (fun l => startswith OUT l = true) (marked OUT ps)
  /\ no_sentinel (marked OUT ps) = true
  /\ request_lines (marked OUT ps) = []
  /\ response_lines (marked OUT ps) = collected ps.
Proof.
  induction ps as [|p ps (IH1 & IH2 & IH3 & IH4)];
    [repeat split; constructor|].
  unfold request_lines, response_lines in *.
  cbn [marked map no_sentinel forallb filter collected] in *.
  destruct (response_line_marked (p ++ nl)) as (H1 & H2 & H3).
  rewrite H1, H2. cbn [negb andb map]. fold (marked OUT ps).
  fold (collected ps). rewrite IH3, IH4. repeat split.
  - constructor; [apply startswith_app | exact IH1].
  - exact IH2.
Qed.

(** The lines of the text [format_request] returns. *)
Lemma format_request_layout (method url : string) (params : params_t)
    (body : pyval) (req rest : string) :
  RecordTransport.format_request dumps method url params body = Return req ->
  contains NL method = false -> contains NL url = false ->
  exists bt,
    RecordTransport.dumps_body dumps body = Return bt
    /\ lines (req ++ rest)
       = (marked IN (header method url params :: body_pieces bt)
          ++ lines rest)%list.
Proof.
  unfold RecordTransport.format_request. intros Hreq Hm Hu.
  destruct (RecordTransport.dumps_body dumps body) as [bt|e];
    cbn [bind] in Hreq; [|discriminate].
  injection Hreq as <-. exists bt. split; [reflexivity|].
  assert (Hout : match bt with
                 | Some s => RecordTransport.out_body IN s
                 | None => "-"
                 end = join (nl ++ IN) (body_pieces bt))
    by (destruct bt; [apply out_body_pieces | reflexivity]).
  rewrite Hout.
  destruct (body_pieces_clean bt) as [Hclean Hne].
  rewrite <- (lines_block IN (header method url params) (body_pieces bt) rest
                eq_refl (header_clean _ _ params Hm Hu) Hne Hclean).
  unfold header. f_equal. nest_right. reflexivity.
Qed.

(** The lines of the text [format_response] returns. *)
Lemma format_response_layout (status : status_val) (data : pyval)
    (resp rest : string) :
  RecordTransport.format_response dumps status data = Return resp ->
  contains NL (str_status status) = false ->
  exists tr,
    dumps data = Return tr
    /\ lines (resp ++ rest)
       = (marked OUT (str_status status :: pieces tr) ++ lines rest)%list
    /\ endswith NL resp = true.
Proof.
  unfold RecordTransport.format_response. intros Hresp Hs.
  destruct (dumps data) as [tr|e]; cbv beta iota delta [bind] in Hresp;
    [|discriminate].
  assert (E : resp = OUT ++ str_status status ++ nl ++ OUT
                     ++ RecordTransport.out_body OUT tr ++ nl)
    by congruence.
  subst resp. clear Hresp. exists tr. split; [reflexivity|].
  rewrite out_body_pieces.
  destruct (pieces_clean tr) as [Hclean Hne]. split.
  - rewrite <- (lines_block OUT (str_status status) (pieces tr) rest
                  eq_refl Hs Hne Hclean).
    f_equal. nest_right. reflexivity.
  - do 5 apply endswith_app. reflexivity.
Qed.

(** The lines of the text written for one exchange, and what the
    decoding loop makes of them. *)
Lemma encode_layout (method url : string) (params : params_t) (body : pyval)
    (status : status_val) (data : pyval) (text : string) :
  encode dumps method url params body status data = Return text ->
  contains NL method = false -> contains NL url = false ->
  contains NL (str_status status) = false ->
  exists bt tr,
    RecordTransport.dumps_body dumps body = Return bt
    /\ dumps data = Return tr
    /\ lines text
       = (marked IN (header method url params :: body_pieces bt)
          ++ marked OUT (str_status status :: pieces tr) ++ [END])%list.
Proof.
  unfold encode. intros Henc Hm Hu Hs.
  destruct (RecordTransport.format_request dumps method url params body)
    as [req|e] eqn:Ereq; cbn [bind] in Henc; [|discriminate].
  destruct (RecordTransport.format_response dumps status data)
    as [resp|e] eqn:Eresp; cbn [bind] in Henc; [|discriminate].
  injection Henc as <-.
  destruct (format_request_layout _ _ _ _ req
              (resp ++ (if endswith NL resp then EmptyString else nl) ++ END)
              Ereq Hm Hu) as (bt & Hbt & Hl1).
  destruct (format_response_layout _ _ resp
              ((if endswith NL resp then EmptyString else nl) ++ END)
              Eresp Hs) as (tr & Htr & Hl2 & Hend).
  exists bt, tr. split; [exact Hbt|]. split; [exact Htr|].
  rewrite Hl1, Hl2, Hend. reflexivity.
Qed.

Lemma replay_loop_blocks (reqs resps : list string) :
  ReplayTransport.replay_loop loads [] []
    (marked IN reqs ++ marked OUT resps ++ [END])%list
  = (outcome_of (ReplayTransport.get_whole_request_info loads
                   (collected reqs) (collected resps)), []).
Proof.
  destruct (marked_request_lines reqs) as (_ & Hn1 & Hq1 & Hr1).
  destruct (marked_response_lines resps) as (_ & Hn2 & Hq2 & Hr2).
  rewrite app_assoc.
  rewrite (replay_loop_record loads (marked IN reqs ++ marked OUT resps)
             [] [] []).
  - unfold request_lines, response_lines in *.
    rewrite !filter_app, !map_app, Hq1, Hq2, Hr1, Hr2, app_nil_r.
    reflexivity.
  - unfold no_sentinel in *. rewrite forallb_app, Hn1, Hn2. reflexivity.
Qed.

(** Whatever the body, the text [format_request] returns for a method and
    a url without newline is made of the header line and of one line for
    each piece of the serialized body; every line starts with the request
    marker and none is the sentinel. *)
Theorem format_request_lines_are_marked (method url : string)
    (params : params_t) (body : pyval) (req : string) :
  RecordTransport.format_request dumps method url params body = Return req ->
  contains NL method = false -> contains NL url = false ->
  exists bt,
    RecordTransport.dumps_body dumps body = Return bt
    /\ lines req = marked IN (header method url params :: body_pieces bt)
    /\ Forall (fun line => startswith IN line = true) (lines req)
    /\ no_sentinel (lines req) = true.
Proof.
  intros Hreq Hm Hu.
  destruct (format_request_layout _ _ _ _ req EmptyString Hreq Hm Hu)
    as (bt & Hbt & Hl).
  rewrite append_nil_r in Hl. cbn [lines] in Hl. rewrite app_nil_r in Hl.
  exists bt. rewrite Hl. split; [exact Hbt|]. split; [reflexivity|].
  destruct (marked_request_lines (header method url params :: body_pieces bt))
    as (H1 & H2 & _).
  split; assumption.
Qed.

(** The text [format_response] returns for a status without newline is
    made of the status line and of one line for each piece of the
    serialized data; every line starts with the response marker, none is
    the sentinel, and the text ends with a newline, so that the end mark
    written after it is the sentinel alone. *)
Theorem format_response_lines_are_marked (status : status_val) (data : pyval)
    (resp : string) :
  RecordTransport.format_response dumps status data = Return resp ->
  contains NL (str_status status) = false ->
  exists tr,
    dumps data = Return tr
    /\ lines resp = marked OUT (str_status status :: pieces tr)
    /\ Forall (fun line => startswith OUT line = true) (lines resp)
    /\ no_sentinel (lines resp) = true
    /\ endswith NL resp = true.
Proof.
  intros Hresp Hs.
  destruct (format_response_layout _ _ resp EmptyString Hresp Hs)
    as (tr & Htr & Hl & Hend).
  rewrite append_nil_r in Hl. cbn [lines] in Hl. rewrite app_nil_r in Hl.
  exists tr. rewrite Hl. split; [exact Htr|]. split; [reflexivity|].
  destruct (marked_response_lines (str_status status :: pieces tr))
    as (H1 & H2 & _).
  repeat split; assumption.
Qed.

(** Whatever the lines of the serialized body and response, also when
    one of them reads as the sentinel, the text written for one exchange
    is decoded as one record and nothing is left over: the request lines
    are the header and the pieces of the body, the response lines the
    status and the pieces of the response. *)
Theorem encoded_exchange_is_one_record (method url : string)
    (params : params_t) (body : pyval) (status : status_val) (data : pyval)
    (text : string) :
  encode dumps method url params body status data = Return text ->
  contains NL method = false -> contains NL url = false ->
  contains NL (str_status status) = false ->
  exists bt tr,
    RecordTransport.dumps_body dumps body = Return bt
    /\ dumps data = Return tr
    /\ ReplayTransport.replay_loop loads [] [] (lines text)
       = (outcome_of
            (ReplayTransport.get_whole_request_info loads
               (collected (header method url params :: body_pieces bt))
               (collected (str_status status :: pieces tr))),
          []).
Proof.
  intros Henc Hm Hu Hs.
  destruct (encode_layout _ _ _ _ _ _ text Henc Hm Hu Hs)
    as (bt & tr & Hbt & Htr & Hl).
  exists bt, tr. split; [exact Hbt|]. split; [exact Htr|].
  rewrite Hl. apply replay_loop_blocks.
Qed.

End LayoutFacts.

(** ** Pulls *)

Section PullFacts.

Import PyStr Transcript Layout.

Variable dumps : pyval -> result string.
Variable loads : string -> result pyval.
Variable key_order : list Key.
Variable World : Type.
Variable Connection : Type.
Variable get_connection : M World Connection.
Variable raise_error : Connection -> Z -> pyval -> result unit.

Local Abbreviation t := (ReplayTransport.t World).
Local Abbreviation next := (ReplayTransport.next loads (World := World)).
Local Abbreviation get_next_replay :=
  (ReplayTransport.get_next_replay loads key_order (World := World)).
Local Abbreviation perform_request :=
  (ReplayTransport.perform_request dumps loads key_order get_connection
     raise_error).
Local Abbreviation perform_requests :=
  (ReplayTransport.perform_requests dumps loads key_order get_connection
     raise_error).
Local Abbreviation get_whole_request_info :=
  (ReplayTransport.get_whole_request_info loads).

Lemma get_next_replay_bad_record (chunk rest : list string) (self : t)
    (e : exn) method url params body :
  no_sentinel chunk = true ->
  cursor_at (chunk ++ END :: rest)%list self ->
  get_whole_request_info (request_lines chunk) (response_lines chunk)
  = Raise e ->
  fst (get_next_replay method url params body self)
  = Raise (ReplayFileParseError e)
  /\ ReplayTransport.replay_iterator
       (snd (get_next_replay method url params body self)) = GenFinished.
Proof.
  intros Hns Hc Hbad.
  destruct (next_bad_record loads World chunk rest self e Hns Hc Hbad)
    as (self' & Hn & Hfin).
  unfold ReplayTransport.get_next_replay. rewrite Hn. split; [reflexivity|].
  exact Hfin.
Qed.

Lemma get_next_replay_finished (self : t) method url params body :
  ReplayTransport.replay_iterator self = GenFinished ->
  get_next_replay method url params body self
  = (Raise ReplayLogExceededError, self).
Proof.
  intros H. unfold ReplayTransport.get_next_replay.
  now rewrite (next_finished loads World self H).
Qed.

(** A record without request line, or with a header of three tokens and
    no response line, makes the pull raise [ReplayFileParseError]
    wrapping [IndexError]. *)
Theorem record_without_lines_raises_IndexError
    (chunk rest : list string) (self : t)
    (method url : string) (params : params_t) (body : pyval) :
  no_sentinel chunk = true ->
  cursor_at (chunk ++ END :: rest)%list self ->
  request_lines chunk = []
  \/ (exists header more,
        request_lines chunk = header :: more
        /\ length (split SP header) = 3
        /\ response_lines chunk = []) ->
  fst (get_next_replay method url params body self)
  = Raise (ReplayFileParseError IndexError).
Proof.
  intros Hns Hc Hmissing.
  apply (get_next_replay_bad_record chunk rest self IndexError); auto.
  unfold ReplayTransport.get_whole_request_info.
  destruct Hmissing as [-> | (header & more & -> & Hlen & ->)];
    [reflexivity|].
  cbn [bind].
  destruct (split SP header) as [|a [|b [|c [|d l]]]]; try discriminate.
  reflexivity.
Qed.

Lemma loads_or_keep_returns (s : string) :
  raises_only_SerializationError loads ->
  exists v, ReplayTransport.loads_or_keep loads s = Return v.
Proof.
  intros Hl. unfold ReplayTransport.loads_or_keep.
  destruct (loads s) as [v|e] eqn:E; [eauto|].
  rewrite (Hl s e E). cbn. eauto.
Qed.

(** With a deserializer that raises nothing but [SerializationError], a
    record whose header has three tokens and whose status line is not an
    integer makes the pull raise [ReplayFileParseError] wrapping
    [ValueError]; such is the record written for a live call that failed
    with the status [N/A]. *)
Theorem record_with_bad_status_raises_ValueError
    (chunk rest : list string) (self : t)
    (header : string) (more : list string)
    (status_line : string) (response : list string)
    (method url : string) (params : params_t) (body : pyval) :
  raises_only_SerializationError loads ->
  no_sentinel chunk = true ->
  cursor_at (chunk ++ END :: rest)%list self ->
  request_lines chunk = header :: more ->
  length (split SP header) = 3 ->
  response_lines chunk = status_line :: response ->
  PyStr.int (rstrip status_line) = None ->
  fst (get_next_replay method url params body self)
  = Raise (ReplayFileParseError ValueError).
Proof.
  intros Hl Hns Hc Hreq Hlen Hresp Hint.
  apply (get_next_replay_bad_record chunk rest self ValueError); auto.
  unfold ReplayTransport.get_whole_request_info. rewrite Hreq, Hresp.
  cbn [bind tl].
  destruct (split SP header) as [|a [|b [|c [|d l]]]]; try discriminate.
  destruct (negb (join nl more =? "-" ++ nl)).
  - destruct (loads_or_keep_returns (join nl more) Hl) as [v ->].
    cbn [bind]. now rewrite Hint.
  - cbn [bind]. now rewrite Hint.
Qed.

(** A pull consumes the record it reads whatever its outcome: after
    [get_next_replay] over a well-formed record the cursor stands before
    the lines that follow it, also when the request did not match and
    [RequestMatchError] was raised. *)
Theorem pull_consumes_the_record
    (chunk rest : list string) (data : Exchange.t) (self : t)
    (method url : string) (params : params_t) (body : pyval) :
  well_formed loads chunk data ->
  cursor_at (chunk ++ END :: rest)%list self ->
  cursor_at rest (snd (get_next_replay method url params body self))
  /\ (fst (ReplayTransport.check_match data
             (ReplayTransport.current_items key_order method url params body))
      = false ->
      fst (get_next_replay method url params body self)
      = Raise RequestMatchError).
Proof.
  intros [Hns Hd] Hc.
  destruct (next_record loads World chunk rest self Hns Hc data Hd)
    as (self' & Hn & Hc' & _).
  rewrite (get_next_replay_yield loads key_order World self self' data
             _ _ _ _ Hn).
  cbn [fst snd]. split; [exact Hc'|]. now intros ->.
Qed.

(** A record that fails to decode ends the replay: the pull raises
    [ReplayFileParseError], and every later pull raises
    [ReplayLogExceededError] and leaves the transport as it is, whatever
    records follow in the file. *)
Theorem parse_error_ends_the_replay
    (chunk rest : list string) (e : exn) (self : t)
    (method url : string) (params : params_t) (body : pyval)
    (method' url' : string) (params' : params_t) (body' : pyval) :
  no_sentinel chunk = true ->
  cursor_at (chunk ++ END :: rest)%list self ->
  get_whole_request_info (request_lines chunk) (response_lines chunk)
  = Raise e ->
  fst (get_next_replay method url params body self)
  = Raise (ReplayFileParseError e)
  /\ get_next_replay method' url' params' body'
       (snd (get_next_replay method url params body self))
     = (Raise ReplayLogExceededError,
        snd (get_next_replay method url params body self)).
Proof.
  intros Hns Hc Hbad.
  destruct (get_next_replay_bad_record chunk rest self e
              method url params body Hns Hc Hbad) as [H1 H2].
  split; [exact H1|]. now apply get_next_replay_finished.
Qed.

(** What one call adds to the log: nothing, or one entry. *)
Lemma get_next_replay_keeps (self : t) method url params body :
  ReplayTransport.connection
    (snd (get_next_replay method url params body self))
  = ReplayTransport.connection self
  /\ exists entries,
       ReplayTransport.log (snd (get_next_replay method url params body self))
       = (ReplayTransport.log self ++ entries)%list
       /\ length entries <= 1.
Proof.
  pose proof (next_keeps loads World self) as [Hl Hc].
  unfold ReplayTransport.get_next_replay.
  destruct (next self) as [o self']. cbn [snd] in Hl, Hc.
  destruct o as [data|e|]; cbn [snd].
  - destruct (check_match_items data
                (ReplayTransport.current_value method url params body)
                key_order) as (_ & H2 & H3).
    fold (ReplayTransport.current_items key_order method url params body)
      in H2, H3.
    destruct (ReplayTransport.check_match data _) as [ok entries].
    cbn [fst snd] in H2, H3.
    assert (Hlen : length entries <= 1).
    { destruct ok; [rewrite (H2 eq_refl); cbn; lia|].
      destruct (H3 eq_refl) as (? & ? & ? & _ & _ & _ & ->). cbn; lia. }
    destruct ok; cbn [negb snd ReplayTransport.log ReplayTransport.connection];
      (split; [exact Hc|]); exists entries; rewrite Hl; auto.
  - split; [exact Hc|]. exists []. rewrite app_nil_r. split; [exact Hl|].
    cbn; lia.
  - split; [exact Hc|]. exists []. rewrite app_nil_r. split; [exact Hl|].
    cbn; lia.
Qed.

Lemma perform_request_log (self : t) method url params body :
  exists entries,
    ReplayTransport.log (snd (perform_request method url params body self))
    = (ReplayTransport.log self ++ entries)%list
    /\ length entries <= 1.
Proof.
  assert (Hsame : exists entries,
                    ReplayTransport.log self
                    = (ReplayTransport.log self ++ entries)%list
                    /\ length entries <= 1).
  { exists []. rewrite app_nil_r. split; [reflexivity | cbn; lia]. }
  unfold ReplayTransport.perform_request, mbind, lift, ret.
  destruct (ReplayTransport.normalize dumps loads body) as [body'|e];
    [|exact Hsame].
  pose proof (get_next_replay_keeps self method url params body') as [_ H].
  destruct (get_next_replay method url params body' self) as [r self'].
  cbn [snd] in H.
  destruct r as [[status data]|e]; [|exact H].
  destruct (negb _); [|exact H].
  unfold ReplayTransport.on_connection.
  destruct (get_connection (ReplayTransport.connection self')) as [c w].
  destruct c as [conn|e]; [|exact H].
  now destruct (raise_error conn status data).
Qed.

(** What a pull through [get_next_replay] returns carries the status of
    the exchange the cursor yielded. *)
Lemma get_next_replay_status (self : t) method url params body status resp :
  fst (get_next_replay method url params body self) = Return (status, resp) ->
  exists data, fst (next self) = Yield data /\ Exchange.status data = status.
Proof.
  unfold ReplayTransport.get_next_replay.
  destruct (next self) as [o self']. cbn [fst].
  destruct o as [data|e|]; cbn [fst]; try discriminate.
  destruct (ReplayTransport.check_match data _) as [ok entries].
  destruct ok; cbn [negb fst]; try discriminate.
  destruct (loads (Exchange.response data)); cbn [bind]; try discriminate.
  intros [= <- _]. now exists data.
Qed.

Lemma get_next_replay_cursor (self : t) method url params body :
  same_cursor (snd (get_next_replay method url params body self))
              (snd (next self)).
Proof.
  unfold ReplayTransport.get_next_replay.
  destruct (next self) as [o self']. cbn [snd].
  destruct o as [data|e|]; cbn [snd]; try (split; reflexivity).
  destruct (ReplayTransport.check_match data _) as [ok entries].
  destruct ok; split; reflexivity.
Qed.

(** One call: when the cursor does not yield a status outside 200..299
    the pool is left alone, and the cursor is where one pull leaves it,
    or where it was when the body of the call does not serialize. *)
Lemma perform_request_pool (self : t) method url params body :
  (Scenario.no_error_status (fst (next self)) = true ->
   ReplayTransport.connection
     (snd (perform_request method url params body self))
   = ReplayTransport.connection self)
  /\ (same_cursor (snd (perform_request method url params body self))
                  (snd (next self))
      \/ same_cursor (snd (perform_request method url params body self))
                     self).
Proof.
  unfold ReplayTransport.perform_request, mbind, lift, ret.
  destruct (ReplayTransport.normalize dumps loads body) as [body'|e];
    [|split; [reflexivity | right; split; reflexivity]].
  pose proof (get_next_replay_keeps self method url params body') as [Hc _].
  pose proof (get_next_replay_cursor self method url params body') as Hs.
  pose proof (get_next_replay_status self method url params body') as Hst.
  destruct (get_next_replay method url params body' self) as [r self'].
  cbn [fst snd] in Hc, Hs, Hst.
  destruct r as [[status data]|e]; [|split; [intros _; exact Hc | now left]].
  destruct (Hst status data eq_refl) as (d & Hn & Hd).
  destruct ((200 <=? status)%Z && (status <? 300)%Z) eqn:E; cbn [negb].
  - split; [intros _; exact Hc | now left].
  - split.
    + rewrite Hn. cbn [Scenario.no_error_status]. unfold Scenario.is_2xx.
      rewrite Hd, E. discriminate.
    + left. unfold ReplayTransport.on_connection.
      destruct (get_connection (ReplayTransport.connection self')) as [c w].
      destruct c as [conn|e]; [|exact Hs].
      now destruct (raise_error conn status data).
Qed.

Lemma pulls_S (n : nat) (self : t) :
  fst (pulls loads (S n) self)
  = fst (next self) :: fst (pulls loads n (snd (next self))).
Proof.
  cbn [pulls]. destruct (next self) as [o s1]. cbn [fst snd].
  now destruct (pulls loads n s1).
Qed.

Lemma pulls_shorter (n : nat) :
  forall self : t,
    forallb Scenario.no_error_status (fst (pulls loads (S n) self)) = true ->
    forallb Scenario.no_error_status (fst (pulls loads n self)) = true.
Proof.
  induction n as [|n IH]; intros self H; [reflexivity|].
  rewrite pulls_S in H. rewrite pulls_S.
  cbn [forallb] in *. apply andb_true_iff in H as [Ho H].
  rewrite Ho. cbn [andb]. apply IH. exact H.
Qed.

Lemma perform_requests_pool (calls : list Request) :
  forall self : t,
    forallb Scenario.no_error_status
      (fst (pulls loads (length calls) self)) = true ->
    ReplayTransport.connection (snd (perform_requests calls self))
    = ReplayTransport.connection self.
Proof.
  induction calls as [|c calls IH]; intros self H; [reflexivity|].
  cbn [ReplayTransport.perform_requests].
  pose proof (perform_request_pool self (req_method c) (req_url c)
                (req_params c) (req_body c)) as [Hc Hs].
  cbn [length] in H.
  pose proof (pulls_shorter (length calls) self H) as Hshort.
  rewrite pulls_S in H. cbn [forallb] in H.
  apply andb_true_iff in H as [Ho Hos].
  destruct (perform_request _ _ _ _ self) as [r self1]. cbn [snd] in Hc, Hs.
  assert (H1 : forallb Scenario.no_error_status
                 (fst (pulls loads (length calls) self1)) = true).
  { destruct Hs as [Hs|Hs].
    - now rewrite (pulls_same_cursor loads World (length calls) self1
                     (snd (next self)) Hs).
    - now rewrite (pulls_same_cursor loads World (length calls) self1 self
                     Hs). }
  specialize (IH self1 H1).
  destruct (perform_requests calls self1) as [rs self2]. cbn [snd] in *.
  rewrite IH. now apply Hc.
Qed.

(** A sequence of replayed calls never changes the text of the file and
    adds at most one entry to the log for each call; and when none of
    the exchanges the cursor can yield during these calls has a status
    outside 200..299, it leaves the connection pool as it was. *)
Theorem replay_keeps_connection_and_file (calls : list Request) (self : t) :
  content (ReplayTransport.recfile (snd (perform_requests calls self)))
  = content (ReplayTransport.recfile self)
  /\ (exists entries,
        ReplayTransport.log (snd (perform_requests calls self))
        = (ReplayTransport.log self ++ entries)%list
        /\ length entries <= length calls)
  /\ (forallb Scenario.no_error_status
        (fst (pulls loads (length calls) self)) = true ->
      ReplayTransport.connection (snd (perform_requests calls self))
      = ReplayTransport.connection self).
Proof.
  split; [apply perform_requests_content|].
  split; [|apply perform_requests_pool].
  revert self. induction calls as [|c calls IH]; intros self.
  - exists []. rewrite app_nil_r. split; [reflexivity | cbn; lia].
  - cbn [ReplayTransport.perform_requests].
    pose proof (perform_request_log self (req_method c) (req_url c)
                  (req_params c) (req_body c)) as (e1 & Hl1 & Hn1).
    destruct (perform_request _ _ _ _ self) as [r self1]. cbn [snd] in Hl1.
    destruct (IH self1) as (e2 & Hl2 & Hn2).
    destruct (perform_requests calls self1) as [rs self2]. cbn [snd] in *.
    exists (e1 ++ e2)%list. rewrite Hl2, Hl1, app_assoc.
    split; [reflexivity|]. rewrite length_app. cbn [length]. lia.
Qed.

Lemma rstrip_never_ends (s : string) : endswith NL (rstrip s) = false.
Proof.
  induction s as [|c s IH]; [reflexivity|].
  cbn [rstrip]. destruct (rstrip s) as [|c' r] eqn:E.
  - destruct (Ascii.eqb c NL) eqn:Ec; [reflexivity|]. cbn. exact Ec.
  - exact IH.
Qed.

(** No text field of a decoded exchange ends with a newline: method,
    url, params and response, and the body when it is text. *)
Theorem decoded_fields_have_no_trailing_newline
    (req resp : list string) (data : Exchange.t) :
  get_whole_request_info req resp = Return data ->
  endswith NL (Exchange.method data) = false
  /\ endswith NL (Exchange.url data) = false
  /\ endswith NL (Exchange.params data) = false
  /\ endswith NL (Exchange.response data) = false
  /\ (forall s, Exchange.body data = PStr s -> endswith NL s = false).
Proof.
  unfold ReplayTransport.get_whole_request_info. intros H.
  destruct req as [|header more]; cbn [bind] in H; [discriminate|].
  destruct (split SP header) as [|a [|b [|c [|d l]]]]; try discriminate.
  destruct resp as [|status response]; cbn [bind] in H; [discriminate|].
  destruct (if negb (join nl (tl (header :: more)) =? "-" ++ nl)
            then ReplayTransport.loads_or_keep loads
                   (join nl (tl (header :: more)))
            else Return (PStr (join nl (tl (header :: more)))))
    as [v|e]; cbn [bind] in H; [|discriminate].
  destruct (PyStr.int (rstrip status)) as [n|]; cbn [bind] in H;
    [|discriminate].
  injection H as <-. cbn [Exchange.method Exchange.url Exchange.params
                          Exchange.response Exchange.body].
  repeat split; try apply rstrip_never_ends.
  intros s Hs. destruct v; cbn in Hs; try discriminate.
  injection Hs as <-. apply rstrip_never_ends.
Qed.

End PullFacts.

(** ** What recording writes *)

Section StoreFacts.

Import PyStr Transcript Layout Scenario.

Variable dumps : pyval -> result string.
Variable World : Type.
Variable live_perform_request :
  string -> string -> params_t -> pyval -> M World (status_val * pyval).
Variable live_params :
  string -> string -> params_t -> pyval -> World -> params_t.
Context {F : Type} {file_like : RecordTransport.FileLike F}.

Local Abbreviation perform_request :=
  (RecordTransport.perform_request dumps live_perform_request live_params).

(** What the caller observes once the outcome of the live call was
    captured. *)
Lemma capture_outcome (r : result (status_val * pyval))
    (status : status_val) (data : pyval) (exception : option exn) :
  RecordTransport.capture r = Return (status, data, exception) ->
  match exception with
  | Some e => Raise e
  | None => Return (status, data)
  end = r.
Proof.
  destruct r as [[s d]|e]; cbn [RecordTransport.capture].
  - now intros [= <- <- <-].
  - destruct e; try discriminate. now intros [= <- <- <-].
Qed.

Lemma perform_request_captured (method url : string) (params : params_t)
    (body : pyval) (self : RecordTransport.t World F)
    (r : result (status_val * pyval)) (w : World)
    (status : status_val) (data : pyval) (exception : option exn) :
  live_perform_request method url params body (RecordTransport.world self)
  = (r, w) ->
  RecordTransport.capture r = Return (status, data, exception) ->
  perform_request method url params body self
  = (r, RecordTransport.record dumps method url
          (live_params method url params body (RecordTransport.world self))
          body status data
          {| RecordTransport.recfile := RecordTransport.recfile self;
             RecordTransport.log := RecordTransport.log self;
             RecordTransport.world := w |}).
Proof.
  intros Hlive Hcap. unfold RecordTransport.perform_request.
  rewrite Hlive, Hcap. rewrite <- (capture_outcome r _ _ _ Hcap).
  now destruct exception.
Qed.

(** Without a file the recording transport is the live call: same
    outcome, state of the live service as the call left it, nothing
    logged. *)
Theorem record_without_file_passes_through (method url : string)
    (params : params_t) (body : pyval) (self : RecordTransport.t World F) :
  RecordTransport.recfile self = None ->
  perform_request method url params body self
  = (fst (live_perform_request method url params body
            (RecordTransport.world self)),
     {| RecordTransport.recfile := None;
        RecordTransport.log := RecordTransport.log self;
        RecordTransport.world :=
          snd (live_perform_request method url params body
                 (RecordTransport.world self)) |}).
Proof.
  intros Hnone. unfold RecordTransport.perform_request.
  destruct (live_perform_request method url params body
              (RecordTransport.world self)) as [r w].
  cbn [fst snd].
  destruct (RecordTransport.capture r) as [[[status data] exception]|e] eqn:E.
  - rewrite <- (capture_outcome r _ _ _ E).
    unfold RecordTransport.record. cbn [RecordTransport.recfile].
    rewrite Hnone. now destruct exception.
  - destruct r as [[s d]|e']; cbn in E; [discriminate|].
    destruct e'; try discriminate; injection E as <-; now rewrite Hnone.
Qed.

(** When the live call raises anything but a [TransportError], as the
    host transport does with [SerializationError] for a body it cannot
    serialize, the call raises it and nothing is stored: the file and
    the log are as they were. *)
Theorem live_exception_records_nothing (method url : string)
    (params : params_t) (body : pyval) (self : RecordTransport.t World F)
    (e : exn) (w : World) :
  live_perform_request method url params body (RecordTransport.world self)
  = (Raise e, w) ->
  (forall status info, e <> TransportError status info) ->
  perform_request method url params body self
  = (Raise e, {| RecordTransport.recfile := RecordTransport.recfile self;
                 RecordTransport.log := RecordTransport.log self;
                 RecordTransport.world := w |}).
Proof.
  intros Hlive Hne. unfold RecordTransport.perform_request. rewrite Hlive.
  destruct e; try reflexivity. now contradiction (Hne status info).
Qed.

End StoreFacts.

Section MemoryFileFacts.

Import PyStr Transcript Layout Scenario.

Variable dumps : pyval -> result string.
Variable World : Type.
Variable live_perform_request :
  string -> string -> params_t -> pyval -> M World (status_val * pyval).
Variable live_params :
  string -> string -> params_t -> pyval -> World -> params_t.

Local Abbreviation perform_request :=
  (RecordTransport.perform_request dumps live_perform_request live_params
     (file_like := Fixtures.memory_file)).

Lemma perform_request_memory (method url : string) (params : params_t)
    (body : pyval) (self : RecordTransport.t World FileObj) (f : FileObj)
    (r : result (status_val * pyval)) (w : World)
    (status : status_val) (data : pyval) (exception : option exn)
    (text : string) :
  live_perform_request method url params body (RecordTransport.world self)
  = (r, w) ->
  RecordTransport.capture r = Return (status, data, exception) ->
  RecordTransport.recfile self = Some f ->
  at_end f ->
  encode dumps method url
    (live_params method url params body (RecordTransport.world self))
    body status data = Return text ->
  perform_request method url params body self
  = (r, {| RecordTransport.recfile :=
             Some {| content := content f ++ text; unread := [] |};
           RecordTransport.log := RecordTransport.log self;
           RecordTransport.world := w |}).
Proof.
  intros Hlive Hcap Hf Hend Henc.
  rewrite (perform_request_captured dumps World live_perform_request
             live_params _ _ _ _ self r w _ _ _ Hlive Hcap).
  unfold RecordTransport.record.
  cbn [RecordTransport.recfile RecordTransport.log RecordTransport.world].
  rewrite Hf.
  now rewrite (store_appends_encoding dumps _ _ _ _ _ _ f text Hend Henc).
Qed.

(** Over a file in memory that stands at its end, a call whose exchange
    is encoded as [text] appends [text] to the file, leaves the file at
    its end and logs nothing, whether the live call returned or raised a
    [TransportError], which is recorded with its status and message and
    raised again.  The exchange is encoded with the [params] as the live
    call left them. *)
Theorem record_appends_one_exchange (method url : string) (params : params_t)
    (body : pyval) (self : RecordTransport.t World FileObj) (f : FileObj)
    (r : result (status_val * pyval)) (w : World)
    (status : status_val) (data : pyval) (exception : option exn)
    (text : string) :
  live_perform_request method url params body (RecordTransport.world self)
  = (r, w) ->
  RecordTransport.capture r = Return (status, data, exception) ->
  RecordTransport.recfile self = Some f ->
  at_end f ->
  encode dumps method url
    (live_params method url params body (RecordTransport.world self))
    body status data = Return text ->
  perform_request method url params body self
  = (r, {| RecordTransport.recfile :=
             Some {| content := content f ++ text; unread := [] |};
           RecordTransport.log := RecordTransport.log self;
           RecordTransport.world := w |}).
Proof. apply perform_request_memory. Qed.

(** Over a file in memory that stands at its end: when the response
    cannot be serialized, the request lines are in the file already and
    stay there without response and without sentinel; one entry goes to
    the log and the caller observes the outcome of the live call.  The
    request lines are formatted with the [params] as the live call left
    them. *)
Theorem unserializable_response_leaves_half_a_record (method url : string)
    (params : params_t) (body : pyval)
    (self : RecordTransport.t World FileObj) (f : FileObj)
    (r : result (status_val * pyval)) (w : World)
    (status : status_val) (data : pyval) (exception : option exn)
    (req : string) (e : exn) :
  live_perform_request method url params body (RecordTransport.world self)
  = (r, w) ->
  RecordTransport.capture r = Return (status, data, exception) ->
  RecordTransport.recfile self = Some f ->
  at_end f ->
  RecordTransport.format_request dumps method url
    (live_params method url params body (RecordTransport.world self)) body
  = Return req ->
  dumps data = Raise e ->
  perform_request method url params body self
  = (r, {| RecordTransport.recfile :=
             Some {| content := content f ++ req; unread := [] |};
           RecordTransport.log :=
             (RecordTransport.log self
              ++ [LogException "Unable to record request" e])%list;
           RecordTransport.world := w |}).
Proof.
  intros Hlive Hcap Hf Hend Hreq Hd.
  rewrite (perform_request_captured dumps World live_perform_request
             live_params _ _ _ _ self r w _ _ _ Hlive Hcap).
  unfold RecordTransport.record, RecordTransport.store, mbind, lift,
    RecordTransport.format_response.
  cbn [RecordTransport.recfile RecordTransport.log RecordTransport.world].
  rewrite Hf, Hreq.
  cbn [RecordTransport.write Fixtures.memory_file].
  rewrite (write_at_end req f Hend). now rewrite Hd.
Qed.

End MemoryFileFacts.

(** ** Recording, then replaying *)

Section EndToEnd.

Import PyStr Transcript Layout Scenario.

Variable dumps : pyval -> result string.
Variable loads : string -> result pyval.
Variable key_order : list Key.
Variable Live : Type.
Variable live_perform_request :
  string -> string -> params_t -> pyval -> M Live (status_val * pyval).
Variable live_params :
  string -> string -> params_t -> pyval -> Live -> params_t.
Variable World : Type.
Variable Connection : Type.
Variable get_connection : M World Connection.
Variable raise_error : Connection -> Z -> pyval -> result unit.

Local Abbreviation replay_request :=
  (ReplayTransport.perform_request dumps loads key_order get_connection
     raise_error).
Local Abbreviation record_request :=
  (RecordTransport.perform_request dumps live_perform_request live_params
     (file_like := Fixtures.memory_file)).

Lemma pieces_one_line (s : string) :
  contains NL s = false -> pieces s = [placeholder s].
Proof.
  intros H. unfold pieces, placeholder.
  destruct (negb (s =? EmptyString)); [apply (split_without _ _ H)|].
  reflexivity.
Qed.

(** The outcome of a replayed call that agrees with the exchange the
    cursor yields, when its status is one of 200..299. *)
Lemma perform_request_agreeing (self self' : ReplayTransport.t World)
    (data : Exchange.t) (method url : string) (params : params_t)
    (body body' : pyval) :
  ReplayTransport.normalize dumps loads body = Return body' ->
  ReplayTransport.next loads self = (Yield data, self') ->
  (forall key, agrees data method url params body' key = true) ->
  is_2xx (Exchange.status data) = true ->
  replay_request method url params body self
  = (resp <- loads (Exchange.response data) ;;
     Return (Exchange.status data, resp), self').
Proof.
  intros Hb Hn Hag H2xx.
  destruct (loads (Exchange.response data)) as [resp|e] eqn:Hr; cbn [bind].
  - rewrite (perform_request_matched dumps loads key_order World Connection
               get_connection raise_error self self' data method url params
               body body' resp Hb Hn Hag Hr).
    now rewrite H2xx.
  - exact (perform_request_rejected dumps loads key_order World Connection
             get_connection raise_error self self' data method url params
             body body' e Hb Hn Hag Hr).
Qed.

(** The text of a one-line exchange and the exchange it decodes to. *)
Lemma one_line_exchange_decodes (method url : string) (params : params_t)
    (body : pyval) (status : Z) (data : pyval)
    (bt : option string) (tr : string) (b : pyval) :
  contains SP method = false -> contains NL method = false ->
  contains SP url = false -> contains NL url = false ->
  RecordTransport.dumps_body dumps body = Return bt ->
  dumps data = Return tr ->
  contains NL (match bt with Some s => s | None => EmptyString end) = false ->
  contains NL tr = false ->
  best_effort loads
    (placeholder (match bt with Some s => s | None => EmptyString end))
  = Return b ->
  exists text,
    encode dumps method url params body (StatusCode status) data = Return text
    /\ ReplayTransport.replay_loop loads [] [] (lines text)
       = (Yield {| Exchange.method := method;
                   Exchange.url := url;
                   Exchange.params := params_token params;
                   Exchange.body := b;
                   Exchange.status := status;
                   Exchange.response := placeholder tr |}, []).
Proof.
  intros Hm Hm' Hu Hu' Hbt Htr Hb Hr Hbe.
  assert (Henc : exists text,
             encode dumps method url params body (StatusCode status) data
             = Return text).
  { unfold encode, RecordTransport.format_request,
      RecordTransport.format_response.
    rewrite Hbt, Htr. cbn [bind]. eauto. }
  destruct Henc as [text Henc]. exists text. split; [exact Henc|].
  assert (Hs : contains NL (str_status (StatusCode status)) = false)
    by (apply str_int_without; [reflexivity | discriminate]).
  destruct (encode_layout dumps _ _ _ _ _ _ text Henc Hm' Hu' Hs)
    as (bt' & tr' & Hbt' & Htr' & Hl).
  rewrite Hbt in Hbt'. injection Hbt' as <-.
  rewrite Htr in Htr'. injection Htr' as <-.
  rewrite Hl, replay_loop_blocks.
  assert (Hbp : body_pieces bt
                = [placeholder (match bt with
                                | Some s => s
                                | None => EmptyString
                                end)])
    by (destruct bt; [now apply pieces_one_line | reflexivity]).
  rewrite Hbp, (pieces_one_line tr Hr).
  cbn [collected map str_status]. unfold header.
  destruct (params_token_clean params) as [Ht Ht'].
  rewrite !append_assoc.
  rewrite (decode_one_line_record loads method url (params_token params)
             _ status (placeholder tr) b); auto;
    now apply placeholder_one_line.
Qed.

(** One call recorded to an empty file and replayed over what was
    written. *)
Lemma call_recorded_then_replayed (method url : string) (params : params_t)
    (body : pyval) (status : Z) (data : pyval) (w w' : Live) (c : World)
    (bt : option string) (tr : string) (b b' : pyval) :
  live_perform_request method url params body w
  = (Return (StatusCode status, data), w') ->
  live_params method url params body w = params ->
  contains SP method = false -> contains NL method = false ->
  contains SP url = false -> contains NL url = false ->
  RecordTransport.dumps_body dumps body = Return bt ->
  dumps data = Return tr ->
  contains NL (match bt with Some s => s | None => EmptyString end) = false ->
  contains NL tr = false ->
  best_effort loads
    (placeholder (match bt with Some s => s | None => EmptyString end))
  = Return b ->
  ReplayTransport.normalize dumps loads body = Return b' ->
  py_eqb (if truthy b' then b' else PStr "-") b = true ->
  is_2xx status = true ->
  exists text,
    record_request method url params body
      (recording_to (StringIO EmptyString) w)
    = (Return (StatusCode status, data),
       recording_to {| content := text; unread := [] |} w')
    /\ fst (replay_request method url params body (replay_over text c))
       = (resp <- loads (placeholder tr) ;; Return (status, resp)).
Proof.
  intros Hlive Hkeep Hm Hm' Hu Hu' Hbt Htr Hb Hr Hbe Hnorm Heq H2xx.
  destruct (one_line_exchange_decodes method url params body status data
              bt tr b Hm Hm' Hu Hu' Hbt Htr Hb Hr Hbe)
    as (text & Henc & Hloop).
  exists text. split.
  - rewrite (perform_request_memory dumps Live live_perform_request
               live_params
               method url params body (recording_to (StringIO EmptyString) w)
               (StringIO EmptyString) _ w' (StatusCode status) data None
               text Hlive eq_refl eq_refl eq_refl).
    + reflexivity.
    + cbn [recording_to RecordTransport.world]. now rewrite Hkeep.
  - assert (Hnext : ReplayTransport.next loads (replay_over text c)
                    = (Yield {| Exchange.method := method;
                                Exchange.url := url;
                                Exchange.params := params_token params;
                                Exchange.body := b;
                                Exchange.status := status;
                                Exchange.response := placeholder tr |},
                       {| ReplayTransport.recfile :=
                            {| content := text; unread := [] |};
                          ReplayTransport.replay_iterator := GenActive;
                          ReplayTransport.log := [];
                          ReplayTransport.connection := c |})).
    { unfold ReplayTransport.next, replay_over, StringIO.
      cbn [ReplayTransport.replay_iterator ReplayTransport.recfile unread
           content ReplayTransport.log ReplayTransport.connection].
      now rewrite Hloop. }
    rewrite (perform_request_agreeing _ _ _ method url params body b'
               Hnorm Hnext).
    + reflexivity.
    + apply agrees_fields; auto.
    + exact H2xx.
Qed.

End EndToEnd.

Section Sessions.

Import PyStr Transcript Layout Scenario.

Variable dumps : pyval -> result string.
Variable loads : string -> result pyval.
Variable key_order : list Key.
Variable Live : Type.
Variable live_perform_request :
  string -> string -> params_t -> pyval -> M Live (status_val * pyval).
Variable live_params :
  string -> string -> params_t -> pyval -> Live -> params_t.
Variable World : Type.
Variable Connection : Type.
Variable get_connection : M World Connection.
Variable raise_error : Connection -> Z -> pyval -> result unit.

Local Abbreviation replay_requests :=
  (ReplayTransport.perform_requests dumps loads key_order get_connection
     raise_error).
Local Abbreviation replay_request :=
  (ReplayTransport.perform_request dumps loads key_order get_connection
     raise_error).
Local Abbreviation record_request :=
  (RecordTransport.perform_request dumps live_perform_request live_params
     (file_like := Fixtures.memory_file)).
Local Abbreviation record_all :=
  (record_requests dumps live_perform_request live_params
     (file_like := Fixtures.memory_file)).

Lemma lines_nonempty (c : ascii) (s : string) : lines (String c s) <> [].
Proof.
  cbn [lines]. destruct (Ascii.eqb c NL); [discriminate|].
  destruct (lines s); discriminate.
Qed.

(** The lines of two texts, the first of which ends with a newline. *)
Lemma lines_append (a b : string) :
  endswith NL a = true -> lines (a ++ b) = (lines a ++ lines b)%list.
Proof.
  induction a as [|c a IH]; [discriminate|]. intros Hend.
  destruct a as [|c' a'].
  - cbn in Hend. cbn [append lines]. now rewrite Hend.
  - assert (Hend' : endswith NL (String c' a') = true) by exact Hend.
    specialize (IH Hend').
    change (String c (String c' a') ++ b)
      with (String c (String c' a' ++ b)).
    cbn [lines] in *. destruct (Ascii.eqb c NL).
    + now rewrite IH.
    + rewrite IH.
      pose proof (lines_nonempty c' a') as Hne. cbn [lines] in Hne.
      destruct (if Ascii.eqb c' NL
                then String c' EmptyString :: lines a'
                else match lines a' with
                     | [] => [String c' EmptyString]
                     | l :: ls => String c' l :: ls
                     end) as [|l ls]; [congruence | reflexivity].
Qed.

Lemma blocks_well_formed (reqs resps : list string) (data : Exchange.t) :
  ReplayTransport.get_whole_request_info loads
    (collected reqs) (collected resps) = Return data ->
  well_formed loads (marked IN reqs ++ marked OUT resps) data.
Proof.
  intros Hd.
  destruct (marked_request_lines reqs) as (_ & Hn1 & Hq1 & Hr1).
  destruct (marked_response_lines resps) as (_ & Hn2 & Hq2 & Hr2).
  split.
  - unfold no_sentinel in *. now rewrite forallb_app, Hn1, Hn2.
  - unfold request_lines, response_lines in *.
    now rewrite !filter_app, !map_app, Hq1, Hq2, Hr1, Hr2, app_nil_r.
Qed.

(** The record written for a replayable call. *)
Lemma replayable_record (c : Request) (status : Z) (data : pyval) :
  replayable dumps loads c status data ->
  exists text chunk ex b',
    encode dumps (req_method c) (req_url c) (req_params c) (req_body c)
      (StatusCode status) data = Return text
    /\ endswith NL text = true
    /\ lines text = (chunk ++ [END])%list
    /\ well_formed loads chunk ex
    /\ ReplayTransport.normalize dumps loads (req_body c) = Return b'
    /\ (forall key,
          agrees ex (req_method c) (req_url c) (req_params c) b' key = true)
    /\ Exchange.status ex = status
    /\ replayed dumps loads (status, data)
       = (resp <- loads (Exchange.response ex) ;; Return (status, resp)).
Proof.
  intros (Hm & Hm' & Hu & Hu' & _ & bt & tr & b & b' & Hbt & Htr & Hb & Hr
          & Hbe & Hnorm & Heq).
  assert (Henc : exists text,
             encode dumps (req_method c) (req_url c) (req_params c)
               (req_body c) (StatusCode status) data = Return text
             /\ endswith NL text = true).
  { unfold encode, RecordTransport.format_request,
      RecordTransport.format_response.
    rewrite Hbt, Htr. cbn [bind]. eexists. split; [reflexivity|].
    do 3 apply endswith_app. reflexivity. }
  destruct Henc as (text & Henc & Hend).
  assert (Hs : contains NL (str_status (StatusCode status)) = false)
    by (apply str_int_without; [reflexivity | discriminate]).
  destruct (encode_layout dumps _ _ _ _ _ _ text Henc Hm' Hu' Hs)
    as (bt' & tr' & Hbt' & Htr' & Hl).
  rewrite Hbt in Hbt'. injection Hbt' as <-.
  rewrite Htr in Htr'. injection Htr' as <-.
  assert (Hbp : body_pieces bt
                = [placeholder (match bt with
                                | Some s => s
                                | None => EmptyString
                                end)])
    by (destruct bt; [now apply pieces_one_line | reflexivity]).
  rewrite Hbp, (pieces_one_line tr Hr) in Hl.
  destruct (params_token_clean (req_params c)) as [Ht Ht'].
  pose proof (decode_one_line_record loads (req_method c) (req_url c)
                (params_token (req_params c)) _ status (placeholder tr) b
                Hm Hm' Hu Hu' Ht Ht' (placeholder_one_line _ Hb)
                (placeholder_one_line _ Hr) Hbe) as Hdec.
  eexists text, _, _, b'.
  split; [exact Henc|]. split; [exact Hend|].
  split; [rewrite Hl, app_assoc; reflexivity|].
  split; [apply blocks_well_formed; cbn [collected map str_status];
          unfold header; rewrite !append_assoc; exact Hdec|].
  split; [exact Hnorm|]. split; [|split; [reflexivity|]].
  - apply agrees_fields; auto.
  - unfold replayed. cbn [fst snd]. now rewrite Htr.
Qed.

Lemma record_request_outcome (method url : string) (params : params_t)
    (body : pyval) (self : RecordTransport.t Live FileObj) :
  fst (record_request method url params body self)
  = fst (live_perform_request method url params body
           (RecordTransport.world self)).
Proof.
  unfold RecordTransport.perform_request.
  destruct (live_perform_request method url params body
              (RecordTransport.world self)) as [r w].
  destruct r as [[status data]|e]; cbn [RecordTransport.capture fst];
    [reflexivity|].
  now destruct e.
Qed.

Lemma session_replays (calls : list Request) :
  forall (answers : list (Z * pyval)),
    Forall2 (fun c a => replayable dumps loads c (fst a) (snd a))
            calls answers ->
    Forall (keeps_params live_params) calls ->
    forall (f : FileObj) (w : Live),
      at_end f ->
      fst (record_all calls (recording_to f w)) = map answered answers ->
      exists text w',
        snd (record_all calls (recording_to f w))
        = recording_to {| content := content f ++ text; unread := [] |} w'
        /\ forall (self : ReplayTransport.t World) (rest : list string),
             cursor_at (lines text ++ rest)%list self ->
             fst (replay_requests calls self)
             = map (replayed dumps loads) answers
             /\ cursor_at rest (snd (replay_requests calls self)).
Proof.
  induction calls as [|c calls IH]; intros answers Hall Hkeep f w Hf Hrec.
  - inversion Hall; subst. exists EmptyString, w. split.
    + cbn. unfold recording_to. rewrite append_nil_r.
      destruct f as [text unread]. unfold at_end in Hf. cbn in Hf.
      now subst.
    + intros self rest Hcur. split; [reflexivity | exact Hcur].
  - inversion Hall as [|? [status data] ? answers' Hc Hall']; subst.
    inversion Hkeep as [|? ? Hkc Hkeep']; subst.
    cbn [fst snd] in Hc.
    destruct (replayable_record c status data Hc)
      as (text & chunk & ex & b' & Henc & Hend & Hl & Hwf & Hnorm & Hag
          & Hst & Hrep).
    cbn [record_requests] in *.
    pose proof (record_request_outcome (req_method c) (req_url c)
                  (req_params c) (req_body c) (recording_to f w)) as Hout.
    change (RecordTransport.world (recording_to f w)) with w in Hout.
    destruct (live_perform_request (req_method c) (req_url c) (req_params c)
                (req_body c) w) as [r w1] eqn:Hlive.
    cbn [fst] in Hout.
    assert (Hr : r = Return (StatusCode status, data)).
    { destruct (record_request _ _ _ _ (recording_to f w)) as [r0 s1].
      destruct (record_all calls s1) as [rs s2].
      cbn [fst map] in Hrec, Hout. injection Hrec as Hr0 _.
      rewrite <- Hout, Hr0. reflexivity. }
    rewrite Hr in Hlive. clear Hout Hr r.
    assert (Henc' : encode dumps (req_method c) (req_url c)
                      (live_params (req_method c) (req_url c) (req_params c)
                         (req_body c)
                         (RecordTransport.world (recording_to f w)))
                      (req_body c) (StatusCode status) data = Return text)
      by (rewrite (Hkc _); exact Henc).
    rewrite (perform_request_memory dumps Live live_perform_request
               live_params
               _ _ _ _ (recording_to f w) f _ w1 (StatusCode status) data
               None text Hlive eq_refl eq_refl Hf Henc') in Hrec |- *.
    change {| RecordTransport.recfile :=
                Some {| content := content f ++ text; unread := [] |};
              RecordTransport.log := RecordTransport.log (recording_to f w);
              RecordTransport.world := w1 |}
      with (recording_to
              {| content := content f ++ text; unread := [] |} w1)
      in Hrec |- *.
    specialize (IH answers' Hall' Hkeep'
                  {| content := content f ++ text; unread := [] |} w1
                  eq_refl).
    destruct (record_all calls (recording_to _ w1)) as [rs s2].
    cbn [fst snd map] in Hrec, IH |- *.
    injection Hrec as Hrec.
    destruct (IH Hrec) as (text' & w' & Hs2 & Hreplay).
    exists (text ++ text'), w'. split.
    + rewrite Hs2. cbn [content unread]. now rewrite append_assoc.
    + intros self rest Hcur.
      rewrite (lines_append _ _ Hend), Hl in Hcur.
      rewrite <- !app_assoc in Hcur. cbn [app] in Hcur.
      destruct Hwf as [Hns Hd].
      destruct (next_record loads World chunk _ self Hns Hcur ex Hd)
        as (self1 & Hnext & Hcur1 & _).
      cbn [ReplayTransport.perform_requests].
      assert (H2xx : is_2xx (Exchange.status ex) = true).
      { destruct Hc as (_ & _ & _ & _ & H2xx & _). now rewrite Hst. }
      rewrite (perform_request_agreeing dumps loads key_order World
                 Connection get_connection raise_error
                 self self1 ex _ _ _ _ b' Hnorm Hnext Hag H2xx).
      destruct (Hreplay self1 rest Hcur1) as [Hres Hcur2].
      destruct (replay_requests calls self1) as [rs' s'].
      cbn [fst snd] in *. split; [|exact Hcur2]. rewrite Hres. f_equal.
      now rewrite Hrep, Hst.
Qed.

(** A session of replayable calls whose [params] the live call leaves
    as they are, each answered by the live service with a status and
    data, recorded to an empty file in memory and replayed in the same
    order over the text that was written: every replayed call returns
    the recorded status with the deserialization of the serialized data,
    and one more call raises [ReplayLogExceededError]. *)
Theorem recorded_session_replays (calls : list Request)
    (answers : list (Z * pyval)) (w : Live) (c : World) :
  Forall2 (fun c a => replayable dumps loads c (fst a) (snd a))
          calls answers ->
  Forall (keeps_params live_params) calls ->
  fst (record_all calls (recording_to (StringIO EmptyString) w))
  = map answered answers ->
  exists text w',
    snd (record_all calls (recording_to (StringIO EmptyString) w))
    = recording_to {| content := text; unread := [] |} w'
    /\ fst (replay_requests calls (replay_over text c))
       = map (replayed dumps loads) answers
    /\ forall method url params body,
         fst (replay_request method url params body
                (snd (replay_requests calls (replay_over text c))))
         = (_ <- ReplayTransport.normalize dumps loads body ;;
            Raise ReplayLogExceededError).
Proof.
  intros Hall Hkeep Hrec.
  destruct (session_replays calls answers Hall Hkeep (StringIO EmptyString) w
              eq_refl Hrec)
    as (text & w' & Hs & Hreplay).
  exists text, w'. split; [exact Hs|]. split.
  - apply (Hreplay _ []). rewrite app_nil_r. split; reflexivity.
  - intros method url params body.
    assert (Hcur : cursor_at (World := World) (lines text ++ [])%list
                     (replay_over text c))
      by (rewrite app_nil_r; split; reflexivity).
    destruct (Hreplay _ [] Hcur) as [_ Hend].
    unfold ReplayTransport.perform_request, mbind, lift.
    destruct (ReplayTransport.normalize dumps loads body) as [body'|e];
      [|reflexivity].
    cbn [bind].
    pose proof (get_next_replay_exhausted loads key_order World [] _
                  eq_refl Hend method url params body') as Hex.
    destruct (ReplayTransport.get_next_replay loads key_order
                method url params body' _) as [r s'].
    cbn [fst] in Hex. now rewrite Hex.
Qed.

End Sessions.

(** ** Invariants of recording *)

Section AppendOnly.

Import PyStr Transcript Layout Scenario.

Variable dumps : pyval -> result string.
Variable World : Type.
Variable live_perform_request :
  string -> string -> params_t -> pyval -> M World (status_val * pyval).
Variable live_params :
  string -> string -> params_t -> pyval -> World -> params_t.

Local Abbreviation record_request :=
  (RecordTransport.perform_request dumps live_perform_request live_params
     (file_like := Fixtures.memory_file)).
Local Abbreviation record_all :=
  (record_requests dumps live_perform_request live_params
     (file_like := Fixtures.memory_file)).

(** The file [f] with [suffix] written after its text, at its end. *)
Local Abbreviation extended f suffix :=
  {| content := content f ++ suffix; unread := [] |}.

Lemma extended_nil (f : FileObj) : at_end f -> extended f EmptyString = f.
Proof.
  destruct f as [text rest]. unfold at_end. cbn. intros ->.
  now rewrite append_nil_r.
Qed.

Lemma store_extends (method url : string) (params : params_t) (body : pyval)
    (status : status_val) (data : pyval) (f : FileObj) :
  at_end f ->
  exists suffix,
    snd (RecordTransport.store dumps (file_like := Fixtures.memory_file)
           method url params body status data f)
    = extended f suffix.
Proof.
  intros Hend. unfold RecordTransport.store, mbind, lift.
  destruct (RecordTransport.format_request dumps method url params body)
    as [req|e]; cbn [bind fst snd].
  - cbn [RecordTransport.write RecordTransport.flush Fixtures.memory_file].
    rewrite (write_at_end req f Hend).
    destruct (RecordTransport.format_response dumps status data)
      as [resp|e]; cbn [bind fst snd].
    + rewrite (write_at_end resp) by reflexivity.
      rewrite write_at_end by reflexivity.
      cbn [content snd]. eexists. now rewrite !append_assoc.
    + now exists req.
  - exists EmptyString. now rewrite extended_nil.
Qed.

Lemma record_request_extends (method url : string) (params : params_t)
    (body : pyval) (self : RecordTransport.t World FileObj) (f : FileObj) :
  RecordTransport.recfile self = Some f ->
  at_end f ->
  exists suffix,
    RecordTransport.recfile (snd (record_request method url params body self))
    = Some (extended f suffix).
Proof.
  intros Hf Hend. unfold RecordTransport.perform_request.
  destruct (live_perform_request method url params body
              (RecordTransport.world self)) as [r w].
  assert (Hrec : forall params' status data,
             exists suffix,
               RecordTransport.recfile
                 (RecordTransport.record dumps
                    (file_like := Fixtures.memory_file)
                    method url params' body status data
                    {| RecordTransport.recfile := RecordTransport.recfile self;
                       RecordTransport.log := RecordTransport.log self;
                       RecordTransport.world := w |})
               = Some (extended f suffix)).
  { intros params' status data. unfold RecordTransport.record.
    cbn [RecordTransport.recfile]. rewrite Hf.
    destruct (store_extends method url params' body status data f Hend)
      as [suffix Hs].
    destruct (RecordTransport.store dumps _ _ _ _ _ _ f) as [[u|e] f'];
      cbn [snd] in Hs; subst f'; exists suffix; reflexivity. }
  destruct (RecordTransport.capture r) as [[[status data] exception]|e].
  - destruct (Hrec (live_params method url params body
                      (RecordTransport.world self)) status data)
      as [suffix Hs].
    exists suffix. now destruct exception.
  - exists EmptyString. cbn [snd RecordTransport.recfile].
    now rewrite Hf, extended_nil.
Qed.

(** The file in memory of a recording transport, when it stands at its
    end, only grows: whatever the calls and their outcomes, what it held
    before them is still there, followed by what they wrote, and the
    file stands at its end again. *)
Theorem recording_only_appends (calls : list Request)
    (self : RecordTransport.t World FileObj) (f : FileObj) :
  RecordTransport.recfile self = Some f ->
  at_end f ->
  exists suffix,
    RecordTransport.recfile (snd (record_all calls self))
    = Some {| content := content f ++ suffix; unread := [] |}.
Proof.
  revert self f. induction calls as [|c calls IH]; intros self f Hf Hend.
  - exists EmptyString. cbn [record_requests snd].
    now rewrite Hf, extended_nil.
  - cbn [record_requests].
    destruct (record_request_extends (req_method c) (req_url c)
                (req_params c) (req_body c) self f Hf Hend) as [s1 H1].
    destruct (record_request _ _ _ _ self) as [r self1]. cbn [snd] in H1.
    destruct (IH self1 _ H1 eq_refl) as [s2 H2].
    destruct (record_all calls self1) as [rs self2]. cbn [snd] in *.
    exists (s1 ++ s2). rewrite H2. cbn [content unread].
    now rewrite append_assoc.
Qed.

End AppendOnly.

Section HeaderFacts.

Import PyStr Layout.

(** Whatever the params, the header written for a method and a url
    without space splits into three tokens, the last of which is the
    params token followed by the newline of the line. *)
Theorem header_has_three_tokens (method url : string) (params : params_t) :
  contains SP method = false ->
  contains SP url = false ->
  split SP (header method url params ++ nl)
  = [method; url; params_token params ++ nl]
  /\ contains SP (params_token params) = false
  /\ contains NL (params_token params) = false.
Proof.
  intros Hm Hu. destruct (params_token_clean params) as [Ht Ht'].
  split; [|split; assumption].
  unfold header. rewrite !append_assoc.
  change (method ++ " " ++ url ++ " " ++ params_token params ++ nl)
    with (method ++ String SP (url ++ String SP (params_token params ++ nl))).
  rewrite (split_app SP method _ Hm), (split_app SP url _ Hu).
  rewrite (split_without SP (params_token params ++ nl))
    by (rewrite contains_app, Ht; reflexivity).
  reflexivity.
Qed.

End HeaderFacts.

(** ** The theorems above at concrete transcripts *)

Import Fixtures Cases.

Lemma json_loads_raises_only :
  Layout.raises_only_SerializationError Json.loads.
Proof.
  intros s e. unfold Json.loads.
  destruct (Json.parse_value _ s) as [[v r]|]; [|congruence].
  destruct (Json.skip_ws r); congruence.
Qed.

(** [format_request_lines_are_marked] at a concrete transcript. *)
Lemma format_request_lines_are_marked_witness :
  exists bt,
    RecordTransport.dumps_body Json.dumps (PStr two_line_body) = Return bt
    /\ PyStr.lines TWO_LINE_REQUEST
       = Layout.marked IN
           (Layout.header "GET" "/my/url" (Some [("x", "1")])
            :: Layout.body_pieces bt)
    /\ Forall (fun line => PyStr.startswith IN line = true)
              (PyStr.lines TWO_LINE_REQUEST)
    /\ Transcript.no_sentinel (PyStr.lines TWO_LINE_REQUEST) = true.
Proof.
  apply (format_request_lines_are_marked Json.dumps "GET" "/my/url"
           (Some [("x", "1")]) (PStr two_line_body) TWO_LINE_REQUEST);
    vm_compute; reflexivity.
Defined.

(** [format_response_lines_are_marked] at a concrete transcript. *)
Lemma format_response_lines_are_marked_witness :
  exists tr,
    Json.dumps (PDict [("key", PStr "value")]) = Return tr
    /\ PyStr.lines PLAIN_RESPONSE
       = Layout.marked OUT (str_status (StatusCode 200) :: Layout.pieces tr)
    /\ Forall (fun line => PyStr.startswith OUT line = true)
              (PyStr.lines PLAIN_RESPONSE)
    /\ Transcript.no_sentinel (PyStr.lines PLAIN_RESPONSE) = true
    /\ PyStr.endswith PyStr.NL PLAIN_RESPONSE = true.
Proof.
  apply (format_response_lines_are_marked Json.dumps (StatusCode 200)
           (PDict [("key", PStr "value")]) PLAIN_RESPONSE);
    vm_compute; reflexivity.
Defined.

(** [encoded_exchange_is_one_record] at a concrete transcript. *)
Lemma encoded_exchange_is_one_record_witness :
  exists bt tr,
    RecordTransport.dumps_body Json.dumps (PStr sentinel_body) = Return bt
    /\ Json.dumps (PDict []) = Return tr
    /\ ReplayTransport.replay_loop Json.loads [] []
         (PyStr.lines SENTINEL_BODY_CONTENTS)
       = (Transcript.outcome_of
            (ReplayTransport.get_whole_request_info Json.loads
               (Layout.collected
                  (Layout.header "POST" "/notes" None
                   :: Layout.body_pieces bt))
               (Layout.collected
                  (str_status (StatusCode 201) :: Layout.pieces tr))),
          []).
Proof.
  apply (encoded_exchange_is_one_record Json.dumps Json.loads "POST" "/notes"
           None (PStr sentinel_body) (StatusCode 201) (PDict [])
           SENTINEL_BODY_CONTENTS);
    vm_compute; reflexivity.
Defined.

(** [record_without_lines_raises_IndexError] at a concrete transcript. *)
Lemma record_without_lines_raises_IndexError_witness :
  fst (ReplayTransport.get_next_replay Json.loads source_order
         "GET" "/myindex" None PNone (fresh_replay EMPTY_RECORD_CONTENTS))
  = Raise (ReplayFileParseError IndexError).
Proof.
  apply (record_without_lines_raises_IndexError Json.loads source_order
           (list Call) [] [] (fresh_replay EMPTY_RECORD_CONTENTS)).
  - vm_compute. reflexivity.
  - split; vm_compute; reflexivity.
  - left. vm_compute. reflexivity.
Defined.

(** [record_with_bad_status_raises_ValueError] at a concrete transcript. *)
Lemma record_with_bad_status_raises_ValueError_witness :
  fst (ReplayTransport.get_next_replay Json.loads source_order
         "GET" "/myindex" None PNone (fresh_replay NA_CONTENTS))
  = Raise (ReplayFileParseError ValueError).
Proof.
  apply (record_with_bad_status_raises_ValueError Json.loads source_order
           (list Call) (firstn 4 (PyStr.lines NA_CONTENTS)) []
           (fresh_replay NA_CONTENTS)
           ("GET /myindex -" ++ nl) ["-" ++ nl]
           ("N/A" ++ nl) ["Connection refused" ++ nl]).
  - exact json_loads_raises_only.
  - vm_compute. reflexivity.
  - split; vm_compute; reflexivity.
  - vm_compute. reflexivity.
  - vm_compute. reflexivity.
  - vm_compute. reflexivity.
  - vm_compute. reflexivity.
Defined.

(** [pull_consumes_the_record] at a concrete transcript. *)
Lemma pull_consumes_the_record_witness :
  Transcript.cursor_at (skipn 5 (PyStr.lines IN_CONTENTS))
    (snd (ReplayTransport.get_next_replay Json.loads source_order
            "GET" "/badreq" None PNone (fresh_replay IN_CONTENTS)))
  /\ fst (ReplayTransport.get_next_replay Json.loads source_order
            "GET" "/badreq" None PNone (fresh_replay IN_CONTENTS))
     = Raise RequestMatchError.
Proof.
  destruct (pull_consumes_the_record Json.loads source_order (list Call)
              (firstn 4 (PyStr.lines IN_CONTENTS))
              (skipn 5 (PyStr.lines IN_CONTENTS))
              first_exchange (fresh_replay IN_CONTENTS)
              "GET" "/badreq" None PNone) as [Hcur Hraise].
  - split; vm_compute; reflexivity.
  - split; vm_compute; reflexivity.
  - split; [exact Hcur | apply Hraise; vm_compute; reflexivity].
Defined.

(** [parse_error_ends_the_replay] at a concrete transcript. *)
Lemma parse_error_ends_the_replay_witness :
  fst (ReplayTransport.get_next_replay Json.loads source_order
         "GET" "/myindex" None PNone (fresh_replay BAD_THEN_GOOD_CONTENTS))
  = Raise (ReplayFileParseError ValueError)
  /\ ReplayTransport.get_next_replay Json.loads source_order
       "GET" "/myindex" None PNone
       (snd (ReplayTransport.get_next_replay Json.loads source_order
               "GET" "/myindex" None PNone
               (fresh_replay BAD_THEN_GOOD_CONTENTS)))
     = (Raise ReplayLogExceededError,
        snd (ReplayTransport.get_next_replay Json.loads source_order
               "GET" "/myindex" None PNone
               (fresh_replay BAD_THEN_GOOD_CONTENTS))).
Proof.
  apply (parse_error_ends_the_replay Json.loads source_order (list Call)
           (firstn 4 (PyStr.lines BAD_THEN_GOOD_CONTENTS))
           (skipn 5 (PyStr.lines BAD_THEN_GOOD_CONTENTS))
           ValueError (fresh_replay BAD_THEN_GOOD_CONTENTS)).
  - vm_compute. reflexivity.
  - split; vm_compute; reflexivity.
  - vm_compute. reflexivity.
Defined.

(** [decoded_fields_have_no_trailing_newline] at a concrete transcript. *)
Lemma decoded_fields_have_no_trailing_newline_witness :
  PyStr.endswith PyStr.NL (Exchange.method first_exchange) = false
  /\ PyStr.endswith PyStr.NL (Exchange.url first_exchange) = false
  /\ PyStr.endswith PyStr.NL (Exchange.params first_exchange) = false
  /\ PyStr.endswith PyStr.NL (Exchange.response first_exchange) = false
  /\ (forall s, Exchange.body first_exchange = PStr s ->
                PyStr.endswith PyStr.NL s = false).
Proof.
  apply (decoded_fields_have_no_trailing_newline Json.loads
           (Transcript.request_lines (firstn 4 (PyStr.lines IN_CONTENTS)))
           (Transcript.response_lines (firstn 4 (PyStr.lines IN_CONTENTS)))
           first_exchange).
  vm_compute. reflexivity.
Defined.

(** [record_without_file_passes_through] at a concrete transcript. *)
Lemma record_without_file_passes_through_witness :
  RecordTransport.perform_request Json.dumps dummy_live dummy_params
    (file_like := memory_file) "GET" "/myindex" None PNone
    (RecordTransport.pass_through [])
  = (Return (StatusCode 200, PDict [("key", PStr "value")]),
     RecordTransport.pass_through [("GET", "/myindex", None, PNone)]).
Proof.
  apply (record_without_file_passes_through Json.dumps (list Call) dummy_live
           dummy_params
           (file_like := memory_file) "GET" "/myindex" None PNone
           (RecordTransport.pass_through [])).
  vm_compute. reflexivity.
Defined.

(** [live_exception_records_nothing] at a body the host transport
    cannot serialize: the connection receives no call. *)
Lemma live_exception_records_nothing_witness :
  RecordTransport.perform_request Json.dumps dummy_live dummy_params
    (file_like := memory_file) "POST" "/people" None unserializable
    (Scenario.recording_to (StringIO EmptyString) [])
  = (Raise SerializationError,
     {| RecordTransport.recfile := Some (StringIO EmptyString);
        RecordTransport.log := [];
        RecordTransport.world := [] |}).
Proof.
  apply (live_exception_records_nothing Json.dumps (list Call) dummy_live
           dummy_params (file_like := memory_file)
           "POST" "/people" None unserializable
           (Scenario.recording_to (StringIO EmptyString) [])
           SerializationError []).
  - vm_compute. reflexivity.
  - discriminate.
Defined.

(** [record_appends_one_exchange] at a call with the host option
    [ignore]: the header is written without it. *)
Lemma record_appends_one_exchange_witness :
  RecordTransport.perform_request Json.dumps
    (answering (Return (StatusCode 404, PDict [("found", PBool false)])))
    dummy_params
    (file_like := memory_file) "GET" "/myindex/document/1"
    (Some [("ignore", "404")]) PNone
    (Scenario.recording_to (StringIO EmptyString) [])
  = (Return (StatusCode 404, PDict [("found", PBool false)]),
     {| RecordTransport.recfile :=
          Some {| content := NOT_FOUND_CONTENTS; unread := [] |};
        RecordTransport.log := [];
        RecordTransport.world :=
          [("GET", "/myindex/document/1", Some [], PNone)] |}).
Proof.
  apply (record_appends_one_exchange Json.dumps (list Call)
           (answering (Return (StatusCode 404, PDict [("found", PBool false)])))
           dummy_params
           "GET" "/myindex/document/1" (Some [("ignore", "404")]) PNone
           (Scenario.recording_to (StringIO EmptyString) [])
           (StringIO EmptyString)
           (Return (StatusCode 404, PDict [("found", PBool false)]))
           [("GET", "/myindex/document/1", Some [], PNone)]
           (StatusCode 404) (PDict [("found", PBool false)]) None
           NOT_FOUND_CONTENTS);
    vm_compute; reflexivity.
Defined.

(** [unserializable_response_leaves_half_a_record] at a concrete transcript. *)
Lemma unserializable_response_leaves_half_a_record_witness :
  RecordTransport.perform_request Json.dumps
    (answering (Return (StatusCode 200, unserializable))) dummy_params
    (file_like := memory_file) "GET" "/myindex" None PNone
    (Scenario.recording_to (StringIO EmptyString) [])
  = (Return (StatusCode 200, unserializable),
     {| RecordTransport.recfile :=
          Some {| content := HALF_RECORD; unread := [] |};
        RecordTransport.log :=
          [LogException "Unable to record request" SerializationError];
        RecordTransport.world := [("GET", "/myindex", None, PNone)] |}).
Proof.
  apply (unserializable_response_leaves_half_a_record Json.dumps (list Call)
           (answering (Return (StatusCode 200, unserializable)))
           dummy_params
           "GET" "/myindex" None PNone
           (Scenario.recording_to (StringIO EmptyString) [])
           (StringIO EmptyString)
           (Return (StatusCode 200, unserializable))
           [("GET", "/myindex", None, PNone)]
           (StatusCode 200) unserializable None
           HALF_RECORD SerializationError);
    vm_compute; reflexivity.
Defined.

Lemma two_calls_replayable :
  Forall2 (fun c a => Scenario.replayable Json.dumps Json.loads c
                        (fst a) (snd a))
          two_calls two_answers.
Proof.
  constructor; [|constructor; [|constructor]].
  - repeat (split; [vm_compute; reflexivity|]).
    exists None, (PyStr.dq "{'key': 'value'}"), (PStr "-"), PNone.
    repeat split; vm_compute; reflexivity.
  - repeat (split; [vm_compute; reflexivity|]).
    exists (Some (PyStr.dq "{'req': 'body'}")), (PyStr.dq "{'key': 'value'}"),
      (PDict [("req", PStr "body")]), (PDict [("req", PStr "body")]).
    repeat split; vm_compute; reflexivity.
Defined.

Lemma two_calls_keep_params :
  Forall (Scenario.keeps_params dummy_params) two_calls.
Proof. repeat constructor. Defined.

(** [recorded_session_replays] at a concrete transcript. *)
Lemma recorded_session_replays_witness :
  exists text w',
    snd (Scenario.record_requests Json.dumps dummy_live dummy_params
           (file_like := memory_file) two_calls
           (Scenario.recording_to (StringIO EmptyString) []))
    = Scenario.recording_to {| content := text; unread := [] |} w'
    /\ fst (ReplayTransport.perform_requests Json.dumps Json.loads
              source_order dummy_pool http_error two_calls
              (Scenario.replay_over text ([] : list Call)))
       = map (Scenario.replayed Json.dumps Json.loads) two_answers
    /\ forall method url params body,
         fst (ReplayTransport.perform_request Json.dumps Json.loads
                source_order dummy_pool http_error method url params body
                (snd (ReplayTransport.perform_requests Json.dumps Json.loads
                        source_order dummy_pool http_error two_calls
                        (Scenario.replay_over text ([] : list Call)))))
         = (_ <- ReplayTransport.normalize Json.dumps Json.loads body ;;
            Raise ReplayLogExceededError).
Proof.
  apply (recorded_session_replays Json.dumps Json.loads source_order
           (list Call) dummy_live dummy_params (list Call) unit dummy_pool
           http_error two_calls two_answers [] []).
  - exact two_calls_replayable.
  - exact two_calls_keep_params.
  - vm_compute. reflexivity.
Defined.

(** The file at the end of the text it holds already. *)
Lemma recording_only_appends_witness :
  exists suffix,
    RecordTransport.recfile
      (snd (Scenario.record_requests Json.dumps dummy_live dummy_params
              (file_like := memory_file) two_calls
              (Scenario.recording_to
                 {| content := HALF_RECORD; unread := [] |} [])))
    = Some {| content := HALF_RECORD ++ suffix; unread := [] |}.
Proof.
  apply (recording_only_appends Json.dumps (list Call) dummy_live
           dummy_params two_calls
           (Scenario.recording_to {| content := HALF_RECORD; unread := [] |}
              [])
           {| content := HALF_RECORD; unread := [] |}); reflexivity.
Defined.

(** A file that holds text and stands at its start, as
    [StringIO(text)] does, is written over. *)
Example recording_over_a_rewound_file :
  RecordTransport.recfile
    (snd (Scenario.record_requests Json.dumps dummy_live dummy_params
            (file_like := memory_file) two_calls
            (Scenario.recording_to (StringIO HALF_RECORD) [])))
  = RecordTransport.recfile
      (snd (Scenario.record_requests Json.dumps dummy_live dummy_params
              (file_like := memory_file) two_calls
              (Scenario.recording_to (StringIO EmptyString) []))).
Proof. vm_compute. reflexivity. Qed.

(** [replay_keeps_connection_and_file] at [IN_CONTENTS]. *)
Lemma replay_keeps_connection_and_file_witness :
  ReplayTransport.connection
    (snd (ReplayTransport.perform_requests Json.dumps Json.loads
            source_order dummy_pool http_error two_calls
            (fresh_replay IN_CONTENTS)))
  = ReplayTransport.connection (fresh_replay IN_CONTENTS).
Proof.
  destruct (replay_keeps_connection_and_file Json.dumps Json.loads
              source_order (list Call) unit dummy_pool http_error
              two_calls (fresh_replay IN_CONTENTS)) as (_ & _ & H).
  apply H. vm_compute. reflexivity.
Defined.

(** [matched_2xx_exchange_is_returned] at the first exchange of
    [IN_CONTENTS] ([test_simple_fetch]). *)
Lemma matched_2xx_exchange_is_returned_witness :
  replay_request "GET" "/myindex" None PNone (fresh_replay IN_CONTENTS)
  = (Return (200%Z, PDict [("key", PStr "value")]),
     snd (ReplayTransport.next Json.loads (fresh_replay IN_CONTENTS)))
  /\ ReplayTransport.connection
       (snd (ReplayTransport.next Json.loads (fresh_replay IN_CONTENTS)))
     = [].
Proof.
  apply (matched_2xx_exchange_is_returned Json.dumps Json.loads
           source_order (list Call) unit dummy_pool http_error
           (fresh_replay IN_CONTENTS)
           (snd (ReplayTransport.next Json.loads (fresh_replay IN_CONTENTS)))
           first_exchange "GET" "/myindex" None PNone PNone
           (PDict [("key", PStr "value")])).
  - vm_compute. reflexivity.
  - vm_compute. reflexivity.
  - reflexivity.
  - reflexivity.
  - reflexivity.
  - reflexivity.
  - simpl. lia.
  - vm_compute. reflexivity.
Defined.

(** [matched_error_exchange_raises_hook_error] at a recorded 404. *)
Lemma matched_error_exchange_raises_hook_error_witness :
  replay_request "GET" "/myindex/document/1" None PNone
    (fresh_replay NOT_FOUND_CONTENTS)
  = (Raise (TransportError (StatusCode 404) (PDict [("found", PBool false)])),
     ReplayTransport.with_connection []
       (snd (ReplayTransport.next Json.loads
               (fresh_replay NOT_FOUND_CONTENTS)))).
Proof.
  apply (matched_error_exchange_raises_hook_error Json.dumps Json.loads
           source_order (list Call) unit dummy_pool http_error
           (fresh_replay NOT_FOUND_CONTENTS)
           (snd (ReplayTransport.next Json.loads
                   (fresh_replay NOT_FOUND_CONTENTS)))
           not_found_exchange "GET" "/myindex/document/1" None PNone PNone
           (PDict [("found", PBool false)]) tt []
           (TransportError (StatusCode 404) (PDict [("found", PBool false)]))).
  - vm_compute. reflexivity.
  - vm_compute. reflexivity.
  - intros []; vm_compute; reflexivity.
  - vm_compute. reflexivity.
  - vm_compute. reflexivity.
  - vm_compute. reflexivity.
  - reflexivity.
Defined.

(** [rejected_response_raises_whatever_the_status] at a recorded
    503 whose message is plain text. *)
Lemma rejected_response_raises_whatever_the_status_witness :
  replay_request "GET" "/myindex" None PNone
    (fresh_replay UNAVAILABLE_CONTENTS)
  = (Raise SerializationError,
     snd (ReplayTransport.next Json.loads (fresh_replay UNAVAILABLE_CONTENTS)))
  /\ ReplayTransport.connection
       (snd (ReplayTransport.next Json.loads
               (fresh_replay UNAVAILABLE_CONTENTS)))
     = [].
Proof.
  apply (rejected_response_raises_whatever_the_status Json.dumps Json.loads
           source_order (list Call) unit dummy_pool http_error
           (fresh_replay UNAVAILABLE_CONTENTS)
           (snd (ReplayTransport.next Json.loads
                   (fresh_replay UNAVAILABLE_CONTENTS)))
           unavailable_exchange "GET" "/myindex" None PNone PNone
           SerializationError).
  - vm_compute. reflexivity.
  - vm_compute. reflexivity.
  - intros []; vm_compute; reflexivity.
  - vm_compute. reflexivity.
Defined.

(** A call that carries the host option [ignore] is recorded without
    it, as [NOT_FOUND_CONTENTS]; replayed with the same [params] it does
    not match the record, which holds the placeholder for them. *)
Theorem call_with_host_option_does_not_replay :
  RecordTransport.perform_request Json.dumps
    (answering (Return (StatusCode 404, PDict [("found", PBool false)])))
    dummy_params "GET" "/myindex/document/1" (Some [("ignore", "404")])
    PNone empty_record
  = (Return (StatusCode 404, PDict [("found", PBool false)]),
     {| RecordTransport.recfile :=
          Some {| content := NOT_FOUND_CONTENTS; unread := [] |};
        RecordTransport.log := [];
        RecordTransport.world :=
          [("GET", "/myindex/document/1", Some [], PNone)] |})
  /\ fst (replay_request "GET" "/myindex/document/1"
            (Some [("ignore", "404")]) PNone
            (fresh_replay NOT_FOUND_CONTENTS))
     = Raise RequestMatchError
  /\ ReplayTransport.log
       (snd (replay_request "GET" "/myindex/document/1"
               (Some [("ignore", "404")]) PNone
               (fresh_replay NOT_FOUND_CONTENTS)))
     = [LogError (PStr "ignore=404") (PStr "-")].
Proof.
  split; [vm_compute; reflexivity|].
  split; vm_compute; reflexivity.
Qed.

(** [header_has_three_tokens] at params with spaces in them. *)
Lemma header_has_three_tokens_witness :
  PyStr.split PyStr.SP
    (Layout.header "GET" "/my/url" (Some [("a b", "c d")]) ++ nl)
  = ["GET"; "/my/url"; params_token (Some [("a b", "c d")]) ++ nl]
  /\ PyStr.contains PyStr.SP (params_token (Some [("a b", "c d")])) = false
  /\ PyStr.contains PyStr.NL (params_token (Some [("a b", "c d")])) = false.
Proof.
  apply (header_has_three_tokens "GET" "/my/url" (Some [("a b", "c d")]));
    vm_compute; reflexivity.
Defined.
